(** * Mechanic-Shop-System: scheduling and technician ranking

    A shallow embedding of the two services that carry the scheduling
    logic of the shop application:

    - [SchedulingService] (slot generation, conflict detection, service
      durations), and
    - the assignment part of [BrowserDatabaseService] (technician
      workload and the ranking of technicians for a work order).

    Both services keep their collections as one JSON document under a key
    of the browser's [localStorage]; every public method starts by reading
    that document and seeds it with defaults when the key is absent.  This
    is modelled with a small state monad over [LocalStorage].

    Conventions of the embedding.
    - JavaScript numbers that hold integers (epoch milliseconds, minutes,
      model years, counters, scores) are [Z].  The complexity multiplier,
      the one number that enters a product, is an IEEE-754 binary64 value
      ([spec_float]) and the product is the binary64 product.  Hourly
      rates are only compared with integer literals and are rationals.
    - A [Date] is its time value, in milliseconds since the epoch, and is
      assumed to stay in the range of valid dates.  The host's time zone
      is a constant offset [LocalTZA] from UTC.
    - Strings are ASCII strings.
    - [JSON.parse (JSON.stringify d)] is the identity on the records below;
      bookkeeping fields that no modelled method reads ([created_at],
      [updated_at], names, notes) are left out of the records. *)

From Stdlib Require Import ZArith QArith List String Ascii Bool Lia.
From Stdlib Require Import Permutation Sorted.
From Stdlib Require Import Floats.SpecFloat.
Import ListNotations.

Open Scope string_scope.
Open Scope list_scope.
Open Scope Z_scope.

(* ================================================================== *)
(** * State monad over the browser storage *)
(* ================================================================== *)

Definition State (S A : Type) : Type := S -> A * S.

Definition ret {S A : Type} (a : A) : State S A := fun s => (a, s).

Definition bind {S A B : Type} (m : State S A) (k : A -> State S B)
  : State S B :=
  fun s => let (a, s') := m s in k a s'.

Notation "x <- m ;; k" := (bind m (fun x => k))
  (at level 61, m at next level, right associativity).

Definition evalState {S A : Type} (m : State S A) (s : S) : A := fst (m s).
Definition execState {S A : Type} (m : State S A) (s : S) : S := snd (m s).

(* ================================================================== *)
(** * Host primitives *)
(* ================================================================== *)

(** ** Numbers *)

Module Float64.

Definition float64 : Type := spec_float.

Definition prec : Z := 53.
Definition emax : Z := 1024.

  (** An integer-valued double, with the integer as its mantissa. *)
Definition of_Z (z : Z) : float64 :=
  match z with
  | Z0 => S754_zero false
  | Zpos p => S754_finite false p 0
  | Zneg p => S754_finite true p 0
  end.

  (** The double denoted by the decimal literal [n / d] (for instance
      [1.2] is [decimal 12 10]): numerator and denominator are exact, and
      a correctly rounded division gives the nearest double. *)
Definition decimal (n d : Z) : float64 :=
    SFdiv prec emax (of_Z n) (of_Z d).

Definition mul : float64 -> float64 -> float64 := SFmul prec emax.

  (** [Math.ceil] on a finite double, as an integer.  NaN and the
      infinities have no integer value; they do not arise from finite
      multipliers and minute counts of realistic size, and are sent to 0
      here. *)
Definition Math_ceil (x : float64) : Z :=
    match x with
    | S754_finite s m e =>
        let n := if s then Z.neg m else Z.pos m in
        if 0 <=? e then n * 2 ^ e else - ((- n) / 2 ^ (- e))
    | _ => 0
    end.

End Float64.
Import Float64.

(** ** Strings *)

Definition lowerAscii (c : ascii) : ascii :=
  let n := nat_of_ascii c in
  if (Nat.leb 65 n && Nat.leb n 90)%bool then ascii_of_nat (n + 32) else c.

Fixpoint toLowerCase (s : string) : string :=
  match s with
  | EmptyString => EmptyString
  | String c s' => String (lowerAscii c) (toLowerCase s')
  end.

(** [s.includes(sub)] *)
Fixpoint includes (s sub : string) : bool :=
  if String.prefix sub s then true
  else match s with
       | EmptyString => false
       | String _ s' => includes s' sub
       end.

(** [s.split(':')]: the pieces between colons; never empty. *)
Fixpoint split_colon (s : string) : list string :=
  match s with
  | EmptyString => [EmptyString]
  | String c s' =>
      if Ascii.eqb c ":" then EmptyString :: split_colon s'
      else match split_colon s' with
           | [] => [String c EmptyString]
           | piece :: pieces => String c piece :: pieces
           end
  end.

Definition digitValue (c : ascii) : option Z :=
  let n := nat_of_ascii c in
  if (Nat.leb 48 n && Nat.leb n 57)%bool then Some (Z.of_nat n - 48) else None.

Fixpoint digitsValue (acc : Z) (s : string) : option Z :=
  match s with
  | EmptyString => Some acc
  | String c s' =>
      match digitValue c with
      | Some d => digitsValue (10 * acc + d) s'
      | None => None
      end
  end.

(** [Number(s)] for the strings the schedule holds: a run of decimal
    digits denotes its value and the empty string denotes 0; [None] is
    NaN.  Other numeric literal forms (signs, blanks, fractions, exponents,
    radix prefixes) are not part of the ["HH:MM"] format and are read as
    NaN here. *)
Definition Number (s : string) : option Z := digitsValue 0 s.

(** Truthiness of an optional string, as in [a && b]. *)
Definition truthy (o : option string) : bool :=
  match o with
  | Some s => negb (String.eqb s "")
  | None => false
  end.

(** ** Dates *)

Definition Date : Type := Z.

Definition msPerDay : Z := 86400000.
Definition msPerHour : Z := 3600000.
Definition msPerMinute : Z := 60000.
Definition msPerSecond : Z := 1000.

Definition Day (t : Z) : Z := t / msPerDay.
Definition WeekDay (t : Z) : Z := (Day t + 4) mod 7.
Definition HourFromTime (t : Z) : Z := (t / msPerHour) mod 24.
Definition MinFromTime (t : Z) : Z := (t / msPerMinute) mod 60.
Definition SecFromTime (t : Z) : Z := (t / msPerSecond) mod 60.
Definition msFromTime (t : Z) : Z := t mod msPerSecond.

Definition MakeTime (hour min sec ms : Z) : Z :=
  hour * msPerHour + min * msPerMinute + sec * msPerSecond + ms.
Definition MakeDate (day time : Z) : Z := day * msPerDay + time.

Definition digitChar (d : Z) : ascii := ascii_of_nat (48 + Z.to_nat d).

Definition twoDigits (n : Z) : string :=
  String (digitChar (n / 10)) (String (digitChar (n mod 10)) EmptyString).

(** The host environment: the offset of local time from UTC, in
    milliseconds, and the locale's rendering of a time of day. *)
Record Host : Type := {
  LocalTZA : Z;
  toLocaleTimeString : Date -> string
}.

Section DateMethods.

Variable host : Host.

Definition LocalTime (t : Z) : Z := t + LocalTZA host.
Definition UTC (t : Z) : Z := t - LocalTZA host.

Definition getDay (d : Date) : Z := WeekDay (LocalTime d).
Definition getMinutes (d : Date) : Z := MinFromTime (LocalTime d).

Definition setHours (d : Date) (hour min sec ms : Z) : Date :=
    UTC (MakeDate (Day (LocalTime d)) (MakeTime hour min sec ms)).

Definition setMinutes (d : Date) (min : Z) : Date :=
    let t := LocalTime d in
    UTC (MakeDate (Day t)
           (MakeTime (HourFromTime t) min (SecFromTime t) (msFromTime t))).

  (** [d.toTimeString().slice(0, 5)]: the local wall-clock time ["HH:MM"]. *)
Definition clockHHMM (d : Date) : string :=
    let t := LocalTime d in
    String.append (twoDigits (HourFromTime t))
      (String.append ":" (twoDigits (MinFromTime t))).

End DateMethods.

(* ================================================================== *)
(** * Data model (types/models.ts) *)
(* ================================================================== *)

Inductive AppointmentStatus : Type :=
| scheduled | confirmed | appt_in_progress | appt_completed
| appt_cancelled | no_show.

Inductive AppointmentPriority : Type := normal | urgent | rush.

Record Appointment : Type := {
  appt_id : string;
  appt_customer_id : string;
  appt_vehicle_id : option string;
  service_type : string;
  service_category : string;
  scheduled_start : Z;
  scheduled_end : Z;
  duration_minutes : Z;
  appt_assigned_tech : option string;
  appt_status : AppointmentStatus;
  appt_priority : AppointmentPriority
}.

Record ShopSchedule : Type := {
  schedule_id : string;
  day_of_week : Z;
  open_time : string;
  close_time : string;
  lunch_start : option string;
  lunch_end : option string;
  is_closed : bool;
  max_appointments_per_hour : option Z
}.

Record ServiceDuration : Type := {
  duration_id : string;
  service_id : string;
  service_name : string;
  category : string;
  estimated_minutes : Z;
  minimum_minutes : Z;
  maximum_minutes : Z;
  buffer_minutes : Z;
  complexity_multiplier : float64;
  requires_specialist : bool;
  can_overlap : bool
}.

Record TimeSlot : Type := {
  slot_start : Date;
  slot_end : Date;
  available : bool;
  reason : option string;
  available_techs : list string
}.

Inductive ConflictType : Type :=
| double_booking | no_tech_available | outside_hours | insufficient_time.

Record AppointmentConflict : Type := {
  conflict_type : ConflictType;
  message : string;
  conflicting_appointment_id : option string
}.

Inductive WorkOrderStatus : Type :=
| pending | in_progress | awaiting_approval | approved | completed | cancelled.

(** [description] is not declared on the interface but is read by the
    ranking code; a stored work order may or may not carry it. *)
Record WorkOrder : Type := {
  wo_id : string;
  wo_vehicle_id : string;
  wo_customer_id : string;
  wo_status : WorkOrderStatus;
  assigned_tech : option string;
  customer_concern : option string;
  description : option string
}.

Record Vehicle : Type := {
  vehicle_id : string;
  vehicle_customer_id : string;
  year : option Z
}.

Record TechProfile : Type := {
  tech_id : string;
  tech_name : string;
  employee_id : option string;
  certifications : option (list string);
  specialties : option (list string);
  hourly_rate : option Q;
  active : bool
}.

(** The document stored under ['shop_scheduling']. *)
Record SchedulingData : Type := {
  appointments : list Appointment;
  shop_schedules : list ShopSchedule;
  service_durations : list ServiceDuration
}.

(** The document stored under ['shop_database'] (the collections the
    assignment methods read). *)
Record StorageData : Type := {
  vehicles : list Vehicle;
  work_orders : list WorkOrder;
  tech_profiles : list TechProfile
}.

(** [localStorage], restricted to the two keys of the services. *)
Record LocalStorage : Type := {
  shop_scheduling : option SchedulingData;
  shop_database : option StorageData
}.

Definition emptyStorage : LocalStorage :=
  {| shop_scheduling := None; shop_database := None |}.

(* ================================================================== *)
(** * SchedulingService *)
(* ================================================================== *)

Definition mkShopSchedule (day : Z) (id open close : string) : ShopSchedule :=
  {| schedule_id := id;
     day_of_week := day;
     open_time := open;
     close_time := close;
     lunch_start := Some "12:00";
     lunch_end := Some "13:00";
     is_closed := false;
     max_appointments_per_hour := Some 4 |}.

Definition getDefaultShopSchedule : list ShopSchedule :=
  [ mkShopSchedule 1 "schedule_1" "08:00" "17:00";
    mkShopSchedule 2 "schedule_2" "08:00" "17:00";
    mkShopSchedule 3 "schedule_3" "08:00" "17:00";
    mkShopSchedule 4 "schedule_4" "08:00" "17:00";
    mkShopSchedule 5 "schedule_5" "08:00" "17:00";
    mkShopSchedule 6 "schedule_6" "08:00" "15:00";
    mkShopSchedule 0 "schedule_0" "10:00" "14:00" ].

Definition getDefaultServiceDurations : list ServiceDuration :=
  [ {| duration_id := "oil-change-duration";
       service_id := "oil-change";
       service_name := "Oil Change";
       category := "maintenance";
       estimated_minutes := 30;
       minimum_minutes := 20;
       maximum_minutes := 45;
       buffer_minutes := 10;
       complexity_multiplier := decimal 10 10;
       requires_specialist := false;
       can_overlap := true |};
    {| duration_id := "brake-inspection-duration";
       service_id := "brake-inspection";
       service_name := "Brake Inspection";
       category := "inspection";
       estimated_minutes := 45;
       minimum_minutes := 30;
       maximum_minutes := 60;
       buffer_minutes := 15;
       complexity_multiplier := decimal 12 10;
       requires_specialist := false;
       can_overlap := false |};
    {| duration_id := "brake-pads-duration";
       service_id := "brake-pads";
       service_name := "Brake Pad Replacement";
       category := "repair";
       estimated_minutes := 90;
       minimum_minutes := 60;
       maximum_minutes := 120;
       buffer_minutes := 15;
       complexity_multiplier := decimal 15 10;
       requires_specialist := true;
       can_overlap := false |};
    {| duration_id := "tire-rotation-duration";
       service_id := "tire-rotation";
       service_name := "Tire Rotation";
       category := "maintenance";
       estimated_minutes := 25;
       minimum_minutes := 15;
       maximum_minutes := 35;
       buffer_minutes := 10;
       complexity_multiplier := decimal 10 10;
       requires_specialist := false;
       can_overlap := true |};
    {| duration_id := "alignment-duration";
       service_id := "alignment";
       service_name := "Wheel Alignment";
       category := "maintenance";
       estimated_minutes := 60;
       minimum_minutes := 45;
       maximum_minutes := 90;
       buffer_minutes := 15;
       complexity_multiplier := decimal 13 10;
       requires_specialist := true;
       can_overlap := false |} ].

Definition saveSchedulingData (data : SchedulingData)
  : State LocalStorage unit :=
  fun ls =>
    (tt, {| shop_scheduling := Some data;
            shop_database := shop_database ls |}).

Definition defaultSchedulingData : SchedulingData :=
  {| appointments := [];
     shop_schedules := getDefaultShopSchedule;
     service_durations := getDefaultServiceDurations |}.

(** Reads the stored document; on first use the defaults are written
    back and returned. *)
Definition getSchedulingData : State LocalStorage SchedulingData :=
  fun ls =>
    match shop_scheduling ls with
    | Some saved => (saved, ls)
    | None =>
        (_ <- saveSchedulingData defaultSchedulingData ;;
         ret defaultSchedulingData) ls
    end.

Definition getServiceDuration (serviceId : string)
  : State LocalStorage (option ServiceDuration) :=
  data <- getSchedulingData ;;
  ret (find (fun sd => String.eqb (service_id sd) serviceId)
         (service_durations data)).

(** [vehicleYear && vehicleYear < 2010] *)
Definition isOlderVehicle (vehicleYear : option Z) : bool :=
  match vehicleYear with
  | Some y => negb (y =? 0) && (y <? 2010)
  | None => false
  end.

Definition calculateServiceDuration (serviceId : string)
    (vehicleYear : option Z) : State LocalStorage Z :=
  serviceDuration <- getServiceDuration serviceId ;;
  match serviceDuration with
  | None => ret 60
  | Some sd =>
      let duration := of_Z (estimated_minutes sd) in
      let duration :=
        if isOlderVehicle vehicleYear
        then mul duration (complexity_multiplier sd)
        else duration in
      ret (Math_ceil duration)
  end.

Definition conflictsWith (startTime endTime : Date) (appointment : Appointment)
  : bool :=
  let appointmentStart := scheduled_start appointment in
  let appointmentEnd := scheduled_end appointment in
  (startTime <? appointmentEnd) && (endTime >? appointmentStart).

Definition isCancelled (appointment : Appointment) : bool :=
  match appt_status appointment with
  | appt_cancelled => true
  | _ => false
  end.

Definition getAvailableTechs (_startTime _endTime : Date) (_serviceId : string)
  : list string :=
  ["tech-001"; "tech-002"].

Section Scheduling.

Variable host : Host.

Definition getShopScheduleForDay (date : Date)
  : State LocalStorage (option ShopSchedule) :=
  data <- getSchedulingData ;;
  let dayOfWeek := getDay host date in
  ret (find (fun schedule => day_of_week schedule =? dayOfWeek)
         (shop_schedules data)).

Definition conflictDescriptor (appointment : Appointment)
  : AppointmentConflict :=
  {| conflict_type := double_booking;
     message :=
       String.append "Conflicts with existing appointment at "
         (toLocaleTimeString host (scheduled_start appointment));
     conflicting_appointment_id := Some (appt_id appointment) |}.

(** The [for ... of] loop over the stored appointments. *)
Fixpoint scanAppointments (startTime endTime : Date)
    (appts : list Appointment) : option AppointmentConflict :=
  match appts with
  | [] => None
  | appointment :: rest =>
      if isCancelled appointment then scanAppointments startTime endTime rest
      else if conflictsWith startTime endTime appointment
           then Some (conflictDescriptor appointment)
           else scanAppointments startTime endTime rest
  end.

Definition checkAppointmentConflict (startTime endTime : Date)
  : State LocalStorage (option AppointmentConflict) :=
  data <- getSchedulingData ;;
  ret (scanAppointments startTime endTime (appointments data)).

(** [const [h, m] = s.split(':').map(Number)]; [None] when either
    component is NaN or missing, which makes [setHours] yield an invalid
    date. *)
Definition hourMinute (hhmm : string) : option (Z * Z) :=
  match map Number (split_colon hhmm) with
  | Some h :: Some m :: _ => Some (h, m)
  | _ => None
  end.

Definition dayTime (date : Date) (hhmm : string) : option Date :=
  match hourMinute hhmm with
  | Some (h, m) => Some (setHours host date h m 0 0)
  | None => None
  end.

(** The lunch test on the wall-clock strings of a candidate slot. *)
Definition overlapsLunch (schedule : ShopSchedule) (slotStart slotEnd : Date)
  : bool :=
  let slotStartTime := clockHHMM host slotStart in
  let slotEndTime := clockHHMM host slotEnd in
  match lunch_start schedule, lunch_end schedule with
  | Some lunchStart, Some lunchEnd =>
      truthy (lunch_start schedule) && truthy (lunch_end schedule)
      && String.ltb slotStartTime lunchEnd
      && String.ltb lunchStart slotEndTime
  | _, _ => false
  end.

(** The body of the [while (currentSlot < endTime)] loop; [fuel] bounds
    the number of iterations. *)
Fixpoint slotLoop (schedule : ShopSchedule) (serviceId : string)
    (serviceDuration : Z) (endTime : Date) (fuel : nat) (currentSlot : Date)
  : State LocalStorage (list TimeSlot) :=
  match fuel with
  | O => ret []
  | S fuel' =>
      if currentSlot <? endTime then
        let slotEnd := currentSlot + serviceDuration * 60000 in
        if slotEnd >? endTime then ret []
        else
          decision <-
            (if overlapsLunch schedule currentSlot slotEnd
             then ret (false, Some "lunch")
             else
               conflict <- checkAppointmentConflict currentSlot slotEnd ;;
               match conflict with
               | Some _ => ret (false, Some "booked")
               | None => ret (true, None)
               end) ;;
          let slot :=
            {| slot_start := currentSlot;
               slot_end := slotEnd;
               available := fst decision;
               reason := snd decision;
               available_techs :=
                 getAvailableTechs currentSlot slotEnd serviceId |} in
          rest <- slotLoop schedule serviceId serviceDuration endTime fuel'
                    (setMinutes host currentSlot
                       (getMinutes host currentSlot + 30)) ;;
          ret (slot :: rest)
      else ret []
  end.

(** Enough iterations to reach [endTime] from [startTime] in 30-minute
    steps. *)
Definition slotFuel (startTime endTime : Date) : nat :=
  Z.to_nat ((endTime - startTime) / (30 * msPerMinute) + 1).

Definition getAvailableTimeSlots (date : Date) (serviceId : string)
    (vehicleYear : option Z) : State LocalStorage (list TimeSlot) :=
  schedule <- getShopScheduleForDay date ;;
  match schedule with
  | None => ret []
  | Some schedule =>
      if is_closed schedule then ret []
      else
        serviceDuration <- calculateServiceDuration serviceId vehicleYear ;;
        match dayTime date (open_time schedule),
              dayTime date (close_time schedule) with
        | Some startTime, Some endTime =>
            slotLoop schedule serviceId serviceDuration endTime
              (slotFuel startTime endTime) startTime
        | _, _ => ret []
        end
  end.

(** The list that [slotLoop] pushes, as a function of the stored
    appointments: the view of the loop used in the proofs
    ([slotLoop_run] relates the two). *)
Fixpoint slotList (schedule : ShopSchedule) (serviceId : string)
    (serviceDuration : Z) (endTime : Date) (appts : list Appointment)
    (fuel : nat) (currentSlot : Date) : list TimeSlot :=
  match fuel with
  | O => []
  | S fuel' =>
      if currentSlot <? endTime then
        let slotEnd := currentSlot + serviceDuration * 60000 in
        if slotEnd >? endTime then []
        else
          let decision :=
            if overlapsLunch schedule currentSlot slotEnd
            then (false, Some "lunch")
            else match scanAppointments currentSlot slotEnd appts with
                 | Some _ => (false, Some "booked")
                 | None => (true, None)
                 end in
          {| slot_start := currentSlot;
             slot_end := slotEnd;
             available := fst decision;
             reason := snd decision;
             available_techs :=
               getAvailableTechs currentSlot slotEnd serviceId |}
          :: slotList schedule serviceId serviceDuration endTime appts fuel'
               (currentSlot + 30 * msPerMinute)
      else []
  end.

End Scheduling.

(* ================================================================== *)
(** * BrowserDatabaseService: assignment *)
(* ================================================================== *)

Definition defaultStorageData : StorageData :=
  {| vehicles := [];
     work_orders := [];
     tech_profiles :=
       [ {| tech_id := "tech-001";
            tech_name := "Mike Johnson";
            employee_id := Some "EMP001";
            certifications := Some ["ASE A1"; "ASE A5"; "ASE A8"];
            specialties := Some ["brake"; "suspension"; "general"];
            hourly_rate := Some (inject_Z 45);
            active := true |};
         {| tech_id := "tech-002";
            tech_name := "Sarah Chen";
            employee_id := Some "EMP002";
            certifications := Some ["ASE A6"; "ASE A7"; "ASE L1"];
            specialties := Some ["electrical"; "engine"; "diagnostic"];
            hourly_rate := Some (inject_Z 50);
            active := true |};
         {| tech_id := "tech-003";
            tech_name := "Carlos Rodriguez";
            employee_id := Some "EMP003";
            certifications := Some ["ASE A2"; "ASE A3"];
            specialties := Some ["transmission"; "engine"; "general"];
            hourly_rate := Some (inject_Z 42);
            active := true |} ] |}.

Definition saveStorageData (data : StorageData) : State LocalStorage unit :=
  fun ls =>
    (tt, {| shop_scheduling := shop_scheduling ls;
            shop_database := Some data |}).

Definition getStorageData : State LocalStorage StorageData :=
  fun ls =>
    match shop_database ls with
    | Some saved => (saved, ls)
    | None =>
        (_ <- saveStorageData defaultStorageData ;;
         ret defaultStorageData) ls
    end.

(** The workload figures that the ranking reads.  The logged hours of
    today and of the week depend on the clock and on time entries and do
    not enter the ranking. *)
Record TechWorkload : Type := {
  activeJobs : Z;
  totalEstimatedHours : Z
}.

Definition isActiveJobOf (techId : string) (wo : WorkOrder) : bool :=
  match assigned_tech wo with
  | Some t => String.eqb t techId
  | None => false
  end
  && match wo_status wo with
     | pending | in_progress => true
     | _ => false
     end.

Definition workloadIn (data : StorageData) (techId : string) : TechWorkload :=
  let activeJobs := filter (isActiveJobOf techId) (work_orders data) in
  {| activeJobs := Z.of_nat (List.length activeJobs);
     totalEstimatedHours := Z.of_nat (List.length activeJobs) * 2 |}.

Definition getTechWorkload (techId : string) : State LocalStorage TechWorkload :=
  data <- getStorageData ;;
  ret (workloadIn data techId).

(** [map[key] || []] on an object literal, own keys only: specialty tags
    are category words, not names of members inherited from
    [Object.prototype]. *)
Fixpoint lookupOrEmpty (map : list (string * list string)) (key : string)
  : list string :=
  match map with
  | [] => []
  | (k, v) :: rest => if String.eqb k key then v else lookupOrEmpty rest key
  end.

Definition keywordMap : list (string * list string) :=
  [ ("brake", ["brake"; "stop"; "squeaking"; "grinding"; "pedal"]);
    ("engine", ["engine"; "motor"; "performance"; "power"; "stall";
                "rough idle"]);
    ("electrical", ["electric"; "battery"; "alternator"; "starter"; "wiring";
                    "lights"]);
    ("transmission", ["transmission"; "shift"; "gear"; "clutch"; "automatic"]);
    ("suspension", ["suspension"; "shock"; "strut"; "bounce"; "ride";
                    "alignment"]);
    ("hvac", ["heat"; "air conditioning"; "ac"; "climate"; "defrost";
              "blower"]);
    ("tire", ["tire"; "wheel"; "alignment"; "balance"; "rotation"]) ].

Definition matchesSpecialtyKeywords (specialty jobText : string) : bool :=
  let keywords := lookupOrEmpty keywordMap specialty in
  existsb (fun keyword => includes jobText keyword) keywords.

Definition categoryMap : list (string * list string) :=
  [ ("engine", ["maintenance"; "service"; "tune-up"; "oil"]);
    ("brake", ["safety"; "inspection"]);
    ("electrical", ["diagnostic"; "check engine"; "warning light"]);
    ("transmission", ["fluid"; "service"]);
    ("hvac", ["comfort"; "cabin"]);
    ("tire", ["safety"; "maintenance"]) ].

Definition matchesSpecialtyCategory (specialty jobText : string) : bool :=
  let categories := lookupOrEmpty categoryMap specialty in
  existsb (fun category => includes jobText category) categories.

(** [s?.toLowerCase() || ''] *)
Definition lowerOrEmpty (s : option string) : string :=
  match s with
  | Some s => toLowerCase s
  | None => ""
  end.

Definition urgentKeywords : list string :=
  ["urgent"; "emergency"; "broke down"; "won't start"; "dangerous"; "unsafe"].

Definition isUrgentJob (workOrder : WorkOrder) : bool :=
  let concern := lowerOrEmpty (customer_concern workOrder) in
  existsb (fun keyword => includes concern keyword) urgentKeywords.

(** Truthiness of an optional number. *)
Definition rateSet (r : option Q) : bool :=
  match r with
  | Some q => negb (Qeq_bool q 0)
  | None => false
  end.

(** [tech.hourly_rate >= n], false when the rate is undefined. *)
Definition rateAtLeast (r : option Q) (n : Z) : bool :=
  match r with
  | Some q => Qle_bool (inject_Z n) q
  | None => false
  end.

Definition jobTextOf (workOrder : WorkOrder) : string :=
  let concern := lowerOrEmpty (customer_concern workOrder) in
  let services := lowerOrEmpty (description workOrder) in
  toLowerCase (String.append concern (String.append " " services)).

(** One round of [tech.specialties.forEach], on the running score and the
    [specialtyMatch] flag. *)
Definition specialtyStep (jobText : string) (acc : Z * bool)
    (specialty : string) : Z * bool :=
  let (score, specialtyMatch) := acc in
  let specialtyLower := toLowerCase specialty in
  if includes jobText specialtyLower then (score + 40, true)
  else if matchesSpecialtyKeywords specialtyLower jobText
       then (score + 30, true)
  else if matchesSpecialtyCategory specialtyLower jobText
       then (score + 20, true)
  else (score, specialtyMatch).

(** The score of one technician: the body of the [map] callback, with
    the successive updates of [score]. *)
Definition scoreTech (data : StorageData) (workOrder : WorkOrder)
    (tech : TechProfile) (workload : TechWorkload) : Z :=
  let score := 0 in
  let score :=
    if activeJobs workload >=? 4 then score - 50
    else if activeJobs workload >=? 3 then score - 30
    else if activeJobs workload >=? 2 then score - 15
    else if activeJobs workload =? 0 then score + 25
    else score in
  let score :=
    if rateSet (hourly_rate tech) then
      if rateAtLeast (hourly_rate tech) 35 then score + 15
      else if rateAtLeast (hourly_rate tech) 25 then score + 10
      else score + 5
    else score in
  let score :=
    match certifications tech with
    | Some certs =>
        if (0 <? Z.of_nat (List.length certs))
        then score + Z.of_nat (List.length certs) * 5
        else score
    | None => score
    end in
  let score :=
    match specialties tech with
    | Some specs =>
        if (0 <? Z.of_nat (List.length specs)) then
          let jobText := jobTextOf workOrder in
          let '(score, specialtyMatch) :=
            fold_left (specialtyStep jobText) specs (score, false) in
          if negb specialtyMatch then score - 10 else score
        else score
    | None => score
    end in
  let score :=
    if negb (String.eqb (wo_vehicle_id workOrder) "") then
      match find (fun v => String.eqb (vehicle_id v) (wo_vehicle_id workOrder))
              (vehicles data) with
      | Some vehicle =>
          match year vehicle with
          | Some y =>
              if y <? 2010 then
                if rateSet (hourly_rate tech)
                   && rateAtLeast (hourly_rate tech) 30
                then score + 10 else score
              else score
          | None => score
          end
      | None => score
      end
    else score in
  let isUrgent := isUrgentJob workOrder in
  let score :=
    if isUrgent && rateSet (hourly_rate tech)
       && rateAtLeast (hourly_rate tech) 30
    then score + 15 else score in
  score.

(** [{ ...tech, score, workload }] *)
Record ScoredTech : Type := {
  profile : TechProfile;
  score : Z;
  workload : TechWorkload
}.

(** [Array.prototype.sort] with a comparator: a stable sort, elements
    that compare equal keep their order. *)
Fixpoint insertBy {A : Type} (cmp : A -> A -> Z) (x : A) (l : list A)
  : list A :=
  match l with
  | [] => [x]
  | y :: rest => if cmp x y <=? 0 then x :: l else y :: insertBy cmp x rest
  end.

Fixpoint sortBy {A : Type} (cmp : A -> A -> Z) (l : list A) : list A :=
  match l with
  | [] => []
  | x :: rest => insertBy cmp x (sortBy cmp rest)
  end.

Fixpoint mapM {S A B : Type} (f : A -> State S B) (l : list A)
  : State S (list B) :=
  match l with
  | [] => ret []
  | x :: rest =>
      y <- f x ;;
      ys <- mapM f rest ;;
      ret (y :: ys)
  end.

Definition scoreOne (data : StorageData) (workOrder : WorkOrder)
    (tech : TechProfile) : State LocalStorage ScoredTech :=
  workload <- getTechWorkload (tech_id tech) ;;
  ret {| profile := tech;
         score := scoreTech data workOrder tech workload;
         workload := workload |}.

Definition suggestTechForWorkOrder (workOrderId : string)
  : State LocalStorage (list ScoredTech) :=
  data <- getStorageData ;;
  match find (fun wo => String.eqb (wo_id wo) workOrderId)
          (work_orders data) with
  | None => ret []
  | Some workOrder =>
      let allTechs := filter active (tech_profiles data) in
      if Nat.eqb (List.length allTechs) 0 then ret []
      else
        scoredTechs <- mapM (scoreOne data workOrder) allTechs ;;
        let scoredTechs :=
          sortBy (fun a b => score b - score a) scoredTechs in
        ret (firstn 5 scoredTechs)
  end.

(* ================================================================== *)
(** * Vocabulary of the specification *)
(* ================================================================== *)

(** The document a service works on: the stored one, or the seeded
    defaults when the key is absent. *)
Definition schedulingDoc (ls : LocalStorage) : SchedulingData :=
  evalState getSchedulingData ls.

Definition databaseDoc (ls : LocalStorage) : StorageData :=
  evalState getStorageData ls.

(** An appointment that takes part in conflict checks. *)
Definition activeAppointment (a : Appointment) : Prop :=
  appt_status a <> appt_cancelled.

(** Half-open overlap of [[startTime, endTime)] with an appointment. *)
Definition overlapsAppointment (startTime endTime : Date) (a : Appointment)
  : Prop :=
  startTime < scheduled_end a /\ endTime > scheduled_start a.

(** The rules of the ranking, one function per rule. *)
Definition workloadAdjustment (jobs : Z) : Z :=
  if jobs >=? 4 then -50
  else if jobs >=? 3 then -30
  else if jobs >=? 2 then -15
  else if jobs =? 0 then 25
  else 0.

Definition experienceBonus (rate : option Q) : Z :=
  if rateSet rate then
    if rateAtLeast rate 35 then 15
    else if rateAtLeast rate 25 then 10
    else 5
  else 0.

Definition certificationBonus (certs : option (list string)) : Z :=
  match certs with
  | Some l => 5 * Z.of_nat (List.length l)
  | None => 0
  end.

(** The tier a specialty reaches against the job text: 40, 30, 20, or 0
    when no tier matches. *)
Definition specialtyTier (jobText specialty : string) : Z :=
  let specialtyLower := toLowerCase specialty in
  if includes jobText specialtyLower then 40
  else if matchesSpecialtyKeywords specialtyLower jobText then 30
  else if matchesSpecialtyCategory specialtyLower jobText then 20
  else 0.

Definition sumZ (l : list Z) : Z := fold_right Z.add 0 l.

Definition specialtyAdjustment (jobText : string)
    (specs : option (list string)) : Z :=
  match specs with
  | Some (s :: l) =>
      let tiers := map (specialtyTier jobText) (s :: l) in
      if forallb (fun t => t =? 0) tiers then -10 else sumZ tiers
  | _ => 0
  end.

Definition isOlderVehicleJob (data : StorageData) (workOrder : WorkOrder)
  : bool :=
  negb (String.eqb (wo_vehicle_id workOrder) "")
  && match find (fun v => String.eqb (vehicle_id v) (wo_vehicle_id workOrder))
             (vehicles data) with
     | Some vehicle =>
         match year vehicle with
         | Some y => y <? 2010
         | None => false
         end
     | None => false
     end.

Definition vehicleAgeBonus (data : StorageData) (workOrder : WorkOrder)
    (rate : option Q) : Z :=
  if isOlderVehicleJob data workOrder && rateSet rate && rateAtLeast rate 30
  then 10 else 0.

Definition urgencyBonus (workOrder : WorkOrder) (rate : option Q) : Z :=
  if isUrgentJob workOrder && rateSet rate && rateAtLeast rate 30
  then 15 else 0.

(** Descending order of score. *)
Definition scoreDescending (a b : ScoredTech) : Prop := score a >= score b.


(** The number of active (pending or in-progress) work orders assigned to
    a technician. *)
Definition activeJobCount (data : StorageData) (techId : string) : Z :=
  Z.of_nat (List.length (filter (isActiveJobOf techId) (work_orders data))).

(** A technician with the score and workload computed from [data]. *)
Definition scoredIn (data : StorageData) (workOrder : WorkOrder)
    (tech : TechProfile) : ScoredTech :=
  {| profile := tech;
     score := scoreTech data workOrder tech (workloadIn data (tech_id tech));
     workload := workloadIn data (tech_id tech) |}.

(** No tier of the specialty matching applies to [specialty]: its name
    is not in the job text, and neither are its keywords or categories. *)
Definition matchesNoTier (jobText specialty : string) : Prop :=
  includes jobText (toLowerCase specialty) = false
  /\ matchesSpecialtyKeywords (toLowerCase specialty) jobText = false
  /\ matchesSpecialtyCategory (toLowerCase specialty) jobText = false.

(** The wall-clock string ["HH:MM"] of a minute of the day, and the
    minute of the local day that a date falls on. *)
Definition clockOfMinutes (m : Z) : string :=
  String.append (twoDigits (m / 60))
    (String.append ":" (twoDigits (m mod 60))).

Definition minuteOfDay (host : Host) (d : Date) : Z :=
  HourFromTime (LocalTime host d) * 60 + MinFromTime (LocalTime host d).

(** The two-digit numbers, and the test that a pair of them orders as
    its renderings do. *)
Definition twoDigitRange : list Z := map Z.of_nat (seq 0 100).

Definition sameOrder (x y : Z) : bool :=
  match String.compare (twoDigits x) (twoDigits y), Z.compare x y with
  | Eq, Eq | Lt, Lt | Gt, Gt => true
  | _, _ => false
  end.


(** A slot moved by [delta] milliseconds. *)
Definition shiftSlot (delta : Z) (slot : TimeSlot) : TimeSlot :=
  {| slot_start := delta + slot_start slot;
     slot_end := delta + slot_end slot;
     available := available slot;
     reason := reason slot;
     available_techs := available_techs slot |}.

(** The slot between two wall-clock times of the day of [date]. *)
Definition wallClockSlot (host : Host) (date : Date) (startHour startMin : Z)
    (endHour endMin : Z) (isAvailable : bool) (why : option string)
  : TimeSlot :=
  {| slot_start := setHours host date startHour startMin 0 0;
     slot_end := setHours host date endHour endMin 0 0;
     available := isAvailable;
     reason := why;
     available_techs := ["tech-001"; "tech-002"] |}.

(* ================================================================== *)
(** * Example environment and stores *)
(* ================================================================== *)

(** A host on UTC that renders times of day as ["HH:MM"]. *)
Definition hostUTC : Host :=
  {| LocalTZA := 0;
     toLocaleTimeString := fun d =>
       String.append (twoDigits (HourFromTime d))
         (String.append ":" (twoDigits (MinFromTime d))) |}.

(** Monday 1970-01-05, 00:00 UTC, and times of that day. *)
Definition monday : Date := 4 * msPerDay.
Definition mondayAt (hour min : Z) : Date :=
  monday + hour * msPerHour + min * msPerMinute.

(** Sunday 1970-01-04, 00:00 UTC. *)
Definition sunday : Date := 3 * msPerDay.

Definition exampleAppointment (id : string) (startTime endTime : Date)
    (status : AppointmentStatus) : Appointment :=
  {| appt_id := id;
     appt_customer_id := "customer-1";
     appt_vehicle_id := None;
     service_type := "oil-change";
     service_category := "maintenance";
     scheduled_start := startTime;
     scheduled_end := endTime;
     duration_minutes := (endTime - startTime) / msPerMinute;
     appt_assigned_tech := None;
     appt_status := status;
     appt_priority := normal |}.

Definition cancelledAt9 : Appointment :=
  exampleAppointment "appt-1" (mondayAt 9 0) (mondayAt 10 0) appt_cancelled.
Definition confirmedAt10 : Appointment :=
  exampleAppointment "appt-2" (mondayAt 10 0) (mondayAt 11 0) confirmed.
Definition scheduledAt1030 : Appointment :=
  exampleAppointment "appt-3" (mondayAt 10 30) (mondayAt 11 30) scheduled.

(** A store with the seeded calendar and three appointments. *)
Definition bookedStorage : LocalStorage :=
  {| shop_scheduling :=
       Some {| appointments := [cancelledAt9; confirmedAt10; scheduledAt1030];
               shop_schedules := getDefaultShopSchedule;
               service_durations := getDefaultServiceDurations |};
     shop_database := None |}.

(** A store whose only schedule closes the shop on Sundays. *)
Definition closedSundayStorage : LocalStorage :=
  {| shop_scheduling :=
       Some {| appointments := [];
               shop_schedules :=
                 [ {| schedule_id := "schedule_0";
                      day_of_week := 0;
                      open_time := "10:00";
                      close_time := "14:00";
                      lunch_start := None;
                      lunch_end := None;
                      is_closed := true;
                      max_appointments_per_hour := None |} ];
               service_durations := getDefaultServiceDurations |};
     shop_database := None |}.

(** The first slot of a Monday for a 30-minute service. *)
Definition mondayFirstSlot : TimeSlot :=
  {| slot_start := mondayAt 8 0;
     slot_end := mondayAt 8 30;
     available := true;
     reason := None;
     available_techs := ["tech-001"; "tech-002"] |}.

Definition exampleWorkOrder (id concern : string) (tech : option string)
  : WorkOrder :=
  {| wo_id := id;
     wo_vehicle_id := "";
     wo_customer_id := "customer-1";
     wo_status := pending;
     assigned_tech := tech;
     customer_concern := Some concern;
     description := None |}.

(** A technician with rate 40, three certifications and two specialties. *)
Definition brakeAndEngineTech : TechProfile :=
  {| tech_id := "tech-004";
     tech_name := "Dana Lee";
     employee_id := None;
     certifications := Some ["ASE A1"; "ASE A4"; "ASE A5"];
     specialties := Some ["brake"; "engine"];
     hourly_rate := Some (inject_Z 40);
     active := true |}.

(** A roster in which ["tech-002"] holds four pending jobs, with three
    unassigned jobs to rank technicians for. *)
Definition busyStorage : LocalStorage :=
  {| shop_scheduling := None;
     shop_database :=
       Some {| vehicles := [];
               work_orders :=
                 [ exampleWorkOrder "wo-1" "oil change" (Some "tech-002");
                   exampleWorkOrder "wo-2" "oil change" (Some "tech-002");
                   exampleWorkOrder "wo-3" "oil change" (Some "tech-002");
                   exampleWorkOrder "wo-4" "oil change" (Some "tech-002");
                   exampleWorkOrder "wo-flat" "Flat tyre" None;
                   exampleWorkOrder "wo-urgent" "URGENT: flat tyre" None;
                   exampleWorkOrder "wo-brake" "Brake noise" None;
                   exampleWorkOrder "wo-both" "Brake and engine noise" None ];
               tech_profiles :=
                 tech_profiles defaultStorageData ++ [brakeAndEngineTech] |} |}.

Definition flatTyreJob : WorkOrder := exampleWorkOrder "wo-flat" "Flat tyre" None.
Definition urgentJob : WorkOrder :=
  exampleWorkOrder "wo-urgent" "URGENT: flat tyre" None.
Definition brakeJob : WorkOrder := exampleWorkOrder "wo-brake" "Brake noise" None.
Definition brakeAndEngineJob : WorkOrder :=
  exampleWorkOrder "wo-both" "Brake and engine noise" None.

Definition sarahChen : TechProfile :=
  {| tech_id := "tech-002";
     tech_name := "Sarah Chen";
     employee_id := Some "EMP002";
     certifications := Some ["ASE A6"; "ASE A7"; "ASE L1"];
     specialties := Some ["electrical"; "engine"; "diagnostic"];
     hourly_rate := Some (inject_Z 50);
     active := true |}.

(* ================================================================== *)
(** * SchedulingService: the calendar store *)
(* ================================================================== *)

(** [{ ...old, ...updates }] on one field: the value the update carries,
    or the old one when the update does not mention the field. *)
Definition spread {A : Type} (old : A) (update : option A) : A :=
  match update with
  | Some v => v
  | None => old
  end.

(** [i = l.findIndex(p); l[i] = f(l[i])] in one pass: the list with its
    first element satisfying [p] replaced, together with the replacement;
    [None] when [findIndex] returns -1. *)
Fixpoint updateFirst {A : Type} (p : A -> bool) (f : A -> A) (l : list A)
  : option (A * list A) :=
  match l with
  | [] => None
  | x :: rest =>
      if p x then Some (f x, f x :: rest)
      else match updateFirst p f rest with
           | Some (y, rest') => Some (y, x :: rest')
           | None => None
           end
  end.

(** [Partial<Appointment>].  An optional field can be set to
    [undefined], hence the nested option. *)
Record AppointmentUpdates : Type := {
  upd_appt_id : option string;
  upd_appt_customer_id : option string;
  upd_appt_vehicle_id : option (option string);
  upd_service_type : option string;
  upd_service_category : option string;
  upd_scheduled_start : option Z;
  upd_scheduled_end : option Z;
  upd_duration_minutes : option Z;
  upd_appt_assigned_tech : option (option string);
  upd_appt_status : option AppointmentStatus;
  upd_appt_priority : option AppointmentPriority
}.

Definition mergeAppointment (updates : AppointmentUpdates) (old : Appointment)
  : Appointment :=
  {| appt_id := spread (appt_id old) (upd_appt_id updates);
     appt_customer_id :=
       spread (appt_customer_id old) (upd_appt_customer_id updates);
     appt_vehicle_id :=
       spread (appt_vehicle_id old) (upd_appt_vehicle_id updates);
     service_type := spread (service_type old) (upd_service_type updates);
     service_category :=
       spread (service_category old) (upd_service_category updates);
     scheduled_start :=
       spread (scheduled_start old) (upd_scheduled_start updates);
     scheduled_end := spread (scheduled_end old) (upd_scheduled_end updates);
     duration_minutes :=
       spread (duration_minutes old) (upd_duration_minutes updates);
     appt_assigned_tech :=
       spread (appt_assigned_tech old) (upd_appt_assigned_tech updates);
     appt_status := spread (appt_status old) (upd_appt_status updates);
     appt_priority := spread (appt_priority old) (upd_appt_priority updates) |}.

(** The update [{ status: s }]. *)
Definition statusUpdate (s : AppointmentStatus) : AppointmentUpdates :=
  {| upd_appt_id := None;
     upd_appt_customer_id := None;
     upd_appt_vehicle_id := None;
     upd_service_type := None;
     upd_service_category := None;
     upd_scheduled_start := None;
     upd_scheduled_end := None;
     upd_duration_minutes := None;
     upd_appt_assigned_tech := None;
     upd_appt_status := Some s;
     upd_appt_priority := None |}.

(** [Partial<ShopSchedule>] *)
Record ShopScheduleUpdates : Type := {
  upd_schedule_id : option string;
  upd_day_of_week : option Z;
  upd_open_time : option string;
  upd_close_time : option string;
  upd_lunch_start : option (option string);
  upd_lunch_end : option (option string);
  upd_is_closed : option bool;
  upd_max_appointments_per_hour : option (option Z)
}.

Definition mergeShopSchedule (updates : ShopScheduleUpdates)
    (old : ShopSchedule) : ShopSchedule :=
  {| schedule_id := spread (schedule_id old) (upd_schedule_id updates);
     day_of_week := spread (day_of_week old) (upd_day_of_week updates);
     open_time := spread (open_time old) (upd_open_time updates);
     close_time := spread (close_time old) (upd_close_time updates);
     lunch_start := spread (lunch_start old) (upd_lunch_start updates);
     lunch_end := spread (lunch_end old) (upd_lunch_end updates);
     is_closed := spread (is_closed old) (upd_is_closed updates);
     max_appointments_per_hour :=
       spread (max_appointments_per_hour old)
         (upd_max_appointments_per_hour updates) |}.

(** The update [{ is_closed: b }]. *)
Definition closedUpdate (b : bool) : ShopScheduleUpdates :=
  {| upd_schedule_id := None;
     upd_day_of_week := None;
     upd_open_time := None;
     upd_close_time := None;
     upd_lunch_start := None;
     upd_lunch_end := None;
     upd_is_closed := Some b;
     upd_max_appointments_per_hour := None |}.

(** [Partial<ServiceDuration>] *)
Record ServiceDurationUpdates : Type := {
  upd_duration_id : option string;
  upd_service_id : option string;
  upd_service_name : option string;
  upd_category : option string;
  upd_estimated_minutes : option Z;
  upd_minimum_minutes : option Z;
  upd_maximum_minutes : option Z;
  upd_buffer_minutes : option Z;
  upd_complexity_multiplier : option float64;
  upd_requires_specialist : option bool;
  upd_can_overlap : option bool
}.

Definition mergeServiceDuration (updates : ServiceDurationUpdates)
    (old : ServiceDuration) : ServiceDuration :=
  {| duration_id := spread (duration_id old) (upd_duration_id updates);
     service_id := spread (service_id old) (upd_service_id updates);
     service_name := spread (service_name old) (upd_service_name updates);
     category := spread (category old) (upd_category updates);
     estimated_minutes :=
       spread (estimated_minutes old) (upd_estimated_minutes updates);
     minimum_minutes :=
       spread (minimum_minutes old) (upd_minimum_minutes updates);
     maximum_minutes :=
       spread (maximum_minutes old) (upd_maximum_minutes updates);
     buffer_minutes := spread (buffer_minutes old) (upd_buffer_minutes updates);
     complexity_multiplier :=
       spread (complexity_multiplier old) (upd_complexity_multiplier updates);
     requires_specialist :=
       spread (requires_specialist old) (upd_requires_specialist updates);
     can_overlap := spread (can_overlap old) (upd_can_overlap updates) |}.

Definition withAppointments (data : SchedulingData)
    (appts : list Appointment) : SchedulingData :=
  {| appointments := appts;
     shop_schedules := shop_schedules data;
     service_durations := service_durations data |}.

Definition withShopSchedules (data : SchedulingData)
    (schedules : list ShopSchedule) : SchedulingData :=
  {| appointments := appointments data;
     shop_schedules := schedules;
     service_durations := service_durations data |}.

Definition withServiceDurations (data : SchedulingData)
    (durations : list ServiceDuration) : SchedulingData :=
  {| appointments := appointments data;
     shop_schedules := shop_schedules data;
     service_durations := durations |}.

(** [{ id: uuidv4(), ...appointmentData }]: the id of [appointmentData]
    is not part of the input and is replaced by the fresh [uuid]. *)
Definition withAppointmentId (uuid : string) (appointmentData : Appointment)
  : Appointment :=
  {| appt_id := uuid;
     appt_customer_id := appt_customer_id appointmentData;
     appt_vehicle_id := appt_vehicle_id appointmentData;
     service_type := service_type appointmentData;
     service_category := service_category appointmentData;
     scheduled_start := scheduled_start appointmentData;
     scheduled_end := scheduled_end appointmentData;
     duration_minutes := duration_minutes appointmentData;
     appt_assigned_tech := appt_assigned_tech appointmentData;
     appt_status := appt_status appointmentData;
     appt_priority := appt_priority appointmentData |}.

(** [uuid] stands for the value [uuidv4()] returns. *)
Definition createAppointment (uuid : string) (appointmentData : Appointment)
  : State LocalStorage Appointment :=
  data <- getSchedulingData ;;
  let appointment := withAppointmentId uuid appointmentData in
  let data := withAppointments data (appointments data ++ [appointment]) in
  _ <- saveSchedulingData data ;;
  ret appointment.

Definition updateAppointment (id : string) (updates : AppointmentUpdates)
  : State LocalStorage (option Appointment) :=
  data <- getSchedulingData ;;
  match updateFirst (fun a => String.eqb (appt_id a) id)
          (mergeAppointment updates) (appointments data) with
  | None => ret None
  | Some (updated, appts) =>
      _ <- saveSchedulingData (withAppointments data appts) ;;
      ret (Some updated)
  end.

(** The range test of [getAppointments] on one appointment. *)
Definition inDateRange (startDate endDate : option Date)
    (appointment : Appointment) : bool :=
  let appointmentDate := scheduled_start appointment in
  if match startDate with
     | Some s => appointmentDate <? s
     | None => false
     end
  then false
  else if match endDate with
          | Some e => appointmentDate >? e
          | None => false
          end
       then false
       else true.

Definition getAppointments (startDate endDate : option Date)
  : State LocalStorage (list Appointment) :=
  data <- getSchedulingData ;;
  match startDate, endDate with
  | None, None =>
      ret (sortBy (fun a b => scheduled_start a - scheduled_start b)
             (appointments data))
  | _, _ =>
      ret (sortBy (fun a b => scheduled_start a - scheduled_start b)
             (filter (inDateRange startDate endDate) (appointments data)))
  end.

Definition updateServiceDuration (serviceId : string)
    (updates : ServiceDurationUpdates)
  : State LocalStorage (option ServiceDuration) :=
  data <- getSchedulingData ;;
  match updateFirst (fun sd => String.eqb (service_id sd) serviceId)
          (mergeServiceDuration updates) (service_durations data) with
  | None => ret None
  | Some (updated, durations) =>
      _ <- saveSchedulingData (withServiceDurations data durations) ;;
      ret (Some updated)
  end.

Definition updateShopSchedule (dayOfWeek : Z) (updates : ShopScheduleUpdates)
  : State LocalStorage (option ShopSchedule) :=
  data <- getSchedulingData ;;
  match updateFirst (fun s => day_of_week s =? dayOfWeek)
          (mergeShopSchedule updates) (shop_schedules data) with
  | None => ret None
  | Some (updated, schedules) =>
      _ <- saveSchedulingData (withShopSchedules data schedules) ;;
      ret (Some updated)
  end.

Definition getAllServiceDurations : State LocalStorage (list ServiceDuration) :=
  data <- getSchedulingData ;;
  ret (service_durations data).

Definition getAllShopSchedules : State LocalStorage (list ShopSchedule) :=
  data <- getSchedulingData ;;
  ret (shop_schedules data).

(** [localStorage.removeItem('shop_scheduling')] *)
Definition clearSchedulingData : State LocalStorage unit :=
  fun ls =>
    (tt, {| shop_scheduling := None; shop_database := shop_database ls |}).

(** [isShopOpen(dateTime)], for a host environment. *)
Definition isShopOpen (host : Host) (dateTime : Date)
  : State LocalStorage bool :=
  schedule <- getShopScheduleForDay host dateTime ;;
  match schedule with
  | None => ret false
  | Some schedule =>
      if is_closed schedule then ret false
      else
        let timeStr := clockHHMM host dateTime in
        if String.ltb timeStr (open_time schedule)
           || negb (String.ltb timeStr (close_time schedule))
        then ret false
        else
          match lunch_start schedule, lunch_end schedule with
          | Some lunchStart, Some lunchEnd =>
              if truthy (lunch_start schedule) && truthy (lunch_end schedule)
                 && negb (String.ltb timeStr lunchStart)
                 && String.ltb timeStr lunchEnd
              then ret false
              else ret true
          | _, _ => ret true
          end
  end.

(** The minutes of a day, and the test that the ["HH:MM"] string of a
    minute parses back to its hour and minute. *)
Definition minutesOfDayRange : list Z := map Z.of_nat (seq 0 1440).

Definition parsesBack (m : Z) : bool :=
  match hourMinute (clockOfMinutes m) with
  | Some (h, mm) => (h =? m / 60) && (mm =? m mod 60)
  | None => false
  end.

(* ================================================================== *)
(** * VinDecoderService: the checks on a VIN *)
(* ================================================================== *)

Definition upperAscii (c : ascii) : ascii :=
  let n := nat_of_ascii c in
  if (Nat.leb 97 n && Nat.leb n 122)%bool then ascii_of_nat (n - 32) else c.

Fixpoint toUpperCase (s : string) : string :=
  match s with
  | EmptyString => EmptyString
  | String c s' => String (upperAscii c) (toUpperCase s')
  end.

(** The class [[A-HJ-NPR-Z0-9]] under the [i] flag. *)
Definition isVinChar (c : ascii) : bool :=
  let n := nat_of_ascii (upperAscii c) in
  ((Nat.leb 48 n && Nat.leb n 57)
   || (Nat.leb 65 n && Nat.leb n 72)
   || (Nat.leb 74 n && Nat.leb n 78)
   || Nat.eqb n 80
   || (Nat.leb 82 n && Nat.leb n 90))%bool.

(** The class [[IOQ]] under the [i] flag. *)
Definition isForbiddenVinChar (c : ascii) : bool :=
  let n := nat_of_ascii (upperAscii c) in
  (Nat.eqb n 73 || Nat.eqb n 79 || Nat.eqb n 81)%bool.

Fixpoint someChar (p : ascii -> bool) (s : string) : bool :=
  match s with
  | EmptyString => false
  | String c s' => p c || someChar p s'
  end.

Fixpoint everyChar (p : ascii -> bool) (s : string) : bool :=
  match s with
  | EmptyString => true
  | String c s' => p c && everyChar p s'
  end.

Fixpoint keepChars (p : ascii -> bool) (s : string) : string :=
  match s with
  | EmptyString => EmptyString
  | String c s' => if p c then String c (keepChars p s') else keepChars p s'
  end.

Definition isValidVin (vin : string) : bool :=
  if String.eqb vin "" || negb (Nat.eqb (String.length vin) 17) then false
  else if someChar isForbiddenVinChar vin then false
  else negb (String.eqb vin "") && everyChar isVinChar vin.

Definition formatVin (vin : string) : string :=
  if Nat.eqb (String.length vin) 17
  then String.append (substring 0 3 vin)
         (String.append " "
            (String.append (substring 3 6 vin)
               (String.append " " (substring 9 8 vin))))
  else vin.

Definition cleanVin (input : string) : string :=
  toUpperCase (keepChars isVinChar input).

(** Every character satisfies the facts the proofs about VINs use: case
    conversion is idempotent and does not change class membership, a
    character of the VIN class is not forbidden, and the blank is not in
    the class. *)
Definition vinCharFacts (c : ascii) : bool :=
  Ascii.eqb (upperAscii (upperAscii c)) (upperAscii c)
  && Bool.eqb (isVinChar (upperAscii c)) (isVinChar c)
  && (negb (isVinChar c) || negb (isForbiddenVinChar c)).

Definition allAscii : list ascii := map ascii_of_nat (seq 0 256).

(* ================================================================== *)
(** * BrowserDatabaseService: roster and assignment writes *)
(* ================================================================== *)

(** [Partial<TechProfile>] *)
Record TechProfileUpdates : Type := {
  upd_tech_id : option string;
  upd_tech_name : option string;
  upd_employee_id : option (option string);
  upd_certifications : option (option (list string));
  upd_specialties : option (option (list string));
  upd_hourly_rate : option (option Q);
  upd_active : option bool
}.

Definition mergeTechProfile (updates : TechProfileUpdates) (old : TechProfile)
  : TechProfile :=
  {| tech_id := spread (tech_id old) (upd_tech_id updates);
     tech_name := spread (tech_name old) (upd_tech_name updates);
     employee_id := spread (employee_id old) (upd_employee_id updates);
     certifications :=
       spread (certifications old) (upd_certifications updates);
     specialties := spread (specialties old) (upd_specialties updates);
     hourly_rate := spread (hourly_rate old) (upd_hourly_rate updates);
     active := spread (active old) (upd_active updates) |}.

(** The update [{ active: b }]. *)
Definition activeUpdate (b : bool) : TechProfileUpdates :=
  {| upd_tech_id := None;
     upd_tech_name := None;
     upd_employee_id := None;
     upd_certifications := None;
     upd_specialties := None;
     upd_hourly_rate := None;
     upd_active := Some b |}.

Definition withTechProfiles (data : StorageData) (techs : list TechProfile)
  : StorageData :=
  {| vehicles := vehicles data;
     work_orders := work_orders data;
     tech_profiles := techs |}.

Definition withWorkOrders (data : StorageData) (orders : list WorkOrder)
  : StorageData :=
  {| vehicles := vehicles data;
     work_orders := orders;
     tech_profiles := tech_profiles data |}.

(** [{ ...workOrder, assigned_tech: tech }] *)
Definition withAssignedTech (tech : option string) (workOrder : WorkOrder)
  : WorkOrder :=
  {| wo_id := wo_id workOrder;
     wo_vehicle_id := wo_vehicle_id workOrder;
     wo_customer_id := wo_customer_id workOrder;
     wo_status := wo_status workOrder;
     assigned_tech := tech;
     customer_concern := customer_concern workOrder;
     description := description workOrder |}.

(** [{ id: uuidv4(), ...techData }] *)
Definition withTechId (uuid : string) (techData : TechProfile) : TechProfile :=
  {| tech_id := uuid;
     tech_name := tech_name techData;
     employee_id := employee_id techData;
     certifications := certifications techData;
     specialties := specialties techData;
     hourly_rate := hourly_rate techData;
     active := active techData |}.

Definition getVehicle (vehicleId : string) : State LocalStorage (option Vehicle) :=
  data <- getStorageData ;;
  ret (find (fun v => String.eqb (vehicle_id v) vehicleId) (vehicles data)).

Definition createTechProfile (uuid : string) (techData : TechProfile)
  : State LocalStorage TechProfile :=
  data <- getStorageData ;;
  let tech := withTechId uuid techData in
  _ <- saveStorageData (withTechProfiles data (tech_profiles data ++ [tech])) ;;
  ret tech.

Definition updateTechProfile (techId : string) (updates : TechProfileUpdates)
  : State LocalStorage (option TechProfile) :=
  data <- getStorageData ;;
  match updateFirst (fun t => String.eqb (tech_id t) techId)
          (mergeTechProfile updates) (tech_profiles data) with
  | None => ret None
  | Some (updated, techs) =>
      _ <- saveStorageData (withTechProfiles data techs) ;;
      ret (Some updated)
  end.

Definition deleteTechProfile (techId : string) : State LocalStorage bool :=
  data <- getStorageData ;;
  let initialLength := List.length (tech_profiles data) in
  let remaining :=
    filter (fun t => negb (String.eqb (tech_id t) techId))
      (tech_profiles data) in
  if Nat.ltb (List.length remaining) initialLength then
    _ <- saveStorageData (withTechProfiles data remaining) ;;
    ret true
  else ret false.

Definition getTechProfile (techId : string)
  : State LocalStorage (option TechProfile) :=
  data <- getStorageData ;;
  ret (find (fun t => String.eqb (tech_id t) techId) (tech_profiles data)).

(** [rate || 0] *)
Definition rateOrZero (rate : option Q) : Q :=
  match rate with
  | Some q => q
  | None => 0%Q
  end.

(** The sign of [x - y]. *)
Definition signOfDifference (x y : Q) : Z :=
  match Qcompare x y with
  | Lt => -1
  | Eq => 0
  | Gt => 1
  end.

Definition hasSpecialty (specialty : string) (t : TechProfile) : bool :=
  active t
  && match specialties t with
     | Some l => existsb (String.eqb specialty) l
     | None => false
     end.

Definition getTechsBySpecialty (specialty : string)
  : State LocalStorage (list TechProfile) :=
  data <- getStorageData ;;
  ret (sortBy (fun a b =>
                 signOfDifference (rateOrZero (hourly_rate b))
                   (rateOrZero (hourly_rate a)))
         (filter (hasSpecialty specialty) (tech_profiles data))).

(** The index search and the later replacement of the entry are taken
    together; the technician is checked in between, as in the source. *)
Definition assignTechToWorkOrder (workOrderId techId : string)
  : State LocalStorage (option WorkOrder) :=
  data <- getStorageData ;;
  match updateFirst (fun wo => String.eqb (wo_id wo) workOrderId)
          (withAssignedTech (Some techId)) (work_orders data) with
  | None => ret None
  | Some (updated, orders) =>
      match find (fun t => String.eqb (tech_id t) techId)
              (tech_profiles data) with
      | None => ret None
      | Some tech =>
          if negb (active tech) then ret None
          else
            _ <- saveStorageData (withWorkOrders data orders) ;;
            ret (Some updated)
      end
  end.

Definition unassignTechFromWorkOrder (workOrderId : string)
  : State LocalStorage (option WorkOrder) :=
  data <- getStorageData ;;
  match updateFirst (fun wo => String.eqb (wo_id wo) workOrderId)
          (withAssignedTech None) (work_orders data) with
  | None => ret None
  | Some (updated, orders) =>
      _ <- saveStorageData (withWorkOrders data orders) ;;
      ret (Some updated)
  end.

(* ================================================================== *)
(** * Slots and a new booking *)
(* ================================================================== *)

(** What a new appointment does to a slot: an available slot that the
    appointment, if it is not cancelled, overlaps becomes a booked one;
    any other slot stays as it is. *)
Definition markBooked (appointment : Appointment) (slot : TimeSlot)
  : TimeSlot :=
  if available slot && negb (isCancelled appointment)
     && conflictsWith (slot_start slot) (slot_end slot) appointment
  then {| slot_start := slot_start slot;
          slot_end := slot_end slot;
          available := false;
          reason := Some "booked";
          available_techs := available_techs slot |}
  else slot.

(* ================================================================== *)
(** * Hosts whose clocks change *)
(* ================================================================== *)

(** [Host] fixes the offset of local time from UTC: it describes a host
    on days without a clock change.  A [Zone] lets the offset depend on
    the instant, as with daylight saving time:
    [LocalTime(t) = t + LocalTZA + DaylightSavingTA(t)], and [UTC(t)]
    takes the adjustment that the host chooses for the local time value
    [t] (the earlier instant when a wall-clock time occurs twice, the
    offset before the change when it does not occur).  The methods of
    [Date] that read or set local fields, and the parts of
    [SchedulingService] that call them, are given again over a [Zone]. *)
Module Zoned.

Record Zone : Type := {
  locale : Host;
  DaylightSavingTA : Date -> Z;
  localAdjustment : Z -> Z
}.

Section DateMethods.

Variable zone : Zone.

Definition LocalTime (t : Z) : Z :=
  t + LocalTZA (locale zone) + DaylightSavingTA zone t.
Definition UTC (t : Z) : Z :=
  t - LocalTZA (locale zone) - localAdjustment zone t.

Definition getDay (d : Date) : Z := WeekDay (LocalTime d).
Definition getMinutes (d : Date) : Z := MinFromTime (LocalTime d).

Definition setHours (d : Date) (hour min sec ms : Z) : Date :=
  UTC (MakeDate (Day (LocalTime d)) (MakeTime hour min sec ms)).

Definition setMinutes (d : Date) (min : Z) : Date :=
  let t := LocalTime d in
  UTC (MakeDate (Day t)
         (MakeTime (HourFromTime t) min (SecFromTime t) (msFromTime t))).

(** [d.toTimeString().slice(0, 5)] *)
Definition clockHHMM (d : Date) : string :=
  let t := LocalTime d in
  String.append (twoDigits (HourFromTime t))
    (String.append ":" (twoDigits (MinFromTime t))).

End DateMethods.

Section Scheduling.

Variable zone : Zone.

Definition getShopScheduleForDay (date : Date)
  : State LocalStorage (option ShopSchedule) :=
  data <- getSchedulingData ;;
  let dayOfWeek := getDay zone date in
  ret (find (fun schedule => day_of_week schedule =? dayOfWeek)
         (shop_schedules data)).

Definition dayTime (date : Date) (hhmm : string) : option Date :=
  match hourMinute hhmm with
  | Some (h, m) => Some (setHours zone date h m 0 0)
  | None => None
  end.

Definition overlapsLunch (schedule : ShopSchedule) (slotStart slotEnd : Date)
  : bool :=
  let slotStartTime := clockHHMM zone slotStart in
  let slotEndTime := clockHHMM zone slotEnd in
  match lunch_start schedule, lunch_end schedule with
  | Some lunchStart, Some lunchEnd =>
      truthy (lunch_start schedule) && truthy (lunch_end schedule)
      && String.ltb slotStartTime lunchEnd
      && String.ltb lunchStart slotEndTime
  | _, _ => false
  end.

(** The [while (currentSlot < endTime)] loop.  With an arbitrary zone the
    number of iterations has no bound that can be read off the opening
    hours: [None] is returned when [fuel] iterations were not enough. *)
Fixpoint slotLoop (schedule : ShopSchedule) (serviceId : string)
    (serviceDuration : Z) (endTime : Date) (fuel : nat) (currentSlot : Date)
  : State LocalStorage (option (list TimeSlot)) :=
  match fuel with
  | O => ret None
  | S fuel' =>
      if currentSlot <? endTime then
        let slotEnd := currentSlot + serviceDuration * 60000 in
        if slotEnd >? endTime then ret (Some [])
        else
          decision <-
            (if overlapsLunch schedule currentSlot slotEnd
             then ret (false, Some "lunch")
             else
               conflict <- checkAppointmentConflict (locale zone)
                             currentSlot slotEnd ;;
               match conflict with
               | Some _ => ret (false, Some "booked")
               | None => ret (true, None)
               end) ;;
          let slot :=
            {| slot_start := currentSlot;
               slot_end := slotEnd;
               available := fst decision;
               reason := snd decision;
               available_techs :=
                 getAvailableTechs currentSlot slotEnd serviceId |} in
          rest <- slotLoop schedule serviceId serviceDuration endTime fuel'
                    (setMinutes zone currentSlot
                       (getMinutes zone currentSlot + 30)) ;;
          ret (option_map (cons slot) rest)
      else ret (Some [])
  end.

Definition getAvailableTimeSlots (fuel : nat) (date : Date)
    (serviceId : string) (vehicleYear : option Z)
  : State LocalStorage (option (list TimeSlot)) :=
  schedule <- getShopScheduleForDay date ;;
  match schedule with
  | None => ret (Some [])
  | Some schedule =>
      if is_closed schedule then ret (Some [])
      else
        serviceDuration <- calculateServiceDuration serviceId vehicleYear ;;
        match dayTime date (open_time schedule),
              dayTime date (close_time schedule) with
        | Some startTime, Some endTime =>
            slotLoop schedule serviceId serviceDuration endTime fuel startTime
        | _, _ => ret (Some [])
        end
  end.

(** The list that [slotLoop] pushes, as a function of the stored
    appointments. *)
Fixpoint slotList (schedule : ShopSchedule) (serviceId : string)
    (serviceDuration : Z) (endTime : Date) (appts : list Appointment)
    (fuel : nat) (currentSlot : Date) : option (list TimeSlot) :=
  match fuel with
  | O => None
  | S fuel' =>
      if currentSlot <? endTime then
        let slotEnd := currentSlot + serviceDuration * 60000 in
        if slotEnd >? endTime then Some []
        else
          let decision :=
            if overlapsLunch schedule currentSlot slotEnd
            then (false, Some "lunch")
            else match scanAppointments (locale zone) currentSlot slotEnd
                         appts with
                 | Some _ => (false, Some "booked")
                 | None => (true, None)
                 end in
          option_map
            (cons {| slot_start := currentSlot;
                     slot_end := slotEnd;
                     available := fst decision;
                     reason := snd decision;
                     available_techs :=
                       getAvailableTechs currentSlot slotEnd serviceId |})
            (slotList schedule serviceId serviceDuration endTime appts fuel'
               (setMinutes zone currentSlot
                  (getMinutes zone currentSlot + 30)))
      else Some []
  end.

Definition isShopOpen (dateTime : Date) : State LocalStorage bool :=
  schedule <- getShopScheduleForDay dateTime ;;
  match schedule with
  | None => ret false
  | Some schedule =>
      if is_closed schedule then ret false
      else
        let timeStr := clockHHMM zone dateTime in
        if String.ltb timeStr (open_time schedule)
           || negb (String.ltb timeStr (close_time schedule))
        then ret false
        else
          match lunch_start schedule, lunch_end schedule with
          | Some lunchStart, Some lunchEnd =>
              if truthy (lunch_start schedule) && truthy (lunch_end schedule)
                 && negb (String.ltb timeStr lunchStart)
                 && String.ltb timeStr lunchEnd
              then ret false
              else ret true
          | _, _ => ret true
          end
  end.

End Scheduling.

End Zoned.

(** The host with a constant offset that a zone agrees with while its
    adjustment is [c]. *)
Definition steadyHost (zone : Zoned.Zone) (c : Z) : Host :=
  {| LocalTZA := LocalTZA (Zoned.locale zone) + c;
     toLocaleTimeString := toLocaleTimeString (Zoned.locale zone) |}.

(** No clock change from [lo] to [hi]: at every instant in between the
    adjustment in force is [c], and [c] is also the adjustment chosen for
    the local time of that instant. *)
Definition steadyBetween (zone : Zoned.Zone) (c : Z) (lo hi : Date) : Prop :=
  forall t, lo <= t <= hi ->
    Zoned.DaylightSavingTA zone t = c
    /\ Zoned.localAdjustment zone (LocalTime (steadyHost zone c) t) = c.

(** Midnight at the start of the local day of [date], and a local day
    without a clock change, up to half an hour past its end (the last
    step of the slot loop can end there). *)
Definition localMidnight (zone : Zoned.Zone) (c : Z) (date : Date) : Date :=
  setHours (steadyHost zone c) date 0 0 0 0.

Definition steadyDay (zone : Zoned.Zone) (c : Z) (date : Date) : Prop :=
  steadyBetween zone c (localMidnight zone c date)
    (localMidnight zone c date + msPerDay + 30 * msPerMinute).

(** US Eastern time around the end of daylight saving time in 2026: the
    clocks go back from 02:00 to 01:00 on Sunday 2026-11-01, at 06:00 UTC.
    A wall-clock time between 01:00 and 02:00 of that day occurs twice and
    is read as the earlier instant. *)
Definition fallBackInstant : Date := 20758 * msPerDay + 6 * msPerHour.

Definition easternAutumn2026 : Zoned.Zone :=
  {| Zoned.locale :=
       {| LocalTZA := -5 * msPerHour;
          toLocaleTimeString := toLocaleTimeString hostUTC |};
     Zoned.DaylightSavingTA := fun t =>
       if t <? fallBackInstant then msPerHour else 0;
     Zoned.localAdjustment := fun t =>
       if t <? 20758 * msPerDay + 2 * msPerHour then msPerHour else 0 |}.

(** 01:00 local time (05:00 UTC) on that Sunday, and noon UTC on the
    Monday after. *)
Definition fallBackSunday : Date := 20758 * msPerDay + 5 * msPerHour.
Definition mondayAfterFallBack : Date := 20759 * msPerDay + 12 * msPerHour.

(** The first slot of that Monday for a 30-minute service: 08:00
    standard time, 13:00 UTC. *)
Definition mondayAfterFirstSlot : TimeSlot :=
  {| slot_start := 20759 * msPerDay + 13 * msPerHour;
     slot_end := 20759 * msPerDay + 13 * msPerHour + 30 * msPerMinute;
     available := true;
     reason := None;
     available_techs := ["tech-001"; "tech-002"] |}.

(** A shop open on Sundays from 00:00 to 04:00 with a break from 01:15 to
    01:45. *)
Definition nightShiftStorage : LocalStorage :=
  {| shop_scheduling :=
       Some {| appointments := [];
               shop_schedules :=
                 [ {| schedule_id := "schedule_0";
                      day_of_week := 0;
                      open_time := "00:00";
                      close_time := "04:00";
                      lunch_start := Some "01:15";
                      lunch_end := Some "01:45";
                      is_closed := false;
                      max_appointments_per_hour := Some 4 |} ];
               service_durations := getDefaultServiceDurations |};
     shop_database := None |}.

(* ================================================================== *)
(** * A Monday with lunch and bookings *)
(* ================================================================== *)

(** An appointment booked over the lunch break. *)
Definition bookedOverLunch : Appointment :=
  exampleAppointment "appt-4" (mondayAt 12 0) (mondayAt 13 0) confirmed.

(** The booked calendar with one more appointment, over lunch. *)
Definition lunchBookedStorage : LocalStorage :=
  {| shop_scheduling :=
       Some {| appointments :=
                 [cancelledAt9; confirmedAt10; scheduledAt1030;
                  bookedOverLunch];
               shop_schedules := getDefaultShopSchedule;
               service_durations := getDefaultServiceDurations |};
     shop_database := None |}.

(** The 30-minute slots of that Monday at 12:00 and at 10:00. *)
Definition mondayLunchSlot : TimeSlot :=
  {| slot_start := mondayAt 12 0;
     slot_end := mondayAt 12 30;
     available := false;
     reason := Some "lunch";
     available_techs := ["tech-001"; "tech-002"] |}.

Definition mondayBookedSlot : TimeSlot :=
  {| slot_start := mondayAt 10 0;
     slot_end := mondayAt 10 30;
     available := false;
     reason := Some "booked";
     available_techs := ["tech-001"; "tech-002"] |}.

(* ================================================================== *)
(** * Example updates, technicians and VINs *)
(* ================================================================== *)

(** The update [{ estimated_minutes: m }] of the owner settings. *)
Definition estimatedMinutesUpdate (m : Z) : ServiceDurationUpdates :=
  {| upd_duration_id := None;
     upd_service_id := None;
     upd_service_name := None;
     upd_category := None;
     upd_estimated_minutes := Some m;
     upd_minimum_minutes := None;
     upd_maximum_minutes := None;
     upd_buffer_minutes := None;
     upd_complexity_multiplier := None;
     upd_requires_specialist := None;
     upd_can_overlap := None |}.

(** The first seeded technician. *)
Definition mikeJohnson : TechProfile :=
  {| tech_id := "tech-001";
     tech_name := "Mike Johnson";
     employee_id := Some "EMP001";
     certifications := Some ["ASE A1"; "ASE A5"; "ASE A8"];
     specialties := Some ["brake"; "suspension"; "general"];
     hourly_rate := Some (inject_Z 45);
     active := true |}.

(** A VIN typed in lower case. *)
Definition exampleVin : string := "1hgcm82633a004352".

(* ================================================================== *)
(** * Reading the stored documents *)
(* ================================================================== *)

Lemma getSchedulingData_stored (ls : LocalStorage) (d : SchedulingData) :
  shop_scheduling ls = Some d -> getSchedulingData ls = (d, ls).
Proof. intros H. unfold getSchedulingData. rewrite H. reflexivity. Qed.

Lemma getSchedulingData_persists (ls : LocalStorage) :
  shop_scheduling (execState getSchedulingData ls) = Some (schedulingDoc ls).
Proof.
  unfold execState, schedulingDoc, evalState, getSchedulingData.
  destruct (shop_scheduling ls) eqn:E; simpl; [exact E | reflexivity].
Qed.

Lemma getSchedulingData_run (ls : LocalStorage) :
  getSchedulingData ls = (schedulingDoc ls, execState getSchedulingData ls).
Proof.
  unfold schedulingDoc, evalState, execState.
  destruct (getSchedulingData ls); reflexivity.
Qed.

Lemma schedulingDoc_stored (ls : LocalStorage) (d : SchedulingData) :
  shop_scheduling ls = Some d -> schedulingDoc ls = d.
Proof.
  intros H. unfold schedulingDoc, evalState.
  rewrite (getSchedulingData_stored ls d H). reflexivity.
Qed.

(** A second read sees the document the first one left behind. *)
Lemma schedulingDoc_persisted (ls : LocalStorage) :
  schedulingDoc (execState getSchedulingData ls) = schedulingDoc ls.
Proof. apply schedulingDoc_stored, getSchedulingData_persists. Qed.

Lemma execState_getSchedulingData_idem (ls : LocalStorage) :
  execState getSchedulingData (execState getSchedulingData ls)
  = execState getSchedulingData ls.
Proof.
  unfold execState at 1.
  rewrite (getSchedulingData_stored _ _ (getSchedulingData_persists ls)).
  reflexivity.
Qed.

Lemma bind_getSchedulingData {A : Type}
    (k : SchedulingData -> State LocalStorage A) (ls : LocalStorage) :
  (data <- getSchedulingData ;; k data) ls
  = k (schedulingDoc ls) (execState getSchedulingData ls).
Proof. unfold bind. rewrite getSchedulingData_run. reflexivity. Qed.

Lemma getStorageData_stored (ls : LocalStorage) (d : StorageData) :
  shop_database ls = Some d -> getStorageData ls = (d, ls).
Proof. intros H. unfold getStorageData. rewrite H. reflexivity. Qed.

Lemma getStorageData_persists (ls : LocalStorage) :
  shop_database (execState getStorageData ls) = Some (databaseDoc ls).
Proof.
  unfold execState, databaseDoc, evalState, getStorageData.
  destruct (shop_database ls) eqn:E; simpl; [exact E | reflexivity].
Qed.

Lemma getStorageData_run (ls : LocalStorage) :
  getStorageData ls = (databaseDoc ls, execState getStorageData ls).
Proof.
  unfold databaseDoc, evalState, execState.
  destruct (getStorageData ls); reflexivity.
Qed.

(* ================================================================== *)
(** * Conflict detection *)
(* ================================================================== *)

Lemma isCancelled_false_iff (a : Appointment) :
  isCancelled a = false <-> activeAppointment a.
Proof.
  unfold isCancelled, activeAppointment.
  destruct (appt_status a); split; intros H; try reflexivity;
    try discriminate; try (intros C; discriminate C).
  exfalso. apply H. reflexivity.
Qed.

Lemma conflictsWith_true_iff (startTime endTime : Date) (a : Appointment) :
  conflictsWith startTime endTime a = true
  <-> overlapsAppointment startTime endTime a.
Proof.
  unfold conflictsWith, overlapsAppointment.
  rewrite andb_true_iff, Z.ltb_lt, Z.gtb_ltb, Z.ltb_lt. lia.
Qed.

Lemma checkAppointmentConflict_run (host : Host) (startTime endTime : Date)
    (ls : LocalStorage) :
  checkAppointmentConflict host startTime endTime ls
  = (scanAppointments host startTime endTime (appointments (schedulingDoc ls)),
     execState getSchedulingData ls).
Proof.
  unfold checkAppointmentConflict. rewrite bind_getSchedulingData. reflexivity.
Qed.

(** The scan reports a conflict exactly when some active appointment
    overlaps. *)
Lemma scanAppointments_some_iff (host : Host) (startTime endTime : Date)
    (appts : list Appointment) :
  scanAppointments host startTime endTime appts <> None
  <-> exists a, In a appts /\ activeAppointment a
                /\ overlapsAppointment startTime endTime a.
Proof.
  induction appts as [|a rest IH]; simpl.
  - split; [congruence | intros [a [[] _]]].
  - destruct (isCancelled a) eqn:Ec.
    + rewrite IH. split.
      * intros [b [Hin Hb]]. exists b. auto.
      * intros [b [[Heq | Hin] [Hact Hov]]].
        -- subst b. apply isCancelled_false_iff in Hact. congruence.
        -- exists b. auto.
    + destruct (conflictsWith startTime endTime a) eqn:Eo.
      * split; [intros _ | congruence].
        exists a. repeat split; auto.
        -- apply isCancelled_false_iff; exact Ec.
        -- apply conflictsWith_true_iff in Eo. apply Eo.
        -- apply conflictsWith_true_iff in Eo. apply Eo.
      * rewrite IH. split.
        -- intros [b [Hin Hb]]. exists b. auto.
        -- intros [b [[Heq | Hin] [Hact Hov]]].
           ++ subst b. apply conflictsWith_true_iff in Hov. congruence.
           ++ exists b. auto.
Qed.

(** What is reported is the first active overlapping appointment. *)
Lemma scanAppointments_first (host : Host) (startTime endTime : Date)
    (appts : list Appointment) (d : AppointmentConflict) :
  scanAppointments host startTime endTime appts = Some d ->
  exists before a after,
    appts = before ++ a :: after
    /\ (forall b, In b before ->
          ~ (activeAppointment b /\ overlapsAppointment startTime endTime b))
    /\ activeAppointment a
    /\ overlapsAppointment startTime endTime a
    /\ d = conflictDescriptor host a.
Proof.
  induction appts as [|a rest IH]; simpl; [discriminate|].
  destruct (isCancelled a) eqn:Ec.
  - intros H. destruct (IH H) as (before & x & after & -> & Hb & Hx).
    exists (a :: before), x, after. split; [reflexivity|]. split; [|exact Hx].
    intros b [<- | Hin]; [|auto].
    intros [Hact _]. apply isCancelled_false_iff in Hact. congruence.
  - destruct (conflictsWith startTime endTime a) eqn:Eo.
    + intros H. injection H as <-.
      exists [], a, rest. split; [reflexivity|]. split; [intros b []|].
      split; [apply isCancelled_false_iff; exact Ec|].
      split; [apply conflictsWith_true_iff; exact Eo | reflexivity].
    + intros H. destruct (IH H) as (before & x & after & -> & Hb & Hx).
      exists (a :: before), x, after. split; [reflexivity|].
      split; [|exact Hx].
      intros b [<- | Hin]; [|auto].
      intros [_ Hov]. apply conflictsWith_true_iff in Hov. congruence.
Qed.

(** The scan stops at the first conflict: what follows it in the store
    has no influence on the result. *)
Lemma scanAppointments_stops (host : Host) (startTime endTime : Date)
    (before : list Appointment) (a : Appointment) :
  (forall b, In b before ->
     ~ (activeAppointment b /\ overlapsAppointment startTime endTime b)) ->
  activeAppointment a ->
  overlapsAppointment startTime endTime a ->
  forall after,
    scanAppointments host startTime endTime (before ++ a :: after)
    = Some (conflictDescriptor host a).
Proof.
  intros Hb Hact Hov after.
  induction before as [|b before IH]; simpl.
  - apply isCancelled_false_iff in Hact. rewrite Hact.
    apply conflictsWith_true_iff in Hov. rewrite Hov. reflexivity.
  - assert (IH' := IH (fun x Hx => Hb x (or_intror Hx))).
    destruct (isCancelled b) eqn:Ec; [exact IH'|].
    destruct (conflictsWith startTime endTime b) eqn:Eo; [|exact IH'].
    exfalso. apply (Hb b (or_introl eq_refl)). split.
    + apply isCancelled_false_iff; exact Ec.
    + apply conflictsWith_true_iff; exact Eo.
Qed.

(** C1. [checkAppointmentConflict] returns a descriptor iff some stored
    appointment that is not cancelled satisfies
    [start < scheduled_end] and [end > scheduled_start].  In particular it
    returns one for the interval of an active appointment (whose end is
    after its start, the invariant of the data model), and null when every
    active appointment is only touched at a boundary.  A returned
    descriptor carries the id of the first such appointment in store
    order, and the appointments after it are not looked at. *)
Theorem checkAppointmentConflict_spec (host : Host) (startTime endTime : Date)
    (ls : LocalStorage) :
  (evalState (checkAppointmentConflict host startTime endTime) ls <> None
   <-> exists a, In a (appointments (schedulingDoc ls))
                 /\ appt_status a <> appt_cancelled
                 /\ startTime < scheduled_end a
                 /\ endTime > scheduled_start a)
  /\ (forall a, In a (appointments (schedulingDoc ls)) ->
        appt_status a <> appt_cancelled ->
        scheduled_start a < scheduled_end a ->
        evalState (checkAppointmentConflict host
                     (scheduled_start a) (scheduled_end a)) ls <> None)
  /\ ((forall a, In a (appointments (schedulingDoc ls)) ->
         appt_status a <> appt_cancelled ->
         endTime = scheduled_start a \/ startTime = scheduled_end a) ->
      evalState (checkAppointmentConflict host startTime endTime) ls = None)
  /\ (forall d,
        evalState (checkAppointmentConflict host startTime endTime) ls = Some d ->
        exists before a after,
          appointments (schedulingDoc ls) = before ++ a :: after
          /\ (forall b, In b before ->
                ~ (appt_status b <> appt_cancelled
                   /\ startTime < scheduled_end b
                   /\ endTime > scheduled_start b))
          /\ appt_status a <> appt_cancelled
          /\ startTime < scheduled_end a
          /\ endTime > scheduled_start a
          /\ conflicting_appointment_id d = Some (appt_id a)
          /\ forall after',
               scanAppointments host startTime endTime (before ++ a :: after')
               = Some d).
Proof.
  unfold evalState. repeat split.
  - rewrite checkAppointmentConflict_run. simpl.
    intros H. apply scanAppointments_some_iff in H. exact H.
  - rewrite checkAppointmentConflict_run. simpl.
    intros H. apply scanAppointments_some_iff. exact H.
  - intros a Hin Hact Hlt. rewrite checkAppointmentConflict_run. simpl.
    apply scanAppointments_some_iff. exists a.
    unfold activeAppointment, overlapsAppointment. repeat split; auto; lia.
  - intros Htouch. rewrite checkAppointmentConflict_run. simpl.
    destruct (scanAppointments host startTime endTime
                (appointments (schedulingDoc ls))) eqn:E; [|reflexivity].
    exfalso.
    assert (Hne : scanAppointments host startTime endTime
                    (appointments (schedulingDoc ls)) <> None) by congruence.
    apply scanAppointments_some_iff in Hne.
    destruct Hne as (x & Hin & Hact & Hlo & Hhi).
    destruct (Htouch x Hin Hact); lia.
  - intros d. rewrite checkAppointmentConflict_run. simpl. intros H.
    destruct (scanAppointments_first _ _ _ _ _ H)
      as (before & a & after & Heq & Hb & Hact & Hov & ->).
    exists before, a, after. split; [exact Heq|].
    split; [intros b Hin [Hb1 Hb2]; apply (Hb b Hin); split; assumption|].
    destruct Hov as [Hlo Hhi]. repeat split; auto.
    intros after'. apply scanAppointments_stops; auto. split; assumption.
Qed.

(** C10. The interval is not validated: an empty interval [[t, t)] lying
    strictly inside an active appointment is reported as a conflict. *)
Theorem checkAppointmentConflict_empty_interval (host : Host)
    (ls : LocalStorage) (a : Appointment) (t : Date) :
  In a (appointments (schedulingDoc ls)) ->
  appt_status a <> appt_cancelled ->
  scheduled_start a < t < scheduled_end a ->
  evalState (checkAppointmentConflict host t t) ls <> None.
Proof.
  intros Hin Hact Ht. unfold evalState.
  rewrite checkAppointmentConflict_run. simpl.
  apply scanAppointments_some_iff. exists a.
  unfold activeAppointment, overlapsAppointment. repeat split; auto; lia.
Qed.

(* ================================================================== *)
(** * Service durations *)
(* ================================================================== *)

Lemma Math_ceil_of_Z (z : Z) : Math_ceil (of_Z z) = z.
Proof. destruct z; simpl; try reflexivity; lia. Qed.

Lemma getServiceDuration_run (serviceId : string) (ls : LocalStorage) :
  getServiceDuration serviceId ls
  = (find (fun sd => String.eqb (service_id sd) serviceId)
       (service_durations (schedulingDoc ls)),
     execState getSchedulingData ls).
Proof.
  unfold getServiceDuration. rewrite bind_getSchedulingData. reflexivity.
Qed.

Lemma calculateServiceDuration_state (serviceId : string)
    (vehicleYear : option Z) (ls : LocalStorage) :
  execState (calculateServiceDuration serviceId vehicleYear) ls
  = execState getSchedulingData ls.
Proof.
  unfold execState, calculateServiceDuration, bind.
  rewrite getServiceDuration_run.
  destruct (find _ _); reflexivity.
Qed.

(** The computed duration does not depend on whether the defaults were
    already written back. *)
Lemma calculateServiceDuration_persisted (serviceId : string)
    (vehicleYear : option Z) (ls : LocalStorage) :
  evalState (calculateServiceDuration serviceId vehicleYear)
    (execState getSchedulingData ls)
  = evalState (calculateServiceDuration serviceId vehicleYear) ls.
Proof.
  unfold evalState, calculateServiceDuration, bind.
  rewrite !getServiceDuration_run, schedulingDoc_persisted.
  destruct (find _ _); reflexivity.
Qed.

(** C4, as the code has it.  [calculateServiceDuration] returns the
    60-minute default when the service has no configuration; otherwise it
    returns [estimated_minutes], multiplied by [complexity_multiplier] and
    rounded up when [vehicleYear] is supplied, is not 0 and is below 2010.
    With the seeded configurations, ['brake-pads'] takes 135 minutes for
    a 2005 vehicle and 90 minutes for a 2020 vehicle. *)
Theorem calculateServiceDuration_spec (serviceId : string)
    (vehicleYear : option Z) (ls : LocalStorage) :
  evalState (calculateServiceDuration serviceId vehicleYear) ls
  = match evalState (getServiceDuration serviceId) ls with
    | None => 60
    | Some sd =>
        match vehicleYear with
        | Some y =>
            if negb (y =? 0) && (y <? 2010)
            then Math_ceil (mul (of_Z (estimated_minutes sd))
                              (complexity_multiplier sd))
            else estimated_minutes sd
        | None => estimated_minutes sd
        end
    end
  /\ evalState (calculateServiceDuration "brake-pads" (Some 2005)) emptyStorage
     = 135
  /\ evalState (calculateServiceDuration "brake-pads" (Some 2020)) emptyStorage
     = 90.
Proof.
  split; [|split; reflexivity].
  unfold evalState, calculateServiceDuration, bind.
  destruct (getServiceDuration serviceId ls) as [[sd|] ls']; simpl;
    [|reflexivity].
  destruct vehicleYear as [y|]; simpl.
  - destruct (negb (y =? 0) && (y <? 2010)); [reflexivity|].
    apply Math_ceil_of_Z.
  - apply Math_ceil_of_Z.
Qed.

(** C4, as stated, fails for the model year 0: the year is supplied and is
    below 2010, yet the seeded ['brake-pads'] duration stays at 90 minutes
    instead of [ceil (90 * 1.5) = 135]. *)
Lemma calculateServiceDuration_year_zero :
  0 < 2010
  /\ evalState (calculateServiceDuration "brake-pads" (Some 0)) emptyStorage
     = 90
  /\ Math_ceil (mul (of_Z 90) (decimal 15 10)) = 135
  /\ evalState (calculateServiceDuration "brake-pads" (Some 0)) emptyStorage
     <> Math_ceil (mul (of_Z 90) (decimal 15 10)).
Proof.
  split; [lia|]. split; [reflexivity|]. split; [reflexivity|].
  vm_compute. discriminate.
Qed.

(** The product is the binary64 product: 100 * 1.1 is a little above 110
    and rounds up to 111. *)
Example ceil_of_binary64_product :
  Math_ceil (mul (of_Z 100) (decimal 11 10)) = 111.
Proof. reflexivity. Qed.

(* ================================================================== *)
(** * Dates *)
(* ================================================================== *)

Lemma time_decomposition (t : Z) :
  MakeDate (Day t)
    (MakeTime (HourFromTime t) (MinFromTime t) (SecFromTime t) (msFromTime t))
  = t.
Proof.
  unfold MakeDate, MakeTime, Day, HourFromTime, MinFromTime, SecFromTime,
    msFromTime, msPerDay, msPerHour, msPerMinute, msPerSecond.
  assert (E1 : t / 1000 / 60 = t / 60000)
    by (rewrite Z.div_div by lia; reflexivity).
  assert (E2 : t / 60000 / 60 = t / 3600000)
    by (rewrite Z.div_div by lia; reflexivity).
  assert (E3 : t / 3600000 / 24 = t / 86400000)
    by (rewrite Z.div_div by lia; reflexivity).
  pose proof (Z.div_mod t 1000 ltac:(lia)) as H1.
  pose proof (Z.div_mod (t / 1000) 60 ltac:(lia)) as H2.
  pose proof (Z.div_mod (t / 60000) 60 ltac:(lia)) as H3.
  pose proof (Z.div_mod (t / 3600000) 24 ltac:(lia)) as H4.
  rewrite E1 in H2. rewrite E2 in H3. rewrite E3 in H4.
  lia.
Qed.

(** [d.setMinutes(d.getMinutes() + 30)] moves the date 30 minutes on. *)
Lemma setMinutes_plus_30 (host : Host) (d : Date) :
  setMinutes host d (getMinutes host d + 30) = d + 30 * msPerMinute.
Proof.
  unfold setMinutes, getMinutes, UTC.
  pose proof (time_decomposition (LocalTime host d)) as H.
  unfold MakeDate, MakeTime in *. unfold LocalTime in *. lia.
Qed.

(* ================================================================== *)
(** * Slot generation *)
(* ================================================================== *)

Lemma getShopScheduleForDay_run (host : Host) (date : Date)
    (ls : LocalStorage) :
  getShopScheduleForDay host date ls
  = (find (fun schedule => day_of_week schedule =? getDay host date)
       (shop_schedules (schedulingDoc ls)),
     execState getSchedulingData ls).
Proof.
  unfold getShopScheduleForDay. rewrite bind_getSchedulingData. reflexivity.
Qed.

(** Once the document is stored, the loop leaves the storage as it is and
    pushes the slots of [slotList]. *)
Lemma slotLoop_run (host : Host) (schedule : ShopSchedule)
    (serviceId : string) (serviceDuration : Z) (endTime : Date)
    (ls : LocalStorage) (d : SchedulingData) :
  shop_scheduling ls = Some d ->
  forall (fuel : nat) (currentSlot : Date),
    slotLoop host schedule serviceId serviceDuration endTime fuel currentSlot ls
    = (slotList host schedule serviceId serviceDuration endTime
         (appointments d) fuel currentSlot, ls).
Proof.
  intros Hd. induction fuel as [|fuel IH]; intros cur; simpl; [reflexivity|].
  destruct (cur <? endTime); [|reflexivity].
  destruct (cur + serviceDuration * 60000 >? endTime); [reflexivity|].
  unfold bind at 1.
  destruct (overlapsLunch host schedule cur (cur + serviceDuration * 60000)).
  - unfold ret at 1. unfold bind at 1.
    rewrite setMinutes_plus_30, IH. reflexivity.
  - unfold bind at 1. rewrite checkAppointmentConflict_run.
    rewrite (schedulingDoc_stored ls d Hd).
    unfold execState. rewrite (getSchedulingData_stored ls d Hd). simpl.
    destruct (scanAppointments host cur (cur + serviceDuration * 60000)
                (appointments d));
      unfold ret at 1; unfold bind at 1;
      rewrite setMinutes_plus_30, IH; reflexivity.
Qed.

(** The result of [getAvailableTimeSlots], with the loop replaced by the
    list it pushes. *)
Lemma getAvailableTimeSlots_run (host : Host) (date : Date)
    (serviceId : string) (vehicleYear : option Z) (ls : LocalStorage) :
  evalState (getAvailableTimeSlots host date serviceId vehicleYear) ls
  = match evalState (getShopScheduleForDay host date) ls with
    | None => []
    | Some schedule =>
        if is_closed schedule then []
        else
          match dayTime host date (open_time schedule),
                dayTime host date (close_time schedule) with
          | Some startTime, Some endTime =>
              slotList host schedule serviceId
                (evalState (calculateServiceDuration serviceId vehicleYear) ls)
                endTime (appointments (schedulingDoc ls))
                (slotFuel startTime endTime) startTime
          | _, _ => []
          end
    end.
Proof.
  unfold evalState at 1. unfold getAvailableTimeSlots. unfold bind at 1.
  unfold evalState at 1.
  rewrite getShopScheduleForDay_run. simpl.
  destruct (find _ _) as [schedule|]; [|reflexivity].
  destruct (is_closed schedule); [reflexivity|].
  unfold bind.
  pose proof (calculateServiceDuration_persisted serviceId vehicleYear ls) as Hd.
  pose proof (calculateServiceDuration_state serviceId vehicleYear
                (execState getSchedulingData ls)) as Hs.
  rewrite execState_getSchedulingData_idem in Hs.
  unfold evalState at 1 in Hd. unfold execState at 1 in Hs.
  destruct (calculateServiceDuration serviceId vehicleYear
              (execState getSchedulingData ls)) as [dur ls'].
  simpl in Hd, Hs. subst dur ls'.
  destruct (dayTime host date (open_time schedule)) as [startTime|];
    [|reflexivity].
  destruct (dayTime host date (close_time schedule)) as [endTime|];
    [|reflexivity].
  rewrite (slotLoop_run host schedule serviceId _ endTime _ _
             (getSchedulingData_persists ls)).
  reflexivity.
Qed.

(** The loop ends because the candidate reaches the closing time, not
    because the iteration bound is reached: any larger bound gives the
    same slots. *)
Lemma slotList_fuel_stable (host : Host) (schedule : ShopSchedule)
    (serviceId : string) (serviceDuration : Z) (endTime : Date)
    (appts : list Appointment) (fuel : nat) :
  forall (currentSlot : Date) (extra : nat),
    (endTime - currentSlot) / (30 * msPerMinute) + 1 <= Z.of_nat fuel ->
    slotList host schedule serviceId serviceDuration endTime appts
      (fuel + extra) currentSlot
    = slotList host schedule serviceId serviceDuration endTime appts
        fuel currentSlot.
Proof.
  unfold msPerMinute.
  induction fuel as [|fuel IH]; intros cur extra Hfuel.
  - assert (Hlt : endTime < cur).
    { destruct (Z.lt_ge_cases endTime cur) as [Hlt | Hge]; [exact Hlt|].
      pose proof (Z.div_pos (endTime - cur) (30 * 60000)
                    ltac:(lia) ltac:(lia)).
      simpl Z.of_nat in Hfuel. lia. }
    destruct extra; simpl; [reflexivity|].
    destruct (Z.ltb_spec cur endTime); [lia | reflexivity].
  - simpl.
    destruct (cur <? endTime); [|reflexivity].
    destruct (cur + serviceDuration * 60000 >? endTime); [reflexivity|].
    f_equal. apply IH.
    assert (E : (endTime - (cur + 30 * 60000)) / (30 * 60000)
                = (endTime - cur) / (30 * 60000) - 1).
    { replace (endTime - (cur + 30 * 60000))
        with ((endTime - cur) + (-1) * (30 * 60000)) by lia.
      rewrite Z.div_add by lia. lia. }
    change (30 * 60000) with 1800000 in *. rewrite E. lia.
Qed.

(** Every pushed slot lies on the 30-minute grid that starts at the
    first candidate, has the requested length, ends by the closing time,
    and carries the decision taken for its interval. *)
Lemma slotList_In (host : Host) (schedule : ShopSchedule)
    (serviceId : string) (serviceDuration : Z) (endTime : Date)
    (appts : list Appointment) (fuel : nat) :
  forall (currentSlot : Date) (slot : TimeSlot),
    In slot (slotList host schedule serviceId serviceDuration endTime appts
               fuel currentSlot) ->
    (exists k, 0 <= k /\ slot_start slot = currentSlot + k * (30 * msPerMinute))
    /\ slot_end slot = slot_start slot + serviceDuration * msPerMinute
    /\ slot_end slot <= endTime
    /\ (available slot, reason slot)
       = (if overlapsLunch host schedule (slot_start slot) (slot_end slot)
          then (false, Some "lunch")
          else match scanAppointments host (slot_start slot) (slot_end slot)
                       appts with
               | Some _ => (false, Some "booked")
               | None => (true, None)
               end)
    /\ available_techs slot = ["tech-001"; "tech-002"].
Proof.
  unfold msPerMinute.
  induction fuel as [|fuel IH]; intros cur slot; simpl; [intros []|].
  destruct (cur <? endTime); [|intros []].
  destruct (Z.gtb_spec (cur + serviceDuration * 60000) endTime) as [Hgt|Hle];
    [intros []|].
  intros [<- | Hin]; simpl.
  - split; [exists 0; lia|]. split; [reflexivity|]. split; [lia|].
    split; [|reflexivity].
    destruct (overlapsLunch host schedule cur (cur + serviceDuration * 60000));
      [reflexivity|].
    destruct (scanAppointments host cur (cur + serviceDuration * 60000) appts);
      reflexivity.
  - destruct (IH _ _ Hin) as ((k & Hk & Hstart) & Hrest).
    split; [|exact Hrest].
    exists (k + 1). unfold msPerMinute in Hstart. lia.
Qed.



(** The lunch test holds exactly when both ends of the lunch window are
    configured and the wall-clock start of the slot is before the end of
    lunch while its wall-clock end is after the start of lunch. *)
Lemma overlapsLunch_true_iff (host : Host) (schedule : ShopSchedule)
    (slotStart slotEnd : Date) :
  overlapsLunch host schedule slotStart slotEnd = true
  <-> exists lunchStart lunchEnd,
        lunch_start schedule = Some lunchStart
        /\ lunch_end schedule = Some lunchEnd
        /\ lunchStart <> "" /\ lunchEnd <> ""
        /\ String.ltb (clockHHMM host slotStart) lunchEnd = true
        /\ String.ltb lunchStart (clockHHMM host slotEnd) = true.
Proof.
  unfold overlapsLunch, truthy.
  destruct (lunch_start schedule) as [lunchStart|];
    [|split; [discriminate | intros (? & ? & ? & _); discriminate]].
  destruct (lunch_end schedule) as [lunchEnd|];
    [|split; [discriminate | intros (? & ? & _ & ? & _); discriminate]].
  rewrite !andb_true_iff, !negb_true_iff. split.
  - intros [[[H1 H2] H3] H4]. exists lunchStart, lunchEnd.
    repeat split; auto.
    + intros ->. discriminate H1.
    + intros ->. discriminate H2.
  - intros (a & b & Ha & Hb & Hna & Hnb & H3 & H4).
    injection Ha as <-. injection Hb as <-. repeat split; auto.
    + destruct (String.eqb_spec lunchStart ""); congruence.
    + destruct (String.eqb_spec lunchEnd ""); congruence.
Qed.

(** C8, as the code has it.  Every returned slot, available or not,
    carries the fixed default list of two technician ids, whatever the
    roster holds. *)
Theorem getAvailableTimeSlots_default_techs (host : Host) (date : Date)
    (serviceId : string) (vehicleYear : option Z) (ls : LocalStorage)
    (slot : TimeSlot) :
  In slot (evalState (getAvailableTimeSlots host date serviceId vehicleYear)
             ls) ->
  available_techs slot = ["tech-001"; "tech-002"].
Proof.
  intros Hin. rewrite getAvailableTimeSlots_run in Hin.
  destruct (evalState (getShopScheduleForDay host date) ls) as [schedule|];
    [|destruct Hin].
  destruct (is_closed schedule); [destruct Hin|].
  destruct (dayTime host date (open_time schedule)) as [openAt|];
    [|destruct Hin].
  destruct (dayTime host date (close_time schedule)) as [closeAt|];
    [|destruct Hin].
  destruct (slotList_In _ _ _ _ _ _ _ _ _ Hin) as (_ & _ & _ & _ & Htechs).
  exact Htechs.
Qed.

(** C8, as stated, fails on the seeded stores: the first Monday slot is
    available and lists two technicians, while the roster has three. *)
Lemma available_techs_not_all_technicians :
  In mondayFirstSlot
    (evalState (getAvailableTimeSlots hostUTC monday "oil-change" None)
       emptyStorage)
  /\ available mondayFirstSlot = true
  /\ available_techs mondayFirstSlot = ["tech-001"; "tech-002"]
  /\ map tech_id (tech_profiles (databaseDoc emptyStorage))
     = ["tech-001"; "tech-002"; "tech-003"]
  /\ available_techs mondayFirstSlot
     <> map tech_id (tech_profiles (databaseDoc emptyStorage)).
Proof.
  split; [vm_compute; left; reflexivity|].
  split; [reflexivity|]. split; [reflexivity|].
  split; [vm_compute; reflexivity|].
  vm_compute. discriminate.
Qed.

(** C9. When the weekday has no schedule, or its schedule is marked
    closed, [getAvailableTimeSlots] returns the empty list, for every
    service and vehicle year. *)
Theorem getAvailableTimeSlots_closed (host : Host) (date : Date)
    (serviceId : string) (vehicleYear : option Z) (ls : LocalStorage) :
  evalState (getShopScheduleForDay host date) ls = None
  \/ (exists schedule,
        evalState (getShopScheduleForDay host date) ls = Some schedule
        /\ is_closed schedule = true) ->
  evalState (getAvailableTimeSlots host date serviceId vehicleYear) ls = [].
Proof.
  intros [Hnone | (schedule & Hsome & Hclosed)];
    rewrite getAvailableTimeSlots_run.
  - rewrite Hnone. reflexivity.
  - rewrite Hsome, Hclosed. reflexivity.
Qed.

(* ================================================================== *)
(** * The day of the default calendar *)
(* ================================================================== *)

(** Wall-clock times repeat every day and do not depend on the time
    zone once the date is taken relative to local midnight. *)
Lemma clockHHMM_shift (host : Host) (base day c : Z) :
  base + LocalTZA host = day * msPerDay ->
  clockHHMM host (base + c) = clockHHMM hostUTC c.
Proof.
  intros Hbase. unfold clockHHMM, LocalTime. simpl LocalTZA.
  replace (base + c + LocalTZA host) with (c + day * msPerDay) by lia.
  rewrite Z.add_0_r.
  assert (Hh : HourFromTime (c + day * msPerDay) = HourFromTime c).
  { unfold HourFromTime, msPerDay, msPerHour.
    replace (c + day * 86400000) with (c + (day * 24) * 3600000) by lia.
    rewrite Z.div_add by lia. apply Z_mod_plus_full. }
  assert (Hm : MinFromTime (c + day * msPerDay) = MinFromTime c).
  { unfold MinFromTime, msPerDay, msPerMinute.
    replace (c + day * 86400000) with (c + (day * 1440) * 60000) by lia.
    rewrite Z.div_add by lia.
    replace (day * 1440) with ((day * 24) * 60) by lia.
    apply Z_mod_plus_full. }
  rewrite Hh, Hm. reflexivity.
Qed.

Lemma overlapsLunch_shift (host : Host) (schedule : ShopSchedule)
    (base day c c' : Z) :
  base + LocalTZA host = day * msPerDay ->
  overlapsLunch host schedule (base + c) (base + c')
  = overlapsLunch hostUTC schedule c c'.
Proof.
  intros Hbase. unfold overlapsLunch.
  rewrite (clockHHMM_shift host base day c Hbase).
  rewrite (clockHHMM_shift host base day c' Hbase). reflexivity.
Qed.

(** With no appointments stored, the slots of a day are those of the
    first day of the epoch on a UTC host, moved to local midnight. *)
Lemma slotList_shift (host : Host) (schedule : ShopSchedule)
    (serviceId : string) (serviceDuration : Z) (base day : Z) :
  base + LocalTZA host = day * msPerDay ->
  forall (fuel : nat) (e c : Z),
    slotList host schedule serviceId serviceDuration (base + e) [] fuel
      (base + c)
    = map (shiftSlot base)
        (slotList hostUTC schedule serviceId serviceDuration e [] fuel c).
Proof.
  intros Hbase. induction fuel as [|fuel IH]; intros e c; simpl;
    [reflexivity|].
  replace (base + c <? base + e) with (c <? e)
    by (destruct (Z.ltb_spec c e), (Z.ltb_spec (base + c) (base + e));
        reflexivity || lia).
  destruct (c <? e); [|reflexivity].
  replace (base + c + serviceDuration * 60000)
    with (base + (c + serviceDuration * 60000)) by lia.
  replace (base + (c + serviceDuration * 60000) >? base + e)
    with (c + serviceDuration * 60000 >? e)
    by (destruct (Z.gtb_spec (c + serviceDuration * 60000) e),
          (Z.gtb_spec (base + (c + serviceDuration * 60000)) (base + e));
        reflexivity || lia).
  destruct (c + serviceDuration * 60000 >? e); [reflexivity|].
  rewrite (overlapsLunch_shift host schedule base day _ _ Hbase).
  simpl map. f_equal.
  rewrite <- Z.add_assoc. apply IH.
Qed.

Lemma setHours_base (host : Host) (date : Date) (hour min : Z) :
  setHours host date hour min 0 0
  = (Day (LocalTime host date) * msPerDay - LocalTZA host)
    + (hour * msPerHour + min * msPerMinute).
Proof. unfold setHours, UTC, MakeDate, MakeTime. lia. Qed.

(** The slots of an 08:00-17:00 day with lunch from 12:00 to 13:00, for a
    30-minute service and no stored appointment, relative to local
    midnight. *)
Lemma slots_of_default_day (host : Host) (date : Date)
    (serviceId : string) (vehicleYear : option Z) (ls : LocalStorage)
    (schedule : ShopSchedule) :
  evalState (getShopScheduleForDay host date) ls = Some schedule ->
  is_closed schedule = false ->
  open_time schedule = "08:00" ->
  close_time schedule = "17:00" ->
  lunch_start schedule = Some "12:00" ->
  lunch_end schedule = Some "13:00" ->
  evalState (calculateServiceDuration serviceId vehicleYear) ls = 30 ->
  appointments (schedulingDoc ls) = [] ->
  evalState (getAvailableTimeSlots host date serviceId vehicleYear) ls
  = map (shiftSlot (Day (LocalTime host date) * msPerDay - LocalTZA host))
      (slotList hostUTC (mkShopSchedule 1 "schedule_1" "08:00" "17:00")
         "oil-change" 30 (17 * msPerHour) [] 19 (8 * msPerHour)).
Proof.
  intros Hsched Hclosed Hopen Hclose Hls Hle Hdur Happts.
  rewrite getAvailableTimeSlots_run, Hsched, Hclosed, Hopen, Hclose.
  rewrite Hdur, Happts.
  unfold dayTime.
  replace (hourMinute "08:00") with (Some (8, 0)) by (vm_compute; reflexivity).
  replace (hourMinute "17:00") with (Some (17, 0)) by (vm_compute; reflexivity).
  cbv beta iota.
  set (base := Day (LocalTime host date) * msPerDay - LocalTZA host).
  assert (Hbase : base + LocalTZA host = Day (LocalTime host date) * msPerDay)
    by (unfold base; lia).
  rewrite !setHours_base. fold base.
  replace (slotFuel (base + (8 * msPerHour + 0 * msPerMinute))
             (base + (17 * msPerHour + 0 * msPerMinute)))
    with 19%nat
    by (unfold slotFuel;
        replace (base + (17 * msPerHour + 0 * msPerMinute)
                 - (base + (8 * msPerHour + 0 * msPerMinute)))
          with 32400000 by (unfold msPerHour, msPerMinute; lia);
        reflexivity).
  rewrite (slotList_shift host schedule serviceId 30 base _ Hbase).
  match goal with
  | |- map _ ?l = map _ ?r => assert (E : l = r)
  end.
  { destruct schedule; simpl in Hls, Hle; subst.
    vm_compute. reflexivity. }
  rewrite E. reflexivity.
Qed.

Lemma default_day_no_1145 :
  Forall (fun slot => slot_start slot <> 11 * msPerHour + 45 * msPerMinute)
    (slotList hostUTC (mkShopSchedule 1 "schedule_1" "08:00" "17:00")
       "oil-change" 30 (17 * msPerHour) [] 19 (8 * msPerHour)).
Proof.
  vm_compute slotList.
  repeat (apply Forall_cons; [intro H; vm_compute in H; discriminate H|]).
  apply Forall_nil.
Qed.

Lemma default_day_slot (startHour startMin endHour endMin : Z)
    (isAvailable : bool) (why : option string) (host : Host) (date : Date) :
  In {| slot_start := startHour * msPerHour + startMin * msPerMinute;
        slot_end := endHour * msPerHour + endMin * msPerMinute;
        available := isAvailable;
        reason := why;
        available_techs := ["tech-001"; "tech-002"] |}
    (slotList hostUTC (mkShopSchedule 1 "schedule_1" "08:00" "17:00")
       "oil-change" 30 (17 * msPerHour) [] 19 (8 * msPerHour)) ->
  In (wallClockSlot host date startHour startMin endHour endMin
        isAvailable why)
    (map (shiftSlot (Day (LocalTime host date) * msPerDay - LocalTZA host))
       (slotList hostUTC (mkShopSchedule 1 "schedule_1" "08:00" "17:00")
          "oil-change" 30 (17 * msPerHour) [] 19 (8 * msPerHour))).
Proof.
  intros Hin. apply in_map_iff.
  eexists. split; [|exact Hin].
  unfold shiftSlot, wallClockSlot. cbn [slot_start slot_end available reason
                                         available_techs].
  rewrite !setHours_base. reflexivity.
Qed.

(** C7, as the code has it.  Shop open 08:00-17:00 with lunch 12:00-13:00,
    a service of 30 minutes and no stored appointment: slots start on the
    30-minute grid from 08:00, so none starts at 11:45; the slot starting
    at 12:00 (ending 12:30) is unavailable with reason ["lunch"]; the slot
    starting at 11:30 ends at 12:00, only touches the lunch window and is
    available; the slot starting at 08:00 is available. *)
Theorem getAvailableTimeSlots_lunch_scenario (host : Host) (date : Date)
    (serviceId : string) (vehicleYear : option Z) (ls : LocalStorage)
    (schedule : ShopSchedule) :
  evalState (getShopScheduleForDay host date) ls = Some schedule ->
  is_closed schedule = false ->
  open_time schedule = "08:00" ->
  close_time schedule = "17:00" ->
  lunch_start schedule = Some "12:00" ->
  lunch_end schedule = Some "13:00" ->
  evalState (calculateServiceDuration serviceId vehicleYear) ls = 30 ->
  appointments (schedulingDoc ls) = [] ->
  (forall slot,
     In slot (evalState (getAvailableTimeSlots host date serviceId vehicleYear)
                ls) ->
     slot_start slot <> setHours host date 11 45 0 0)
  /\ In (wallClockSlot host date 12 0 12 30 false (Some "lunch"))
       (evalState (getAvailableTimeSlots host date serviceId vehicleYear) ls)
  /\ In (wallClockSlot host date 11 30 12 0 true None)
       (evalState (getAvailableTimeSlots host date serviceId vehicleYear) ls)
  /\ In (wallClockSlot host date 8 0 8 30 true None)
       (evalState (getAvailableTimeSlots host date serviceId vehicleYear) ls).
Proof.
  intros Hsched Hclosed Hopen Hclose Hls Hle Hdur Happts.
  rewrite (slots_of_default_day host date serviceId vehicleYear ls schedule
             Hsched Hclosed Hopen Hclose Hls Hle Hdur Happts).
  split; [|split; [|split]].
  - intros slot Hin. apply in_map_iff in Hin.
    destruct Hin as (slot0 & <- & Hin0).
    pose proof (proj1 (Forall_forall _ _) default_day_no_1145 slot0 Hin0)
      as Hne.
    cbv beta in Hne. cbn [shiftSlot slot_start]. rewrite setHours_base.
    intros Heq. apply Hne. lia.
  - apply default_day_slot. vm_compute.
    repeat (first [left; reflexivity | right]).
  - apply default_day_slot. vm_compute.
    repeat (first [left; reflexivity | right]).
  - apply default_day_slot. vm_compute.
    repeat (first [left; reflexivity | right]).
Qed.

(** C7, as stated, fails on the seeded calendar: the Monday slots for the
    30-minute oil change hold no slot that starts at 11:45. *)
Lemma no_slot_starts_at_1145 :
  evalState (getShopScheduleForDay hostUTC monday) emptyStorage
  = Some (mkShopSchedule 1 "schedule_1" "08:00" "17:00")
  /\ evalState (calculateServiceDuration "oil-change" None) emptyStorage = 30
  /\ appointments (schedulingDoc emptyStorage) = []
  /\ existsb (fun slot => slot_start slot =? mondayAt 11 45)
       (evalState (getAvailableTimeSlots hostUTC monday "oil-change" None)
          emptyStorage)
     = false.
Proof.
  split; [reflexivity|]. split; [reflexivity|]. split; [reflexivity|].
  vm_compute. reflexivity.
Qed.

(* ================================================================== *)
(** * Technician ranking *)
(* ================================================================== *)

Lemma getTechWorkload_stored (techId : string) (ls : LocalStorage)
    (d : StorageData) :
  shop_database ls = Some d ->
  getTechWorkload techId ls = (workloadIn d techId, ls).
Proof.
  intros Hd. unfold getTechWorkload, bind.
  rewrite (getStorageData_stored ls d Hd). reflexivity.
Qed.

Lemma scoreOne_stored (data : StorageData) (workOrder : WorkOrder)
    (tech : TechProfile) (ls : LocalStorage) :
  shop_database ls = Some data ->
  scoreOne data workOrder tech ls = (scoredIn data workOrder tech, ls).
Proof.
  intros Hd. unfold scoreOne, bind.
  rewrite (getTechWorkload_stored _ ls data Hd). reflexivity.
Qed.

Lemma mapM_scoreOne_stored (data : StorageData) (workOrder : WorkOrder)
    (ls : LocalStorage) (techs : list TechProfile) :
  shop_database ls = Some data ->
  mapM (scoreOne data workOrder) techs ls
  = (map (scoredIn data workOrder) techs, ls).
Proof.
  intros Hd. induction techs as [|tech techs IH]; simpl; [reflexivity|].
  unfold bind at 1. rewrite (scoreOne_stored _ _ _ ls Hd).
  unfold bind at 1. rewrite IH. reflexivity.
Qed.

(** The result of [suggestTechForWorkOrder] in terms of the document. *)
Lemma suggestTechForWorkOrder_run (workOrderId : string) (ls : LocalStorage) :
  evalState (suggestTechForWorkOrder workOrderId) ls
  = match find (fun wo => String.eqb (wo_id wo) workOrderId)
            (work_orders (databaseDoc ls)) with
    | None => []
    | Some workOrder =>
        match filter active (tech_profiles (databaseDoc ls)) with
        | [] => []
        | tech :: techs =>
            firstn 5
              (sortBy (fun a b => score b - score a)
                 (map (scoredIn (databaseDoc ls) workOrder) (tech :: techs)))
        end
    end.
Proof.
  unfold evalState, suggestTechForWorkOrder. unfold bind at 1.
  rewrite getStorageData_run.
  destruct (find _ _) as [workOrder|]; [|reflexivity].
  destruct (filter active (tech_profiles (databaseDoc ls))) as [|tech techs];
    [reflexivity|].
  cbn [List.length Nat.eqb]. unfold bind.
  rewrite (mapM_scoreOne_stored _ _ _ _ (getStorageData_persists ls)).
  reflexivity.
Qed.

(** ** The sort *)

Lemma insertBy_perm {A : Type} (cmp : A -> A -> Z) (x : A) (l : list A) :
  Permutation (insertBy cmp x l) (x :: l).
Proof.
  induction l as [|y l IH]; simpl; [apply Permutation_refl|].
  destruct (cmp x y <=? 0); [apply Permutation_refl|].
  apply Permutation_trans with (y :: x :: l).
  - apply perm_skip, IH.
  - apply perm_swap.
Qed.

Lemma sortBy_perm {A : Type} (cmp : A -> A -> Z) (l : list A) :
  Permutation (sortBy cmp l) l.
Proof.
  induction l as [|x l IH]; simpl; [apply perm_nil|].
  apply Permutation_trans with (x :: sortBy cmp l).
  - apply insertBy_perm.
  - apply perm_skip, IH.
Qed.

Lemma insertBy_score_sorted (x : ScoredTech) (l : list ScoredTech) :
  StronglySorted scoreDescending l ->
  StronglySorted scoreDescending
    (insertBy (fun a b => score b - score a) x l).
Proof.
  induction l as [|y l IH]; intros Hs; simpl.
  - constructor; constructor.
  - inversion Hs as [|? ? Hl Hy]; subst.
    destruct (Z.leb_spec (score y - score x) 0) as [Hle | Hgt].
    + constructor; [exact Hs|].
      constructor; [unfold scoreDescending; lia|].
      apply Forall_forall. intros z Hz.
      pose proof (proj1 (Forall_forall _ _) Hy z Hz) as Hyz.
      unfold scoreDescending in *. lia.
    + constructor; [apply IH; exact Hl|].
      apply Forall_forall. intros z Hz.
      apply (Permutation_in _ (insertBy_perm _ x l)) in Hz.
      destruct Hz as [<- | Hz].
      * unfold scoreDescending. lia.
      * exact (proj1 (Forall_forall _ _) Hy z Hz).
Qed.

Lemma sortBy_score_sorted (l : list ScoredTech) :
  StronglySorted scoreDescending (sortBy (fun a b => score b - score a) l).
Proof.
  induction l as [|x l IH]; simpl; [constructor|].
  apply insertBy_score_sorted, IH.
Qed.

(** The sort is stable: technicians with the same score keep the order
    they have in the store. *)
Lemma sortBy_score_stable (s : Z) (l : list ScoredTech) :
  filter (fun t => score t =? s) (sortBy (fun a b => score b - score a) l)
  = filter (fun t => score t =? s) l.
Proof.
  induction l as [|x l IH]; simpl; [reflexivity|].
  rewrite <- IH. clear IH.
  induction (sortBy (fun a b => score b - score a) l) as [|y r IHr]; simpl;
    [reflexivity|].
  destruct (Z.leb_spec (score y - score x) 0) as [Hle | Hgt]; simpl;
    [reflexivity|].
  rewrite IHr.
  destruct (Z.eqb_spec (score x) s), (Z.eqb_spec (score y) s);
    try reflexivity.
  lia.
Qed.

(** C6. [suggestTechForWorkOrder] returns the empty list when the work
    order is unknown or when no technician is active.  Otherwise every
    active technician is scored, the scored technicians are put in
    descending order of score, and the first five of them (all of them when
    there are fewer) are returned. *)
Theorem suggestTechForWorkOrder_spec (workOrderId : string)
    (ls : LocalStorage) :
  (find (fun wo => String.eqb (wo_id wo) workOrderId)
     (work_orders (databaseDoc ls)) = None ->
   evalState (suggestTechForWorkOrder workOrderId) ls = [])
  /\ (filter active (tech_profiles (databaseDoc ls)) = [] ->
      evalState (suggestTechForWorkOrder workOrderId) ls = [])
  /\ (forall workOrder,
        find (fun wo => String.eqb (wo_id wo) workOrderId)
          (work_orders (databaseDoc ls)) = Some workOrder ->
        filter active (tech_profiles (databaseDoc ls)) <> [] ->
        exists ranked,
          Permutation ranked
            (map (scoredIn (databaseDoc ls) workOrder)
               (filter active (tech_profiles (databaseDoc ls))))
          /\ StronglySorted scoreDescending ranked
          /\ evalState (suggestTechForWorkOrder workOrderId) ls
             = firstn 5 ranked)
  /\ (List.length (evalState (suggestTechForWorkOrder workOrderId) ls) <= 5)%nat.
Proof.
  rewrite suggestTechForWorkOrder_run.
  split; [intros ->; reflexivity|].
  split; [intros ->; destruct (find _ _); reflexivity|].
  split.
  - intros workOrder -> Hne.
    destruct (filter active (tech_profiles (databaseDoc ls))) as [|tech techs];
      [congruence|].
    eexists. split; [apply sortBy_perm|].
    split; [apply sortBy_score_sorted | reflexivity].
  - destruct (find _ _); [|simpl; lia].
    destruct (filter active _); [simpl; lia|].
    apply firstn_le_length.
Qed.

(** ** The score *)

Lemma fold_specialtyStep (jobText : string) (specs : list string) :
  forall (score0 : Z) (matched : bool),
    fold_left (specialtyStep jobText) specs (score0, matched)
    = (score0 + sumZ (map (specialtyTier jobText) specs),
       matched
       || negb (forallb (fun t => t =? 0) (map (specialtyTier jobText) specs))).
Proof.
  induction specs as [|s specs IH]; intros score0 matched.
  - simpl. rewrite Z.add_0_r, orb_false_r. reflexivity.
  - cbn [fold_left map].
    assert (Hstep : specialtyStep jobText (score0, matched) s
                    = (score0 + specialtyTier jobText s,
                       matched || negb (specialtyTier jobText s =? 0))).
    { unfold specialtyStep, specialtyTier.
      destruct (includes jobText (toLowerCase s));
        [rewrite orb_true_r; reflexivity|].
      destruct (matchesSpecialtyKeywords (toLowerCase s) jobText);
        [rewrite orb_true_r; reflexivity|].
      destruct (matchesSpecialtyCategory (toLowerCase s) jobText);
        [rewrite orb_true_r; reflexivity|].
      rewrite Z.add_0_r, orb_false_r. reflexivity. }
    rewrite Hstep, IH. cbn [sumZ fold_right forallb]. fold (sumZ (map (specialtyTier jobText) specs)).
    f_equal; [lia|].
    destruct matched, (specialtyTier jobText s =? 0),
      (forallb (fun t => t =? 0) (map (specialtyTier jobText) specs));
      reflexivity.
Qed.

Lemma sumZ_all_zero (l : list Z) :
  forallb (fun t => t =? 0) l = true -> sumZ l = 0.
Proof.
  induction l as [|t l IH]; simpl; [reflexivity|].
  intros H. apply andb_true_iff in H. destruct H as [Ht Hl].
  apply Z.eqb_eq in Ht. rewrite IH by exact Hl. lia.
Qed.

Lemma workload_stage (jobs : Z) :
  (if jobs >=? 4 then 0 - 50
   else if jobs >=? 3 then 0 - 30
   else if jobs >=? 2 then 0 - 15
   else if jobs =? 0 then 0 + 25
   else 0)
  = workloadAdjustment jobs.
Proof. reflexivity. Qed.

Lemma experience_stage (s : Z) (rate : option Q) :
  (if rateSet rate then
     if rateAtLeast rate 35 then s + 15
     else if rateAtLeast rate 25 then s + 10
     else s + 5
   else s)
  = s + experienceBonus rate.
Proof.
  unfold experienceBonus.
  destruct (rateSet rate), (rateAtLeast rate 35), (rateAtLeast rate 25); lia.
Qed.

Lemma certification_stage (s : Z) (certs : option (list string)) :
  match certs with
  | Some l =>
      if 0 <? Z.of_nat (List.length l)
      then s + Z.of_nat (List.length l) * 5
      else s
  | None => s
  end
  = s + certificationBonus certs.
Proof.
  unfold certificationBonus. destruct certs as [l|]; [|lia].
  destruct (Z.ltb_spec 0 (Z.of_nat (List.length l))); lia.
Qed.

Lemma specialty_stage (s : Z) (jobText : string)
    (specs : option (list string)) :
  match specs with
  | Some l =>
      if 0 <? Z.of_nat (List.length l) then
        let '(score, specialtyMatch) :=
          fold_left (specialtyStep jobText) l (s, false) in
        if negb specialtyMatch then score - 10 else score
      else s
  | None => s
  end
  = s + specialtyAdjustment jobText specs.
Proof.
  unfold specialtyAdjustment. destruct specs as [[|sp l]|]; [simpl; lia| |lia].
  change (0 <? Z.of_nat (List.length (sp :: l))) with true. cbv iota.
  rewrite fold_specialtyStep. cbn [orb]. rewrite negb_involutive.
  destruct (forallb (fun t => t =? 0) (map (specialtyTier jobText) (sp :: l)))
    eqn:Hall; [|lia].
  rewrite (sumZ_all_zero _ Hall). lia.
Qed.

Lemma vehicle_stage (s : Z) (data : StorageData) (workOrder : WorkOrder)
    (rate : option Q) :
  (if negb (String.eqb (wo_vehicle_id workOrder) "") then
     match find (fun v => String.eqb (vehicle_id v) (wo_vehicle_id workOrder))
             (vehicles data) with
     | Some vehicle =>
         match year vehicle with
         | Some y =>
             if y <? 2010 then
               if rateSet rate && rateAtLeast rate 30 then s + 10 else s
             else s
         | None => s
         end
     | None => s
     end
   else s)
  = s + vehicleAgeBonus data workOrder rate.
Proof.
  unfold vehicleAgeBonus, isOlderVehicleJob.
  destruct (String.eqb (wo_vehicle_id workOrder) ""); cbn [negb andb]; [lia|].
  destruct (find _ _) as [vehicle|]; cbn [andb]; [|lia].
  destruct (year vehicle) as [y|]; cbn [andb]; [|lia].
  destruct (y <? 2010); cbn [andb]; [|lia].
  destruct (rateSet rate), (rateAtLeast rate 30); cbn [andb]; lia.
Qed.

Lemma urgency_stage (s : Z) (workOrder : WorkOrder) (rate : option Q) :
  (if isUrgentJob workOrder && rateSet rate && rateAtLeast rate 30
   then s + 15 else s)
  = s + urgencyBonus workOrder rate.
Proof.
  unfold urgencyBonus.
  destruct (isUrgentJob workOrder && rateSet rate && rateAtLeast rate 30); lia.
Qed.

(** The score is the sum of the rules, each applied on its own. *)
Lemma scoreTech_additive (data : StorageData) (workOrder : WorkOrder)
    (tech : TechProfile) (w : TechWorkload) :
  scoreTech data workOrder tech w
  = workloadAdjustment (activeJobs w)
    + experienceBonus (hourly_rate tech)
    + certificationBonus (certifications tech)
    + specialtyAdjustment (jobTextOf workOrder) (specialties tech)
    + vehicleAgeBonus data workOrder (hourly_rate tech)
    + urgencyBonus workOrder (hourly_rate tech).
Proof.
  unfold scoreTech. cbv zeta.
  rewrite urgency_stage, vehicle_stage, specialty_stage, certification_stage,
    experience_stage, workload_stage.
  reflexivity.
Qed.

Lemma scoreOne_eval (data : StorageData) (workOrder : WorkOrder)
    (tech : TechProfile) (ls : LocalStorage) :
  score (evalState (scoreOne data workOrder tech) ls)
  = scoreTech data workOrder tech (workloadIn (databaseDoc ls) (tech_id tech)).
Proof.
  unfold evalState, scoreOne, getTechWorkload, bind.
  rewrite getStorageData_run. reflexivity.
Qed.

Lemma matchesNoTier_tier (jobText specialty : string) :
  matchesNoTier jobText specialty -> specialtyTier jobText specialty = 0.
Proof.
  intros (H1 & H2 & H3). unfold specialtyTier. rewrite H1, H2, H3. reflexivity.
Qed.

Lemma tiers_all_zero (jobText : string) (specs : list string) :
  (forall s, In s specs -> matchesNoTier jobText s) ->
  forallb (fun t => t =? 0) (map (specialtyTier jobText) specs) = true.
Proof.
  intros H. apply forallb_forall. intros t Ht.
  apply in_map_iff in Ht. destruct Ht as (s & <- & Hs).
  rewrite (matchesNoTier_tier _ _ (H s Hs)). reflexivity.
Qed.

Lemma workloadAdjustment_busy (jobs : Z) :
  4 <= jobs -> workloadAdjustment jobs = -50.
Proof.
  intros H. unfold workloadAdjustment.
  rewrite Z.geb_leb. destruct (Z.leb_spec 4 jobs); [reflexivity | lia].
Qed.

Lemma rate_40 (r : Q) :
  r == inject_Z 40 ->
  rateSet (Some r) = true
  /\ rateAtLeast (Some r) 35 = true
  /\ rateAtLeast (Some r) 30 = true.
Proof.
  intros Hr. unfold rateSet, rateAtLeast. repeat split.
  - destruct (Qeq_bool r 0) eqn:E; [|reflexivity].
    apply Qeq_bool_eq in E. rewrite Hr in E. discriminate E.
  - apply Qle_bool_iff. rewrite Hr. discriminate.
  - apply Qle_bool_iff. rewrite Hr. discriminate.
Qed.

(** C5, as the code has it.  The score is the sum of the rules.  A
    technician with four or more active jobs, at least one specialty, no
    specialty matching the job text in any tier, and neither the
    old-vehicle nor the urgency bonus applicable, scores -50 plus the
    certification and hourly-rate bonuses minus 10.  A technician with no
    active job, hourly rate 40, exactly three certifications, one
    specialty that is a substring of the job text while the other
    specialties match in no tier, and neither the old-vehicle nor the
    urgency bonus applicable, scores 25 + 15 + 15 + 40 = 95. *)
Theorem ranking_score_scenarios (ls : LocalStorage) (workOrder : WorkOrder)
    (tech : TechProfile) :
  (forall sp specs,
     4 <= activeJobCount (databaseDoc ls) (tech_id tech) ->
     specialties tech = Some (sp :: specs) ->
     (forall s, In s (sp :: specs) ->
        matchesNoTier (jobTextOf workOrder) s) ->
     vehicleAgeBonus (databaseDoc ls) workOrder (hourly_rate tech) = 0 ->
     urgencyBonus workOrder (hourly_rate tech) = 0 ->
     score (evalState (scoreOne (databaseDoc ls) workOrder tech) ls)
     = -50 + (certificationBonus (certifications tech)
              + experienceBonus (hourly_rate tech)) - 10)
  /\ (forall r c1 c2 c3 before s after,
        activeJobCount (databaseDoc ls) (tech_id tech) = 0 ->
        hourly_rate tech = Some r ->
        r == inject_Z 40 ->
        certifications tech = Some [c1; c2; c3] ->
        specialties tech = Some (before ++ s :: after) ->
        includes (jobTextOf workOrder) (toLowerCase s) = true ->
        (forall s', In s' (before ++ after) ->
           matchesNoTier (jobTextOf workOrder) s') ->
        isOlderVehicleJob (databaseDoc ls) workOrder = false ->
        isUrgentJob workOrder = false ->
        score (evalState (scoreOne (databaseDoc ls) workOrder tech) ls)
        = 25 + 15 + 15 + 40
        /\ 25 + 15 + 15 + 40 = 95).
Proof.
  split.
  - intros sp specs Hjobs Hspecs Hnone Hveh Hurg.
    rewrite scoreOne_eval, scoreTech_additive, Hveh, Hurg.
    change (activeJobs (workloadIn (databaseDoc ls) (tech_id tech)))
      with (activeJobCount (databaseDoc ls) (tech_id tech)).
    rewrite (workloadAdjustment_busy _ Hjobs), Hspecs.
    unfold specialtyAdjustment.
    rewrite (tiers_all_zero _ _ Hnone). lia.
  - intros r c1 c2 c3 before s after Hjobs Hrate Hr Hcerts Hspecs Hdirect
      Hothers Hveh Hurg.
    split; [|reflexivity].
    rewrite scoreOne_eval, scoreTech_additive.
    change (activeJobs (workloadIn (databaseDoc ls) (tech_id tech)))
      with (activeJobCount (databaseDoc ls) (tech_id tech)).
    rewrite Hjobs, Hrate, Hcerts, Hspecs.
    destruct (rate_40 r Hr) as (Hset & H35 & H30).
    unfold experienceBonus, vehicleAgeBonus, urgencyBonus.
    rewrite Hset, H35, Hveh, Hurg.
    cbn [andb certificationBonus List.length workloadAdjustment].
    assert (Hadj : specialtyAdjustment (jobTextOf workOrder)
                     (Some (before ++ s :: after)) = 40).
    { assert (Hs : specialtyTier (jobTextOf workOrder) s = 40)
        by (unfold specialtyTier; rewrite Hdirect; reflexivity).
      assert (Hb : forall x, In x before ->
                     specialtyTier (jobTextOf workOrder) x = 0)
        by (intros x Hx; apply matchesNoTier_tier, Hothers, in_or_app; auto).
      assert (Ha : forall x, In x after ->
                     specialtyTier (jobTextOf workOrder) x = 0)
        by (intros x Hx; apply matchesNoTier_tier, Hothers, in_or_app; auto).
      assert (Hsum : sumZ (map (specialtyTier (jobTextOf workOrder))
                             (before ++ s :: after)) = 40).
      { clear - Hs Hb Ha. induction before as [|b before IH]; simpl.
        - rewrite Hs. replace (sumZ (map _ after)) with 0; [reflexivity|].
          clear - Ha. induction after as [|a after IH]; simpl; [reflexivity|].
          rewrite (Ha a (or_introl eq_refl)), <- IH; [reflexivity|].
          intros x Hx. apply Ha. right. exact Hx.
        - rewrite (Hb b (or_introl eq_refl)).
          fold (sumZ (map (specialtyTier (jobTextOf workOrder))
                        (before ++ s :: after))).
          rewrite IH; [reflexivity|].
          intros x Hx. apply Hb. right. exact Hx. }
      assert (Hnot : forallb (fun t => t =? 0)
                       (map (specialtyTier (jobTextOf workOrder))
                          (before ++ s :: after)) = false).
      { rewrite map_app, forallb_app. simpl. rewrite Hs. simpl.
        apply andb_false_r. }
      unfold specialtyAdjustment.
      destruct (before ++ s :: after) as [|x l] eqn:El.
      - destruct before; discriminate El.
      - rewrite Hnot. exact Hsum. }
    rewrite Hadj. reflexivity.
Qed.

(** C5, as stated, fails in both scenarios.  With four active jobs and no
    matching specialty, an urgent job still earns the urgency bonus:
    -15 instead of -50 + (15 + 15) - 10 = -30.  With no active job, rate
    40, three certifications and a specialty in the job text, a second
    specialty in the job text adds another 40: 135 instead of 95. *)
Lemma ranking_scenarios_as_stated_fail :
  (activeJobCount (databaseDoc busyStorage) (tech_id sarahChen) = 4
   /\ forallb (fun s => specialtyTier (jobTextOf urgentJob) s =? 0)
        ["electrical"; "engine"; "diagnostic"] = true
   /\ specialties sarahChen = Some ["electrical"; "engine"; "diagnostic"]
   /\ -50 + (certificationBonus (certifications sarahChen)
             + experienceBonus (hourly_rate sarahChen)) - 10 = -30
   /\ score (evalState (scoreOne (databaseDoc busyStorage) urgentJob sarahChen)
               busyStorage) = -15)
  /\ (active brakeAndEngineTech = true
      /\ activeJobCount (databaseDoc busyStorage) (tech_id brakeAndEngineTech)
         = 0
      /\ hourly_rate brakeAndEngineTech = Some (inject_Z 40)
      /\ List.length ["ASE A1"; "ASE A4"; "ASE A5"] = 3%nat
      /\ certifications brakeAndEngineTech
         = Some ["ASE A1"; "ASE A4"; "ASE A5"]
      /\ specialties brakeAndEngineTech = Some ["brake"; "engine"]
      /\ includes (jobTextOf brakeAndEngineJob) (toLowerCase "brake") = true
      /\ isOlderVehicleJob (databaseDoc busyStorage) brakeAndEngineJob = false
      /\ isUrgentJob brakeAndEngineJob = false
      /\ score (evalState (scoreOne (databaseDoc busyStorage) brakeAndEngineJob
                             brakeAndEngineTech) busyStorage) = 135).
Proof.
  split; repeat split; vm_compute; reflexivity.
Qed.

(* ================================================================== *)
(** * The theorems at work on the example stores *)
(* ================================================================== *)

Lemma checkAppointmentConflict_spec_witness :
  evalState (checkAppointmentConflict hostUTC (mondayAt 10 0) (mondayAt 11 0))
    bookedStorage <> None
  /\ exists before a after,
       appointments (schedulingDoc bookedStorage) = before ++ a :: after
       /\ (forall b, In b before ->
             ~ (appt_status b <> appt_cancelled
                /\ mondayAt 9 30 < scheduled_end b
                /\ mondayAt 11 15 > scheduled_start b))
       /\ appt_status a <> appt_cancelled
       /\ mondayAt 9 30 < scheduled_end a
       /\ mondayAt 11 15 > scheduled_start a
       /\ conflicting_appointment_id (conflictDescriptor hostUTC confirmedAt10)
          = Some (appt_id a)
       /\ forall after',
            scanAppointments hostUTC (mondayAt 9 30) (mondayAt 11 15)
              (before ++ a :: after')
            = Some (conflictDescriptor hostUTC confirmedAt10).
Proof.
  split.
  - apply (proj1 (proj2 (checkAppointmentConflict_spec hostUTC
                           (mondayAt 10 0) (mondayAt 11 0) bookedStorage))
             confirmedAt10).
    + right. left. reflexivity.
    + discriminate.
    + reflexivity.
  - apply (proj2 (proj2 (proj2 (checkAppointmentConflict_spec hostUTC
                                  (mondayAt 9 30) (mondayAt 11 15)
                                  bookedStorage)))
             (conflictDescriptor hostUTC confirmedAt10)).
    reflexivity.
Defined.

Lemma checkAppointmentConflict_empty_interval_witness :
  evalState (checkAppointmentConflict hostUTC (mondayAt 10 15) (mondayAt 10 15))
    bookedStorage <> None.
Proof.
  apply (checkAppointmentConflict_empty_interval hostUTC bookedStorage
           confirmedAt10 (mondayAt 10 15)).
  - right. left. reflexivity.
  - discriminate.
  - split; reflexivity.
Defined.


Lemma getAvailableTimeSlots_default_techs_witness :
  available_techs mondayFirstSlot = ["tech-001"; "tech-002"].
Proof.
  apply (getAvailableTimeSlots_default_techs hostUTC monday "oil-change" None
           emptyStorage mondayFirstSlot).
  vm_compute. left. reflexivity.
Defined.

Lemma getAvailableTimeSlots_closed_witness :
  evalState (getAvailableTimeSlots hostUTC sunday "oil-change" None)
    closedSundayStorage = []
  /\ evalState (getAvailableTimeSlots hostUTC monday "oil-change" None)
       closedSundayStorage = [].
Proof.
  split.
  - apply (getAvailableTimeSlots_closed hostUTC sunday "oil-change" None
             closedSundayStorage).
    right. eexists. split; reflexivity.
  - apply (getAvailableTimeSlots_closed hostUTC monday "oil-change" None
             closedSundayStorage).
    left. reflexivity.
Defined.

Lemma getAvailableTimeSlots_lunch_scenario_witness :
  In (wallClockSlot hostUTC monday 12 0 12 30 false (Some "lunch"))
    (evalState (getAvailableTimeSlots hostUTC monday "oil-change" None)
       emptyStorage).
Proof.
  exact (proj1 (proj2 (getAvailableTimeSlots_lunch_scenario hostUTC monday
                         "oil-change" None emptyStorage
                         (mkShopSchedule 1 "schedule_1" "08:00" "17:00")
                         eq_refl eq_refl eq_refl eq_refl eq_refl eq_refl
                         eq_refl eq_refl))).
Defined.

Lemma suggestTechForWorkOrder_spec_witness :
  exists ranked,
    Permutation ranked
      (map (scoredIn (databaseDoc busyStorage) flatTyreJob)
         (filter active (tech_profiles (databaseDoc busyStorage))))
    /\ StronglySorted scoreDescending ranked
    /\ evalState (suggestTechForWorkOrder "wo-flat") busyStorage
       = firstn 5 ranked.
Proof.
  apply (proj1 (proj2 (proj2 (suggestTechForWorkOrder_spec "wo-flat"
                                busyStorage)))).
  - reflexivity.
  - discriminate.
Defined.

Lemma ranking_score_scenarios_witness :
  score (evalState (scoreOne (databaseDoc busyStorage) flatTyreJob sarahChen)
           busyStorage)
  = -50 + (certificationBonus (certifications sarahChen)
           + experienceBonus (hourly_rate sarahChen)) - 10
  /\ score (evalState (scoreOne (databaseDoc busyStorage) brakeJob
                         brakeAndEngineTech) busyStorage)
     = 25 + 15 + 15 + 40.
Proof.
  split.
  - apply (proj1 (ranking_score_scenarios busyStorage flatTyreJob sarahChen)
             "electrical" ["engine"; "diagnostic"]).
    + vm_compute. discriminate.
    + reflexivity.
    + intros s [<- | [<- | [<- | []]]]; vm_compute; auto.
    + reflexivity.
    + reflexivity.
  - apply (proj2 (ranking_score_scenarios busyStorage brakeJob
                    brakeAndEngineTech)
             (inject_Z 40) "ASE A1" "ASE A4" "ASE A5" [] "brake" ["engine"]).
    + reflexivity.
    + reflexivity.
    + reflexivity.
    + reflexivity.
    + reflexivity.
    + vm_compute. reflexivity.
    + intros s [<- | []]. vm_compute. auto.
    + reflexivity.
    + vm_compute. reflexivity.
Defined.

(** The iteration bound of [getAvailableTimeSlots] is never the reason the
    loop stops. *)
Lemma slotFuel_enough (host : Host) (schedule : ShopSchedule)
    (serviceId : string) (serviceDuration : Z) (startTime endTime : Date)
    (appts : list Appointment) (extra : nat) :
  slotList host schedule serviceId serviceDuration endTime appts
    (slotFuel startTime endTime + extra) startTime
  = slotList host schedule serviceId serviceDuration endTime appts
      (slotFuel startTime endTime) startTime.
Proof.
  apply slotList_fuel_stable. unfold slotFuel. lia.
Qed.

(** The opening instant shows the configured wall-clock time and lies on
    the local day of the requested date. *)
Lemma setHours_clock (host : Host) (date : Date) (hour min : Z) :
  0 <= hour < 24 -> 0 <= min < 60 ->
  clockHHMM host (setHours host date hour min 0 0)
  = String.append (twoDigits hour) (String.append ":" (twoDigits min))
  /\ Day (LocalTime host (setHours host date hour min 0 0))
     = Day (LocalTime host date).
Proof.
  intros Hh Hm. split.
  - rewrite setHours_base.
    rewrite (clockHHMM_shift host _ (Day (LocalTime host date)) _)
      by lia.
    unfold clockHHMM, LocalTime. simpl LocalTZA. rewrite Z.add_0_r.
    assert (E1 : HourFromTime (hour * msPerHour + min * msPerMinute) = hour).
    { unfold HourFromTime, msPerHour, msPerMinute.
      rewrite Z.add_comm, Z.div_add by lia.
      rewrite (Z.div_small (min * 60000)) by lia.
      apply Z.mod_small. lia. }
    assert (E2 : MinFromTime (hour * msPerHour + min * msPerMinute) = min).
    { unfold MinFromTime, msPerHour, msPerMinute.
      replace (hour * 3600000 + min * 60000) with ((hour * 60 + min) * 60000)
        by lia.
      rewrite Z.div_mul by lia.
      rewrite Z.add_comm, Z_mod_plus_full. apply Z.mod_small. lia. }
    rewrite E1, E2. reflexivity.
  - unfold setHours, UTC, LocalTime, MakeDate, MakeTime, Day.
    replace (date + LocalTZA host) with (LocalTime host date) by reflexivity.
    replace ((LocalTime host date / msPerDay * msPerDay
              + (hour * msPerHour + min * msPerMinute + 0 * msPerSecond + 0)
              - LocalTZA host + LocalTZA host))
      with ((hour * msPerHour + min * msPerMinute)
            + (LocalTime host date / msPerDay) * msPerDay) by lia.
    unfold msPerDay at 2. rewrite Z.div_add by (unfold msPerDay; lia).
    rewrite Z.div_small; [lia|].
    unfold msPerHour, msPerMinute, msPerDay. lia.
Qed.

(* ================================================================== *)
(** * Wall-clock strings and minutes of the day *)
(* ================================================================== *)

Lemma twoDigitsOrderCheck_holds :
  forallb (fun x => forallb (sameOrder x) twoDigitRange) twoDigitRange = true.
Proof. vm_compute. reflexivity. Qed.

Lemma twoDigitRange_In (z : Z) : 0 <= z < 100 -> In z twoDigitRange.
Proof.
  intros Hz. apply in_map_iff. exists (Z.to_nat z). split; [lia|].
  apply in_seq. lia.
Qed.

Lemma twoDigits_compare (x y : Z) :
  0 <= x < 100 -> 0 <= y < 100 ->
  String.compare (twoDigits x) (twoDigits y) = Z.compare x y.
Proof.
  intros Hx Hy.
  pose proof twoDigitsOrderCheck_holds as Hcheck.
  pose proof twoDigitRange_In as Hin.
  pose proof (proj1 (forallb_forall _ twoDigitRange) Hcheck x (Hin x Hx))
    as Hrow.
  pose proof (proj1 (forallb_forall _ twoDigitRange) Hrow y (Hin y Hy))
    as Hcell.
  unfold sameOrder in Hcell.
  destruct (String.compare (twoDigits x) (twoDigits y)), (Z.compare x y);
    congruence.
Qed.

Lemma compare_two_chars (a b a' b' : ascii) (s t : string) :
  String.compare (String a (String b s)) (String a' (String b' t))
  = match String.compare (String a (String b EmptyString))
            (String a' (String b' EmptyString)) with
    | Eq => String.compare s t
    | c => c
    end.
Proof.
  simpl. destruct (Ascii.compare a a'); [|reflexivity|reflexivity].
  destruct (Ascii.compare b b'); reflexivity.
Qed.

(** ["HH:MM"] strings of minutes of the day order as the minutes do. *)
Lemma clockOfMinutes_ltb (a b : Z) :
  0 <= a < 1440 -> 0 <= b < 1440 ->
  String.ltb (clockOfMinutes a) (clockOfMinutes b) = (a <? b).
Proof.
  intros Ha Hb.
  assert (Hah : 0 <= a / 60 < 100)
    by (split; [apply Z.div_pos; lia | apply Z.div_lt_upper_bound; lia]).
  assert (Hbh : 0 <= b / 60 < 100)
    by (split; [apply Z.div_pos; lia | apply Z.div_lt_upper_bound; lia]).
  pose proof (Z.mod_pos_bound a 60 ltac:(lia)) as Ham.
  pose proof (Z.mod_pos_bound b 60 ltac:(lia)) as Hbm.
  pose proof (Z.div_mod a 60 ltac:(lia)) as Ea.
  pose proof (Z.div_mod b 60 ltac:(lia)) as Eb.
  unfold String.ltb, clockOfMinutes.
  unfold twoDigits at 1 3. cbn [String.append].
  rewrite compare_two_chars.
  fold (twoDigits (a / 60)). fold (twoDigits (b / 60)).
  rewrite (twoDigits_compare _ _ Hah Hbh).
  destruct (Z.compare_spec (a / 60) (b / 60)) as [Heq | Hlt | Hgt].
  - cbn [String.compare].
    change (Ascii.compare ":" ":") with Eq. cbv iota.
    fold (twoDigits (a mod 60)). fold (twoDigits (b mod 60)).
    rewrite (twoDigits_compare (a mod 60) (b mod 60)) by lia.
    destruct (Z.compare_spec (a mod 60) (b mod 60));
      destruct (Z.ltb_spec a b); try reflexivity; lia.
  - destruct (Z.ltb_spec a b); [reflexivity | lia].
  - destruct (Z.ltb_spec a b); [lia | reflexivity].
Qed.

Lemma clockHHMM_minuteOfDay (host : Host) (d : Date) :
  clockHHMM host d = clockOfMinutes (minuteOfDay host d)
  /\ 0 <= minuteOfDay host d < 1440.
Proof.
  unfold clockHHMM, clockOfMinutes, minuteOfDay.
  set (t := LocalTime host d).
  assert (Hh : 0 <= HourFromTime t < 24)
    by (unfold HourFromTime; apply Z.mod_pos_bound; lia).
  assert (Hm : 0 <= MinFromTime t < 60)
    by (unfold MinFromTime; apply Z.mod_pos_bound; lia).
  split; [|lia].
  replace ((HourFromTime t * 60 + MinFromTime t) / 60) with (HourFromTime t).
  - replace ((HourFromTime t * 60 + MinFromTime t) mod 60)
      with (MinFromTime t); [reflexivity|].
    rewrite Z.add_comm, Z_mod_plus_full. symmetry. apply Z.mod_small. exact Hm.
  - rewrite Z.add_comm, Z.div_add by lia.
    rewrite (Z.div_small (MinFromTime t)) by exact Hm. reflexivity.
Qed.

(** For a lunch window written as ["HH:MM"] strings of the minutes
    [lunchStart] and [lunchEnd] of the day, the lunch test on the strings
    is the comparison of times of day: the slot starts before the end of
    lunch and ends after its start. *)
Lemma overlapsLunch_minutes (host : Host) (schedule : ShopSchedule)
    (lunchStart lunchEnd : Z) (slotStart slotEnd : Date) :
  lunch_start schedule = Some (clockOfMinutes lunchStart) ->
  lunch_end schedule = Some (clockOfMinutes lunchEnd) ->
  0 <= lunchStart < 1440 ->
  0 <= lunchEnd < 1440 ->
  overlapsLunch host schedule slotStart slotEnd
  = (minuteOfDay host slotStart <? lunchEnd)
    && (lunchStart <? minuteOfDay host slotEnd).
Proof.
  intros Hs He Hls Hle. unfold overlapsLunch. rewrite Hs, He.
  destruct (clockHHMM_minuteOfDay host slotStart) as [-> Hb1].
  destruct (clockHHMM_minuteOfDay host slotEnd) as [-> Hb2].
  rewrite (clockOfMinutes_ltb _ _ Hb1 Hle), (clockOfMinutes_ltb _ _ Hls Hb2).
  unfold truthy, clockOfMinutes, twoDigits. reflexivity.
Qed.

(* ================================================================== *)
(** * The decision for a slot *)
(* ================================================================== *)

(** C3. The decision for a returned slot, in priority order.  The slot
    overlaps the lunch window when both ends of the window are configured
    and, on the wall-clock ["HH:MM"] strings the code compares, the start
    of the slot is before the end of lunch and the end of the slot is
    after the start of lunch; it is then unavailable with reason
    ["lunch"], also when an appointment is booked over it.  Otherwise, if
    some stored appointment that is not cancelled overlaps the slot (the
    case in which [checkAppointmentConflict] returns a descriptor), it is
    unavailable with reason ["booked"]; otherwise it is available.  For a
    lunch window written as ["HH:MM"], the comparison of the strings is
    the comparison of the minutes of the day. *)
Theorem getAvailableTimeSlots_decision (host : Host) (date : Date)
    (serviceId : string) (vehicleYear : option Z) (ls : LocalStorage)
    (schedule : ShopSchedule) (slot : TimeSlot) :
  evalState (getShopScheduleForDay host date) ls = Some schedule ->
  In slot (evalState (getAvailableTimeSlots host date serviceId vehicleYear)
             ls) ->
  let overlapsLunchWindow :=
    exists lunchStart lunchEnd,
      lunch_start schedule = Some lunchStart
      /\ lunch_end schedule = Some lunchEnd
      /\ lunchStart <> "" /\ lunchEnd <> ""
      /\ String.ltb (clockHHMM host (slot_start slot)) lunchEnd = true
      /\ String.ltb lunchStart (clockHHMM host (slot_end slot)) = true in
  let conflictFound :=
    exists a, In a (appointments (schedulingDoc ls))
              /\ appt_status a <> appt_cancelled
              /\ slot_start slot < scheduled_end a
              /\ slot_end slot > scheduled_start a in
  (overlapsLunchWindow ->
   available slot = false /\ reason slot = Some "lunch")
  /\ (~ overlapsLunchWindow -> conflictFound ->
      available slot = false /\ reason slot = Some "booked")
  /\ (~ overlapsLunchWindow -> ~ conflictFound ->
      available slot = true /\ reason slot = None)
  /\ (conflictFound
      <-> evalState (checkAppointmentConflict host (slot_start slot)
                       (slot_end slot)) ls <> None)
  /\ (forall lunchStart lunchEnd,
        lunch_start schedule = Some (clockOfMinutes lunchStart) ->
        lunch_end schedule = Some (clockOfMinutes lunchEnd) ->
        0 <= lunchStart < 1440 ->
        0 <= lunchEnd < 1440 ->
        (minuteOfDay host (slot_start slot) < lunchEnd
         /\ lunchStart < minuteOfDay host (slot_end slot) ->
         available slot = false /\ reason slot = Some "lunch")
        /\ (~ (minuteOfDay host (slot_start slot) < lunchEnd
               /\ lunchStart < minuteOfDay host (slot_end slot)) ->
            reason slot <> Some "lunch")).
Proof.
  intros Hsched Hin. cbv zeta.
  rewrite getAvailableTimeSlots_run, Hsched in Hin.
  destruct (is_closed schedule); [destruct Hin|].
  destruct (dayTime host date (open_time schedule)) as [openAt|];
    [|destruct Hin].
  destruct (dayTime host date (close_time schedule)) as [closeAt|];
    [|destruct Hin].
  destruct (slotList_In _ _ _ _ _ _ _ _ _ Hin) as (_ & _ & _ & Hdec & _).
  pose proof (overlapsLunch_true_iff host schedule (slot_start slot)
                (slot_end slot)) as Hlunch.
  pose proof (scanAppointments_some_iff host (slot_start slot) (slot_end slot)
                (appointments (schedulingDoc ls))) as Hscan.
  unfold activeAppointment, overlapsAppointment in Hscan.
  assert (Hcheck :
    evalState (checkAppointmentConflict host (slot_start slot)
                 (slot_end slot)) ls
    = scanAppointments host (slot_start slot) (slot_end slot)
        (appointments (schedulingDoc ls)))
    by (unfold evalState; rewrite checkAppointmentConflict_run; reflexivity).
  split; [|split; [|split; [|split]]].
  - intros Hhit. apply Hlunch in Hhit. rewrite Hhit in Hdec.
    injection Hdec as -> ->. split; reflexivity.
  - intros Hno Hfound.
    destruct (overlapsLunch host schedule (slot_start slot) (slot_end slot));
      [exfalso; apply Hno, Hlunch; reflexivity|].
    apply Hscan in Hfound.
    destruct (scanAppointments host (slot_start slot) (slot_end slot)
                (appointments (schedulingDoc ls)));
      [|exfalso; apply Hfound; reflexivity].
    injection Hdec as -> ->. split; reflexivity.
  - intros Hno Hnone.
    destruct (overlapsLunch host schedule (slot_start slot) (slot_end slot));
      [exfalso; apply Hno, Hlunch; reflexivity|].
    destruct (scanAppointments host (slot_start slot) (slot_end slot)
                (appointments (schedulingDoc ls)));
      [exfalso; apply Hnone, Hscan; discriminate|].
    injection Hdec as -> ->. split; reflexivity.
  - rewrite Hcheck. symmetry. exact Hscan.
  - intros lunchStart lunchEnd Hls Hle Hbs Hbe.
    rewrite (overlapsLunch_minutes host schedule lunchStart lunchEnd _ _
               Hls Hle Hbs Hbe) in Hdec.
    split.
    + intros [H1 H2].
      apply Z.ltb_lt in H1. apply Z.ltb_lt in H2. rewrite H1, H2 in Hdec.
      injection Hdec as -> ->. split; reflexivity.
    + intros Hno Hreason.
      destruct (minuteOfDay host (slot_start slot) <? lunchEnd) eqn:H1;
        destruct (lunchStart <? minuteOfDay host (slot_end slot)) eqn:H2;
        try (apply Hno; split; apply Z.ltb_lt; assumption);
        cbn [andb] in Hdec;
        destruct (scanAppointments host (slot_start slot) (slot_end slot)
                    (appointments (schedulingDoc ls)));
        injection Hdec as _ Hr; rewrite Hr in Hreason; discriminate Hreason.
Qed.

Lemma getAvailableTimeSlots_decision_witness :
  (available mondayLunchSlot = false /\ reason mondayLunchSlot = Some "lunch")
  /\ (available mondayBookedSlot = false
      /\ reason mondayBookedSlot = Some "booked")
  /\ (available mondayFirstSlot = true /\ reason mondayFirstSlot = None).
Proof.
  split; [|split].
  - apply (proj1 (getAvailableTimeSlots_decision hostUTC monday "oil-change"
                    None lunchBookedStorage
                    (mkShopSchedule 1 "schedule_1" "08:00" "17:00")
                    mondayLunchSlot
                    ltac:(vm_compute; reflexivity)
                    ltac:(vm_compute; repeat (first [left; reflexivity
                                                    | right])))).
    exists "12:00", "13:00". vm_compute.
    repeat split; try reflexivity; discriminate.
  - apply (proj1 (proj2 (getAvailableTimeSlots_decision hostUTC monday
                           "oil-change" None lunchBookedStorage
                           (mkShopSchedule 1 "schedule_1" "08:00" "17:00")
                           mondayBookedSlot
                           ltac:(vm_compute; reflexivity)
                           ltac:(vm_compute;
                                 repeat (first [left; reflexivity | right]))))).
    + intros (lunchStart & lunchEnd & Hs & He & _ & _ & _ & H2).
      vm_compute in Hs. injection Hs as <-.
      vm_compute in H2. discriminate H2.
    + exists confirmedAt10.
      split; [vm_compute; right; left; reflexivity|].
      split; [discriminate|].
      split; vm_compute; reflexivity.
  - apply (proj1 (proj2 (proj2 (getAvailableTimeSlots_decision hostUTC monday
                                  "oil-change" None lunchBookedStorage
                                  (mkShopSchedule 1 "schedule_1" "08:00"
                                     "17:00")
                                  mondayFirstSlot
                                  ltac:(vm_compute; reflexivity)
                                  ltac:(vm_compute;
                                        repeat (first [left; reflexivity
                                                      | right])))))).
    + intros (lunchStart & lunchEnd & Hs & He & _ & _ & _ & H2).
      vm_compute in Hs. injection Hs as <-.
      vm_compute in H2. discriminate H2.
    + intros (a & Ha & Hactive & H1 & H2). vm_compute in Ha.
      destruct Ha as [<- | [<- | [<- | [<- | []]]]];
        first [ apply Hactive; reflexivity
              | vm_compute in H2; discriminate H2 ].
Defined.

(* ================================================================== *)
(** * The calendar store: writes and later reads *)
(* ================================================================== *)

Lemma schedulingDoc_saved (d : SchedulingData) (ls : LocalStorage) :
  schedulingDoc (execState (saveSchedulingData d) ls) = d.
Proof. reflexivity. Qed.

(** A read leaves the storage as if the document it returns had just
    been saved. *)
Lemma getSchedulingData_state (ls : LocalStorage) :
  execState getSchedulingData ls
  = execState (saveSchedulingData (schedulingDoc ls)) ls.
Proof.
  unfold execState, schedulingDoc, evalState, getSchedulingData,
    saveSchedulingData.
  destruct ls as [sched db]. simpl.
  destruct sched; reflexivity.
Qed.

Lemma scanAppointments_app (host : Host) (startTime endTime : Date)
    (l1 l2 : list Appointment) :
  scanAppointments host startTime endTime (l1 ++ l2)
  = match scanAppointments host startTime endTime l1 with
    | Some d => Some d
    | None => scanAppointments host startTime endTime l2
    end.
Proof.
  induction l1 as [|a l1 IH]; simpl; [reflexivity|].
  destruct (isCancelled a); [exact IH|].
  destruct (conflictsWith startTime endTime a); [reflexivity | exact IH].
Qed.

Lemma checkAppointmentConflict_eval (host : Host) (startTime endTime : Date)
    (ls : LocalStorage) :
  evalState (checkAppointmentConflict host startTime endTime) ls
  = scanAppointments host startTime endTime (appointments (schedulingDoc ls)).
Proof. unfold evalState. rewrite checkAppointmentConflict_run. reflexivity. Qed.

Lemma createAppointment_run (uuid : string) (appointmentData : Appointment)
    (ls : LocalStorage) :
  createAppointment uuid appointmentData ls
  = (withAppointmentId uuid appointmentData,
     execState
       (saveSchedulingData
          (withAppointments (schedulingDoc ls)
             (appointments (schedulingDoc ls)
              ++ [withAppointmentId uuid appointmentData]))) ls).
Proof.
  unfold createAppointment. rewrite bind_getSchedulingData.
  unfold bind, ret. rewrite getSchedulingData_state. reflexivity.
Qed.

Lemma createAppointment_scan (host : Host) (uuid : string)
    (appointmentData : Appointment) (startTime endTime : Date)
    (ls : LocalStorage) :
  evalState (checkAppointmentConflict host startTime endTime)
    (execState (createAppointment uuid appointmentData) ls)
  = scanAppointments host startTime endTime
      (appointments (schedulingDoc ls)
       ++ [withAppointmentId uuid appointmentData]).
Proof.
  rewrite checkAppointmentConflict_eval.
  unfold execState. rewrite createAppointment_run. simpl snd.
  rewrite schedulingDoc_saved. reflexivity.
Qed.

(** Booking never refuses and never disturbs earlier bookings: after
    [createAppointment], an interval that already had a conflict keeps the
    same descriptor, and an interval that was free is in conflict exactly
    when the new appointment is not cancelled and overlaps it. *)
Theorem createAppointment_conflicts (host : Host) (uuid : string)
    (appointmentData : Appointment) (startTime endTime : Date)
    (ls : LocalStorage) :
  evalState (checkAppointmentConflict host startTime endTime)
    (execState (createAppointment uuid appointmentData) ls)
  = match evalState (checkAppointmentConflict host startTime endTime) ls with
    | Some d => Some d
    | None =>
        if isCancelled appointmentData then None
        else if conflictsWith startTime endTime appointmentData
             then Some (conflictDescriptor host
                          (withAppointmentId uuid appointmentData))
             else None
    end.
Proof.
  rewrite createAppointment_scan, checkAppointmentConflict_eval.
  rewrite scanAppointments_app.
  destruct (scanAppointments host startTime endTime
              (appointments (schedulingDoc ls))); reflexivity.
Qed.

(** After an appointment that is not cancelled and ends after it starts
    has been booked, its own interval is reported as in conflict. *)
Theorem createAppointment_books_interval (host : Host) (uuid : string)
    (appointmentData : Appointment) (ls : LocalStorage) :
  appt_status appointmentData <> appt_cancelled ->
  scheduled_start appointmentData < scheduled_end appointmentData ->
  evalState (checkAppointmentConflict host
               (scheduled_start appointmentData)
               (scheduled_end appointmentData))
    (execState (createAppointment uuid appointmentData) ls)
  <> None.
Proof.
  intros Hact Hlt. rewrite createAppointment_scan.
  apply scanAppointments_some_iff.
  exists (withAppointmentId uuid appointmentData).
  split; [apply in_or_app; right; left; reflexivity|].
  split; [exact Hact|].
  unfold overlapsAppointment. simpl. lia.
Qed.

(** ** Replacing the first matching entry *)

Lemma updateFirst_none {A : Type} (p : A -> bool) (f : A -> A) (l : list A) :
  updateFirst p f l = None <-> forall x, In x l -> p x = false.
Proof.
  induction l as [|x l IH]; simpl.
  - split; [intros _ x [] | reflexivity].
  - destruct (p x) eqn:Ex.
    + split; [discriminate|]. intros H.
      rewrite (H x (or_introl eq_refl)) in Ex. discriminate.
    + destruct (updateFirst p f l) as [[y l']|].
      * split; [discriminate|]. intros H. exfalso.
        assert (Hl : Some (y, l') = None)
          by (apply IH; intros z Hz; apply H; right; exact Hz).
        discriminate Hl.
      * split; [|reflexivity]. intros _ z [<- | Hz]; [exact Ex|].
        apply (proj1 IH eq_refl z Hz).
Qed.

(** The replaced entry is the one [find] returns, and when [f] keeps the
    key of an entry, a later [find] returns the replacement. *)
Lemma updateFirst_find {A : Type} (p : A -> bool) (f : A -> A) (l l' : list A)
    (y : A) :
  updateFirst p f l = Some (y, l') ->
  exists x, find p l = Some x /\ y = f x
            /\ List.length l' = List.length l
            /\ (p (f x) = true -> find p l' = Some y).
Proof.
  revert l' y. induction l as [|x l IH]; intros l' y; simpl; [discriminate|].
  destruct (p x) eqn:Ex.
  - intros H. injection H as <- <-. exists x.
    repeat split; auto. simpl. intros ->. reflexivity.
  - destruct (updateFirst p f l) as [[z l0]|] eqn:E; [|discriminate].
    intros H. injection H as <- <-.
    destruct (IH l0 z eq_refl) as (x0 & Hf & Hz & Hlen & Hfind).
    exists x0. repeat split; auto.
    + simpl. rewrite Hlen. reflexivity.
    + intros Hp. simpl. rewrite Ex. apply Hfind. exact Hp.
Qed.

(** Searches that reject both the old and the new entry do not see the
    replacement. *)
Lemma updateFirst_find_other {A : Type} (p q : A -> bool) (f : A -> A)
    (l l' : list A) (y : A) :
  updateFirst p f l = Some (y, l') ->
  (forall x, p x = true -> q x = false /\ q (f x) = false) ->
  find q l' = find q l.
Proof.
  revert l' y. induction l as [|x l IH]; intros l' y; simpl; [discriminate|].
  destruct (p x) eqn:Ex.
  - intros H Hq. injection H as <- <-. simpl.
    destruct (Hq x Ex) as [-> ->]. reflexivity.
  - destruct (updateFirst p f l) as [[z l0]|] eqn:E; [|discriminate].
    intros H Hq. injection H as <- <-. simpl.
    destruct (q x); [reflexivity|]. apply (IH l0 z eq_refl Hq).
Qed.

(** With unique keys, every entry other than the replacement is an old
    entry with another key. *)
Lemma updateFirst_In_unique {A : Type} (key : A -> string) (id : string)
    (f : A -> A) (l l' : list A) (y : A) :
  NoDup (map key l) ->
  updateFirst (fun x => String.eqb (key x) id) f l = Some (y, l') ->
  forall b, In b l' -> b = y \/ (In b l /\ key b <> id).
Proof.
  revert l' y. induction l as [|x l IH]; intros l' y Hnd; simpl;
    [discriminate|].
  inversion Hnd as [|? ? Hnotin Hnd']; subst.
  destruct (String.eqb_spec (key x) id) as [Heq | Hne].
  - intros H. injection H as <- <-. intros b [<- | Hb]; [left; reflexivity|].
    right. split; [right; exact Hb|].
    intros Hk. apply Hnotin. rewrite Heq, <- Hk. apply in_map. exact Hb.
  - destruct (updateFirst _ f l) as [[z l0]|] eqn:E; [|discriminate].
    intros H. injection H as <- <-. intros b [<- | Hb].
    + right. split; [left; reflexivity | exact Hne].
    + destruct (IH l0 z Hnd' eq_refl b Hb) as [-> | [Hin Hk]];
        [left; reflexivity|].
      right. split; [right; exact Hin | exact Hk].
Qed.

(** Appending an entry with a fresh key and then replacing by that key
    touches the appended entry only. *)
Lemma updateFirst_appended {A : Type} (p : A -> bool) (f : A -> A)
    (l : list A) (x : A) :
  (forall z, In z l -> p z = false) ->
  p x = true ->
  updateFirst p f (l ++ [x]) = Some (f x, l ++ [f x]).
Proof.
  intros Hl Hx. induction l as [|z l IH]; simpl.
  - rewrite Hx. reflexivity.
  - rewrite (Hl z (or_introl eq_refl)).
    rewrite IH; [reflexivity|]. intros w Hw. apply Hl. right. exact Hw.
Qed.

Lemma updateAppointment_run (id : string) (updates : AppointmentUpdates)
    (ls : LocalStorage) :
  updateAppointment id updates ls
  = match updateFirst (fun a => String.eqb (appt_id a) id)
            (mergeAppointment updates) (appointments (schedulingDoc ls)) with
    | None => (None, execState getSchedulingData ls)
    | Some (updated, appts) =>
        (Some updated,
         execState (saveSchedulingData
                      (withAppointments (schedulingDoc ls) appts)) ls)
    end.
Proof.
  unfold updateAppointment. rewrite bind_getSchedulingData.
  destruct (updateFirst _ _ _) as [[updated appts]|]; [|reflexivity].
  unfold bind, ret. rewrite getSchedulingData_state. reflexivity.
Qed.

(** Updating an appointment that is not stored returns null and stores
    nothing: the document is the one a plain read leaves behind. *)
Theorem updateAppointment_unknown_id (id : string)
    (updates : AppointmentUpdates) (ls : LocalStorage) :
  (forall a, In a (appointments (schedulingDoc ls)) -> appt_id a <> id) ->
  evalState (updateAppointment id updates) ls = None
  /\ execState (updateAppointment id updates) ls
     = execState getSchedulingData ls
  /\ schedulingDoc (execState (updateAppointment id updates) ls)
     = schedulingDoc ls.
Proof.
  intros Hids.
  assert (Hnone : updateFirst (fun a => String.eqb (appt_id a) id)
                    (mergeAppointment updates)
                    (appointments (schedulingDoc ls)) = None).
  { apply updateFirst_none. intros a Ha.
    destruct (String.eqb_spec (appt_id a) id); [|reflexivity].
    exfalso. exact (Hids a Ha e). }
  assert (Hrun : updateAppointment id updates ls
                 = (None, execState getSchedulingData ls))
    by (rewrite updateAppointment_run, Hnone; reflexivity).
  unfold evalState, execState at 1 3. rewrite Hrun. simpl.
  repeat split. apply schedulingDoc_persisted.
Qed.

Lemma create_then_cancel_scan (host : Host) (uuid : string)
    (appointmentData : Appointment) (startTime endTime : Date)
    (ls : LocalStorage) :
  (forall a, In a (appointments (schedulingDoc ls)) -> appt_id a <> uuid) ->
  evalState (checkAppointmentConflict host startTime endTime)
    (execState (updateAppointment uuid (statusUpdate appt_cancelled))
       (execState (createAppointment uuid appointmentData) ls))
  = evalState (checkAppointmentConflict host startTime endTime) ls.
Proof.
  intros Hfresh. rewrite !checkAppointmentConflict_eval.
  unfold execState at 1. rewrite updateAppointment_run.
  unfold execState at 1 3. rewrite createAppointment_run. simpl snd.
  rewrite schedulingDoc_saved. simpl appointments.
  rewrite updateFirst_appended.
  - simpl snd. rewrite schedulingDoc_saved. simpl appointments.
    rewrite scanAppointments_app. simpl.
    destruct (scanAppointments host startTime endTime
                (appointments (schedulingDoc ls))); reflexivity.
  - intros a Ha. destruct (String.eqb_spec (appt_id a) uuid); [|reflexivity].
    exfalso. exact (Hfresh a Ha e).
  - simpl. apply String.eqb_refl.
Qed.

(** With unique appointment ids, cancelling the only active appointment
    that overlaps an interval frees the interval. *)
Theorem cancel_frees_interval (host : Host) (a : Appointment)
    (startTime endTime : Date) (ls : LocalStorage) :
  NoDup (map appt_id (appointments (schedulingDoc ls))) ->
  In a (appointments (schedulingDoc ls)) ->
  (forall b, In b (appointments (schedulingDoc ls)) ->
     appt_status b <> appt_cancelled ->
     startTime < scheduled_end b -> endTime > scheduled_start b ->
     b = a) ->
  evalState (checkAppointmentConflict host startTime endTime)
    (execState (updateAppointment (appt_id a) (statusUpdate appt_cancelled))
       ls)
  = None.
Proof.
  intros Hnd Hin Honly. rewrite checkAppointmentConflict_eval.
  unfold execState. rewrite updateAppointment_run.
  destruct (updateFirst _ _ _) as [[updated appts]|] eqn:E.
  - simpl snd. rewrite schedulingDoc_saved. simpl appointments.
    destruct (scanAppointments host startTime endTime appts) eqn:Es;
      [|reflexivity].
    exfalso.
    assert (Hne : scanAppointments host startTime endTime appts <> None)
      by congruence.
    apply scanAppointments_some_iff in Hne.
    destruct Hne as (b & Hb & Hact & Hlo & Hhi).
    destruct (updateFirst_find _ _ _ _ _ E) as (x & _ & Hupd & _).
    destruct (updateFirst_In_unique appt_id (appt_id a) _ _ _ _ Hnd E b Hb)
      as [-> | [Hbin Hkey]].
    + subst updated. apply Hact. reflexivity.
    + apply Hkey. f_equal. apply Honly; assumption.
  - exfalso. pose proof (proj1 (updateFirst_none _ _ _) E a Hin) as Hp.
    simpl in Hp. rewrite String.eqb_refl in Hp. discriminate.
Qed.

(* ================================================================== *)
(** * Slots after changes to the store *)
(* ================================================================== *)

Lemma slotList_ext (host : Host) (schedule : ShopSchedule)
    (serviceId : string) (serviceDuration : Z) (endTime : Date)
    (appts1 appts2 : list Appointment) :
  (forall s e, scanAppointments host s e appts1
               = scanAppointments host s e appts2) ->
  forall (fuel : nat) (currentSlot : Date),
    slotList host schedule serviceId serviceDuration endTime appts1 fuel
      currentSlot
    = slotList host schedule serviceId serviceDuration endTime appts2 fuel
        currentSlot.
Proof.
  intros Hscan. induction fuel as [|fuel IH]; intros cur; simpl;
    [reflexivity|].
  rewrite Hscan, IH. reflexivity.
Qed.

Lemma getShopScheduleForDay_eval (host : Host) (date : Date)
    (ls : LocalStorage) :
  evalState (getShopScheduleForDay host date) ls
  = find (fun schedule => day_of_week schedule =? getDay host date)
      (shop_schedules (schedulingDoc ls)).
Proof. unfold evalState. rewrite getShopScheduleForDay_run. reflexivity. Qed.

Lemma getServiceDuration_eval (serviceId : string) (ls : LocalStorage) :
  evalState (getServiceDuration serviceId) ls
  = find (fun sd => String.eqb (service_id sd) serviceId)
      (service_durations (schedulingDoc ls)).
Proof. unfold evalState. rewrite getServiceDuration_run. reflexivity. Qed.

Lemma calculateServiceDuration_ext (serviceId : string)
    (vehicleYear : option Z) (ls1 ls2 : LocalStorage) :
  evalState (getServiceDuration serviceId) ls1
  = evalState (getServiceDuration serviceId) ls2 ->
  evalState (calculateServiceDuration serviceId vehicleYear) ls1
  = evalState (calculateServiceDuration serviceId vehicleYear) ls2.
Proof.
  unfold evalState, calculateServiceDuration, bind.
  destruct (getServiceDuration serviceId ls1) as [r1 s1].
  destruct (getServiceDuration serviceId ls2) as [r2 s2].
  simpl. intros ->. destruct r2; reflexivity.
Qed.

(** The slots depend on the store through the schedule of the weekday,
    the duration of the service, and the conflict checks. *)
Lemma getAvailableTimeSlots_ext (host : Host) (date : Date)
    (serviceId : string) (vehicleYear : option Z) (ls1 ls2 : LocalStorage) :
  evalState (getShopScheduleForDay host date) ls1
  = evalState (getShopScheduleForDay host date) ls2 ->
  evalState (getServiceDuration serviceId) ls1
  = evalState (getServiceDuration serviceId) ls2 ->
  (forall s e, evalState (checkAppointmentConflict host s e) ls1
               = evalState (checkAppointmentConflict host s e) ls2) ->
  evalState (getAvailableTimeSlots host date serviceId vehicleYear) ls1
  = evalState (getAvailableTimeSlots host date serviceId vehicleYear) ls2.
Proof.
  intros Hsched Hdur Hscan. rewrite !getAvailableTimeSlots_run.
  rewrite Hsched.
  rewrite (calculateServiceDuration_ext serviceId vehicleYear ls1 ls2 Hdur).
  destruct (evalState (getShopScheduleForDay host date) ls2) as [schedule|];
    [|reflexivity].
  destruct (is_closed schedule); [reflexivity|].
  destruct (dayTime host date (open_time schedule)); [|reflexivity].
  destruct (dayTime host date (close_time schedule)); [|reflexivity].
  apply slotList_ext. intros s e.
  rewrite <- !checkAppointmentConflict_eval. apply Hscan.
Qed.

Lemma getAvailableTimeSlots_state (host : Host) (date : Date)
    (serviceId : string) (vehicleYear : option Z) (ls : LocalStorage) :
  execState (getAvailableTimeSlots host date serviceId vehicleYear) ls
  = execState getSchedulingData ls.
Proof.
  unfold execState at 1. unfold getAvailableTimeSlots. unfold bind at 1.
  rewrite getShopScheduleForDay_run.
  destruct (find _ _) as [schedule|]; [|reflexivity].
  destruct (is_closed schedule); [reflexivity|].
  unfold bind.
  pose proof (calculateServiceDuration_state serviceId vehicleYear
                (execState getSchedulingData ls)) as Hs.
  rewrite execState_getSchedulingData_idem in Hs.
  unfold execState at 1 in Hs.
  destruct (calculateServiceDuration serviceId vehicleYear
              (execState getSchedulingData ls)) as [dur ls'].
  simpl in Hs. subst ls'.
  destruct (dayTime host date (open_time schedule)) as [startTime|];
    [|reflexivity].
  destruct (dayTime host date (close_time schedule)) as [endTime|];
    [|reflexivity].
  rewrite (slotLoop_run host schedule serviceId _ endTime _ _
             (getSchedulingData_persists ls)).
  reflexivity.
Qed.

(** Asking for the slots twice gives the same slots: the first call only
    writes back the document it read. *)
Theorem getAvailableTimeSlots_idempotent (host : Host) (date : Date)
    (serviceId : string) (vehicleYear : option Z) (ls : LocalStorage) :
  evalState (getAvailableTimeSlots host date serviceId vehicleYear)
    (execState (getAvailableTimeSlots host date serviceId vehicleYear) ls)
  = evalState (getAvailableTimeSlots host date serviceId vehicleYear) ls
  /\ schedulingDoc
       (execState (getAvailableTimeSlots host date serviceId vehicleYear) ls)
     = schedulingDoc ls
  /\ shop_database
       (execState (getAvailableTimeSlots host date serviceId vehicleYear) ls)
     = shop_database ls.
Proof.
  rewrite getAvailableTimeSlots_state.
  split; [|split].
  - rewrite !getAvailableTimeSlots_run.
    rewrite calculateServiceDuration_persisted.
    rewrite !getShopScheduleForDay_eval, schedulingDoc_persisted.
    reflexivity.
  - apply schedulingDoc_persisted.
  - rewrite getSchedulingData_state. reflexivity.
Qed.

(** Booking an appointment under a fresh id and then setting its status
    to cancelled gives back the conflict checks and the slots of before
    the booking, for every interval, date, service and vehicle year. *)
Theorem create_then_cancel_restores (host : Host) (uuid : string)
    (appointmentData : Appointment) (ls : LocalStorage) :
  (forall a, In a (appointments (schedulingDoc ls)) -> appt_id a <> uuid) ->
  (forall startTime endTime,
     evalState (checkAppointmentConflict host startTime endTime)
       (execState (updateAppointment uuid (statusUpdate appt_cancelled))
          (execState (createAppointment uuid appointmentData) ls))
     = evalState (checkAppointmentConflict host startTime endTime) ls)
  /\ (forall date serviceId vehicleYear,
        evalState (getAvailableTimeSlots host date serviceId vehicleYear)
          (execState (updateAppointment uuid (statusUpdate appt_cancelled))
             (execState (createAppointment uuid appointmentData) ls))
        = evalState (getAvailableTimeSlots host date serviceId vehicleYear)
            ls).
Proof.
  intros Hfresh.
  split; [intros s e; apply create_then_cancel_scan; exact Hfresh|].
  intros date serviceId vehicleYear.
  assert (Hdoc :
    exists appts,
      schedulingDoc
        (execState (updateAppointment uuid (statusUpdate appt_cancelled))
           (execState (createAppointment uuid appointmentData) ls))
      = withAppointments (schedulingDoc ls) appts).
  { unfold execState at 1. rewrite updateAppointment_run.
    unfold execState at 1 3. rewrite createAppointment_run. simpl snd.
    rewrite schedulingDoc_saved. simpl appointments.
    rewrite updateFirst_appended.
    - simpl snd. rewrite schedulingDoc_saved. eexists. reflexivity.
    - intros a Ha. destruct (String.eqb_spec (appt_id a) uuid); [|reflexivity].
      exfalso. exact (Hfresh a Ha e).
    - simpl. apply String.eqb_refl. }
  destruct Hdoc as [appts Hdoc].
  apply getAvailableTimeSlots_ext.
  - rewrite !getShopScheduleForDay_eval, Hdoc. reflexivity.
  - rewrite !getServiceDuration_eval, Hdoc. reflexivity.
  - intros s e. apply create_then_cancel_scan. exact Hfresh.
Qed.

(** The loop reaches every grid point whose slot fits. *)
Lemma slotList_complete (host : Host) (schedule : ShopSchedule)
    (serviceId : string) (serviceDuration : Z) (endTime : Date)
    (appts : list Appointment) (fuel : nat) :
  forall (currentSlot k : Z),
    0 <= k < Z.of_nat fuel ->
    currentSlot + k * (30 * msPerMinute) < endTime ->
    currentSlot + k * (30 * msPerMinute) + serviceDuration * msPerMinute
    <= endTime ->
    exists slot,
      In slot (slotList host schedule serviceId serviceDuration endTime appts
                 fuel currentSlot)
      /\ slot_start slot = currentSlot + k * (30 * msPerMinute).
Proof.
  unfold msPerMinute.
  induction fuel as [|fuel IH]; intros cur k Hk Hlt Hfit; [simpl in Hk; lia|].
  simpl.
  destruct (Z.ltb_spec cur endTime) as [Hcur | Hcur]; [|lia].
  destruct (Z.gtb_spec (cur + serviceDuration * 60000) endTime) as [Hgt | Hle].
  - exfalso. destruct (Z.leb_spec 0 serviceDuration); lia.
  - destruct (Z.eq_dec k 0) as [-> | Hk0].
    + eexists. split; [left; reflexivity|]. simpl. lia.
    + destruct (IH (cur + 30 * 60000) (k - 1)) as (slot & Hin & Hstart);
        try lia.
      exists slot. split; [right; exact Hin | lia].
Qed.

(** On a host with a constant offset no candidate that fits is left out:
    every instant on the 30-minute grid from the opening time that lies
    before the closing time, and whose slot ends by the closing time,
    starts a returned slot. *)
Lemma complete_on_steady_host (host : Host) (date : Date)
    (serviceId : string) (vehicleYear : option Z) (ls : LocalStorage)
    (schedule : ShopSchedule) (openAt closeAt k : Z) :
  evalState (getShopScheduleForDay host date) ls = Some schedule ->
  is_closed schedule = false ->
  dayTime host date (open_time schedule) = Some openAt ->
  dayTime host date (close_time schedule) = Some closeAt ->
  0 <= k ->
  openAt + k * (30 * msPerMinute) < closeAt ->
  openAt + k * (30 * msPerMinute)
  + evalState (calculateServiceDuration serviceId vehicleYear) ls * msPerMinute
  <= closeAt ->
  exists slot,
    In slot (evalState (getAvailableTimeSlots host date serviceId vehicleYear)
               ls)
    /\ slot_start slot = openAt + k * (30 * msPerMinute).
Proof.
  intros Hsched Hopen Ho Hc Hk Hlt Hfit.
  rewrite getAvailableTimeSlots_run, Hsched, Hopen, Ho, Hc.
  apply slotList_complete; auto.
  split; [exact Hk|]. unfold slotFuel.
  assert (Hdiv : k <= (closeAt - openAt) / (30 * msPerMinute)).
  { apply Z.div_le_lower_bound; unfold msPerMinute in *; lia. }
  lia.
Qed.

(* ================================================================== *)
(** * Owner settings: shop hours and service durations *)
(* ================================================================== *)

Lemma updateShopSchedule_run (dayOfWeek : Z) (updates : ShopScheduleUpdates)
    (ls : LocalStorage) :
  updateShopSchedule dayOfWeek updates ls
  = match updateFirst (fun s => day_of_week s =? dayOfWeek)
            (mergeShopSchedule updates) (shop_schedules (schedulingDoc ls)) with
    | None => (None, execState getSchedulingData ls)
    | Some (updated, schedules) =>
        (Some updated,
         execState (saveSchedulingData
                      (withShopSchedules (schedulingDoc ls) schedules)) ls)
    end.
Proof.
  unfold updateShopSchedule. rewrite bind_getSchedulingData.
  destruct (updateFirst _ _ _) as [[updated schedules]|]; [|reflexivity].
  unfold bind, ret. rewrite getSchedulingData_state. reflexivity.
Qed.

Lemma updateServiceDuration_run (serviceId : string)
    (updates : ServiceDurationUpdates) (ls : LocalStorage) :
  updateServiceDuration serviceId updates ls
  = match updateFirst (fun sd => String.eqb (service_id sd) serviceId)
            (mergeServiceDuration updates)
            (service_durations (schedulingDoc ls)) with
    | None => (None, execState getSchedulingData ls)
    | Some (updated, durations) =>
        (Some updated,
         execState (saveSchedulingData
                      (withServiceDurations (schedulingDoc ls) durations)) ls)
    end.
Proof.
  unfold updateServiceDuration. rewrite bind_getSchedulingData.
  destruct (updateFirst _ _ _) as [[updated durations]|]; [|reflexivity].
  unfold bind, ret. rewrite getSchedulingData_state. reflexivity.
Qed.

(** Marking the weekday of a date as closed empties the slots of that
    date, whether or not the weekday had a schedule. *)
Theorem close_day_empties_slots (host : Host) (date : Date)
    (serviceId : string) (vehicleYear : option Z) (ls : LocalStorage) :
  evalState (getAvailableTimeSlots host date serviceId vehicleYear)
    (execState (updateShopSchedule (getDay host date) (closedUpdate true)) ls)
  = [].
Proof.
  rewrite getAvailableTimeSlots_run, getShopScheduleForDay_eval.
  unfold execState. rewrite updateShopSchedule_run.
  destruct (updateFirst _ _ _) as [[updated schedules]|] eqn:E.
  - simpl snd. rewrite schedulingDoc_saved. simpl shop_schedules.
    destruct (updateFirst_find _ _ _ _ _ E) as (x & Hx & Hupd & _ & Hfind).
    rewrite Hfind.
    + subst updated. reflexivity.
    + apply find_some in Hx. simpl. apply Hx.
  - simpl snd. fold (execState getSchedulingData ls).
    rewrite schedulingDoc_persisted.
    assert (Hnone : find (fun schedule => day_of_week schedule
                                          =? getDay host date)
                      (shop_schedules (schedulingDoc ls)) = None).
    { destruct (find _ _) as [x|] eqn:Ef; [|reflexivity].
      apply find_some in Ef. destruct Ef as [Hin Hp].
      rewrite (proj1 (updateFirst_none _ _ _) E x Hin) in Hp.
      discriminate. }
    rewrite Hnone. reflexivity.
Qed.

(** Changing the schedule of one weekday leaves the slots of the dates
    of every other weekday as they were, as long as the update does not
    move the entry onto that weekday. *)
Theorem updateShopSchedule_other_day (host : Host) (date : Date)
    (dayOfWeek : Z) (updates : ShopScheduleUpdates) (serviceId : string)
    (vehicleYear : option Z) (ls : LocalStorage) :
  dayOfWeek <> getDay host date ->
  upd_day_of_week updates <> Some (getDay host date) ->
  evalState (getAvailableTimeSlots host date serviceId vehicleYear)
    (execState (updateShopSchedule dayOfWeek updates) ls)
  = evalState (getAvailableTimeSlots host date serviceId vehicleYear) ls.
Proof.
  intros Hday Hupd.
  assert (Hdoc :
    exists schedules,
      schedulingDoc (execState (updateShopSchedule dayOfWeek updates) ls)
      = withShopSchedules (schedulingDoc ls) schedules
      /\ find (fun schedule => day_of_week schedule =? getDay host date)
           schedules
         = find (fun schedule => day_of_week schedule =? getDay host date)
             (shop_schedules (schedulingDoc ls))).
  { unfold execState. rewrite updateShopSchedule_run.
    destruct (updateFirst _ _ _) as [[updated schedules]|] eqn:E.
    - simpl snd. rewrite schedulingDoc_saved. exists schedules.
      split; [reflexivity|].
      apply (updateFirst_find_other _ _ _ _ _ _ E).
      intros x Hx. apply Z.eqb_eq in Hx. split.
      + apply Z.eqb_neq. lia.
      + apply Z.eqb_neq. simpl. unfold spread.
        destruct (upd_day_of_week updates) as [d|]; [congruence | lia].
    - simpl snd. fold (execState getSchedulingData ls).
      rewrite schedulingDoc_persisted.
      exists (shop_schedules (schedulingDoc ls)).
      split; [destruct (schedulingDoc ls)|]; reflexivity. }
  destruct Hdoc as (schedules & Hdoc & Hfind).
  apply getAvailableTimeSlots_ext.
  - rewrite !getShopScheduleForDay_eval, Hdoc. exact Hfind.
  - rewrite !getServiceDuration_eval, Hdoc. reflexivity.
  - intros s e. rewrite !checkAppointmentConflict_eval, Hdoc. reflexivity.
Qed.

Lemma calculateServiceDuration_eval (serviceId : string)
    (vehicleYear : option Z) (ls : LocalStorage) :
  evalState (calculateServiceDuration serviceId vehicleYear) ls
  = match evalState (getServiceDuration serviceId) ls with
    | None => 60
    | Some sd =>
        if isOlderVehicle vehicleYear
        then Math_ceil (mul (of_Z (estimated_minutes sd))
                          (complexity_multiplier sd))
        else estimated_minutes sd
    end.
Proof.
  unfold evalState, calculateServiceDuration, bind.
  destruct (getServiceDuration serviceId ls) as [[sd|] ls']; simpl;
    [|reflexivity].
  destruct (isOlderVehicle vehicleYear); [reflexivity|].
  apply Math_ceil_of_Z.
Qed.

(** Updating a service duration and reading it back: when the service
    is configured and the update keeps its [service_id], the stored
    configuration is the old one overlaid with the update, and
    [calculateServiceDuration] uses it; when the service is not configured,
    null is returned and the duration stays at the 60-minute default. *)
Theorem updateServiceDuration_then_read (serviceId : string)
    (updates : ServiceDurationUpdates) (ls : LocalStorage) :
  upd_service_id updates = None ->
  (forall old,
     evalState (getServiceDuration serviceId) ls = Some old ->
     evalState (updateServiceDuration serviceId updates) ls
     = Some (mergeServiceDuration updates old)
     /\ evalState (getServiceDuration serviceId)
          (execState (updateServiceDuration serviceId updates) ls)
        = Some (mergeServiceDuration updates old)
     /\ evalState (calculateServiceDuration serviceId None)
          (execState (updateServiceDuration serviceId updates) ls)
        = spread (estimated_minutes old) (upd_estimated_minutes updates))
  /\ (evalState (getServiceDuration serviceId) ls = None ->
      evalState (updateServiceDuration serviceId updates) ls = None
      /\ forall vehicleYear,
           evalState (calculateServiceDuration serviceId vehicleYear)
             (execState (updateServiceDuration serviceId updates) ls)
           = 60).
Proof.
  intros Hkeep. split.
  - intros old Hold. rewrite getServiceDuration_eval in Hold.
    assert (Hrun : exists durations,
      updateServiceDuration serviceId updates ls
      = (Some (mergeServiceDuration updates old),
         execState (saveSchedulingData
                      (withServiceDurations (schedulingDoc ls) durations)) ls)
      /\ find (fun sd => String.eqb (service_id sd) serviceId) durations
         = Some (mergeServiceDuration updates old)).
    { rewrite updateServiceDuration_run.
      destruct (updateFirst _ _ _) as [[updated durations]|] eqn:E.
      - destruct (updateFirst_find _ _ _ _ _ E) as (x & Hx & Hupd & _ & Hfind).
        rewrite Hold in Hx. injection Hx as <-. subst updated.
        exists durations. split; [reflexivity|]. apply Hfind.
        simpl. rewrite Hkeep. simpl. apply find_some in Hold. apply Hold.
      - exfalso. apply find_some in Hold. destruct Hold as [Hin Hp].
        rewrite (proj1 (updateFirst_none _ _ _) E old Hin) in Hp.
        discriminate. }
    destruct Hrun as (durations & Hrun & Hfind).
    assert (Hget : evalState (getServiceDuration serviceId)
                     (execState (updateServiceDuration serviceId updates) ls)
                   = Some (mergeServiceDuration updates old)).
    { rewrite getServiceDuration_eval. unfold execState at 1. rewrite Hrun.
      simpl snd. rewrite schedulingDoc_saved. exact Hfind. }
    split; [unfold evalState; rewrite Hrun; reflexivity|].
    split; [exact Hget|].
    rewrite calculateServiceDuration_eval, Hget. reflexivity.
  - intros Hnone. rewrite getServiceDuration_eval in Hnone.
    assert (Hrun : updateServiceDuration serviceId updates ls
                   = (None, execState getSchedulingData ls)).
    { rewrite updateServiceDuration_run.
      destruct (updateFirst _ _ _) as [[updated durations]|] eqn:E;
        [|reflexivity].
      exfalso. destruct (updateFirst_find _ _ _ _ _ E) as (x & Hx & _).
      congruence. }
    split; [unfold evalState; rewrite Hrun; reflexivity|].
    intros vehicleYear. unfold execState at 1. rewrite Hrun. simpl snd.
    rewrite calculateServiceDuration_persisted.
    rewrite calculateServiceDuration_eval, getServiceDuration_eval, Hnone.
    reflexivity.
Qed.

(** Clearing the scheduling data removes every appointment and puts the
    seeded hours and durations back at the next read; the roster key is
    not touched. *)
Theorem clearSchedulingData_resets (host : Host) (ls : LocalStorage) :
  schedulingDoc (execState clearSchedulingData ls) = defaultSchedulingData
  /\ (forall startTime endTime,
        evalState (checkAppointmentConflict host startTime endTime)
          (execState clearSchedulingData ls) = None)
  /\ (forall startDate endDate,
        evalState (getAppointments startDate endDate)
          (execState clearSchedulingData ls) = [])
  /\ shop_database (execState clearSchedulingData ls) = shop_database ls.
Proof.
  split; [reflexivity|]. split; [reflexivity|]. split; [|reflexivity].
  intros [s|] [e|]; reflexivity.
Qed.

(* ================================================================== *)
(** * Listing appointments *)
(* ================================================================== *)

Lemma insertBy_key_sorted {A : Type} (key : A -> Z) (x : A) (l : list A) :
  StronglySorted (fun a b => key a <= key b) l ->
  StronglySorted (fun a b => key a <= key b)
    (insertBy (fun a b => key a - key b) x l).
Proof.
  induction l as [|y l IH]; intros Hs; simpl.
  - constructor; constructor.
  - inversion Hs as [|? ? Hl Hy]; subst.
    destruct (Z.leb_spec (key x - key y) 0) as [Hle | Hgt].
    + constructor; [exact Hs|].
      constructor; [lia|].
      apply Forall_forall. intros z Hz.
      pose proof (proj1 (Forall_forall _ _) Hy z Hz) as Hyz.
      cbv beta in Hyz. lia.
    + constructor; [apply IH; exact Hl|].
      apply Forall_forall. intros z Hz.
      apply (Permutation_in _ (insertBy_perm _ x l)) in Hz.
      destruct Hz as [<- | Hz]; [lia|].
      exact (proj1 (Forall_forall _ _) Hy z Hz).
Qed.

Lemma sortBy_key_sorted {A : Type} (key : A -> Z) (l : list A) :
  StronglySorted (fun a b => key a <= key b)
    (sortBy (fun a b => key a - key b) l).
Proof.
  induction l as [|x l IH]; simpl; [constructor|].
  apply insertBy_key_sorted, IH.
Qed.

Lemma inDateRange_true_iff (startDate endDate : option Date)
    (a : Appointment) :
  inDateRange startDate endDate a = true
  <-> (forall s, startDate = Some s -> s <= scheduled_start a)
      /\ (forall e, endDate = Some e -> scheduled_start a <= e).
Proof.
  unfold inDateRange.
  destruct startDate as [s|], endDate as [e|];
    repeat match goal with
      | |- context [?x <? ?y] => destruct (Z.ltb_spec x y)
      | |- context [?x >? ?y] => destruct (Z.gtb_spec x y)
      end;
    split; try discriminate; try reflexivity;
    try (intros _; split; intros z Hz; inversion Hz; subst; lia);
    try (intros [H1 H2];
         try specialize (H1 _ eq_refl); try specialize (H2 _ eq_refl); lia).
Qed.

Lemma getAppointments_eval (startDate endDate : option Date)
    (ls : LocalStorage) :
  evalState (getAppointments startDate endDate) ls
  = sortBy (fun a b => scheduled_start a - scheduled_start b)
      (filter (inDateRange startDate endDate) (appointments (schedulingDoc ls))).
Proof.
  unfold evalState, getAppointments. rewrite bind_getSchedulingData.
  destruct startDate, endDate; try reflexivity.
  simpl. f_equal. symmetry.
  apply forallb_filter_id. apply forallb_forall. intros a _. reflexivity.
Qed.

(** [getAppointments] returns, in ascending order of start, exactly the
    stored appointments (cancelled ones included) whose start lies
    between the given dates, both ends included; a missing date leaves
    that side open. *)
Theorem getAppointments_sorted_range (startDate endDate : option Date)
    (ls : LocalStorage) :
  StronglySorted (fun a b => scheduled_start a <= scheduled_start b)
    (evalState (getAppointments startDate endDate) ls)
  /\ Permutation (evalState (getAppointments startDate endDate) ls)
       (filter (inDateRange startDate endDate)
          (appointments (schedulingDoc ls)))
  /\ (forall a,
        In a (evalState (getAppointments startDate endDate) ls)
        <-> In a (appointments (schedulingDoc ls))
            /\ (forall s, startDate = Some s -> s <= scheduled_start a)
            /\ (forall e, endDate = Some e -> scheduled_start a <= e)).
Proof.
  rewrite getAppointments_eval.
  split; [apply sortBy_key_sorted|].
  split; [apply sortBy_perm|].
  intros a. rewrite <- inDateRange_true_iff, <- filter_In.
  split; intros H.
  - exact (Permutation_in _ (sortBy_perm _ _) H).
  - exact (Permutation_in _ (Permutation_sym (sortBy_perm _ _)) H).
Qed.

(* ================================================================== *)
(** * Available slots and opening hours *)
(* ================================================================== *)

Lemma parsesBack_all : forallb parsesBack minutesOfDayRange = true.
Proof. vm_compute. reflexivity. Qed.

(** A well-formed ["HH:MM"] string parses to its hour and minute. *)
Lemma hourMinute_clockOfMinutes (m : Z) :
  0 <= m < 1440 ->
  hourMinute (clockOfMinutes m) = Some (m / 60, m mod 60).
Proof.
  intros Hm.
  assert (Hin : In m minutesOfDayRange).
  { apply in_map_iff. exists (Z.to_nat m). split; [lia|]. apply in_seq. lia. }
  pose proof (proj1 (forallb_forall _ minutesOfDayRange) parsesBack_all m Hin)
    as Hp.
  unfold parsesBack in Hp.
  destruct (hourMinute (clockOfMinutes m)) as [[h mm]|]; [|discriminate].
  apply andb_true_iff in Hp. destruct Hp as [Hh Hmm].
  apply Z.eqb_eq in Hh. apply Z.eqb_eq in Hmm. subst. reflexivity.
Qed.

Lemma local_day_offset (host : Host) (base day ms : Z) :
  base + LocalTZA host = day * msPerDay ->
  0 <= ms < msPerDay ->
  Day (LocalTime host (base + ms)) = day.
Proof.
  intros Hbase Hms. unfold LocalTime, Day.
  replace (base + ms + LocalTZA host) with (ms + day * msPerDay) by lia.
  rewrite Z.div_add by (unfold msPerDay; lia).
  rewrite Z.div_small by exact Hms. lia.
Qed.

Lemma minuteOfDay_offset (host : Host) (base day m : Z) :
  base + LocalTZA host = day * msPerDay ->
  0 <= m < 1440 ->
  minuteOfDay host (base + m * msPerMinute) = m.
Proof.
  intros Hbase Hm. unfold minuteOfDay, LocalTime.
  replace (base + m * msPerMinute + LocalTZA host)
    with (m * msPerMinute + day * msPerDay) by lia.
  assert (Hh : HourFromTime (m * msPerMinute + day * msPerDay) = m / 60).
  { unfold HourFromTime, msPerDay, msPerHour, msPerMinute.
    replace (m * 60000 + day * 86400000)
      with (m * 60000 + (day * 24) * 3600000) by lia.
    rewrite Z.div_add by lia. rewrite Z_mod_plus_full.
    replace 3600000 with (60 * 60000) by reflexivity.
    rewrite Z.div_mul_cancel_r by lia.
    apply Z.mod_small.
    split; [apply Z.div_pos; lia | apply Z.div_lt_upper_bound; lia]. }
  assert (Hmin : MinFromTime (m * msPerMinute + day * msPerDay) = m mod 60).
  { unfold MinFromTime, msPerDay, msPerMinute.
    replace (m * 60000 + day * 86400000)
      with ((m + day * 1440) * 60000) by lia.
    rewrite Z.div_mul by lia.
    replace (day * 1440) with ((day * 24) * 60) by lia.
    apply Z_mod_plus_full. }
  rewrite Hh, Hmin.
  pose proof (Z.div_mod m 60 ltac:(lia)). lia.
Qed.

Lemma slotList_start_before_close (host : Host) (schedule : ShopSchedule)
    (serviceId : string) (serviceDuration : Z) (endTime : Date)
    (appts : list Appointment) (fuel : nat) :
  forall (currentSlot : Date) (slot : TimeSlot),
    In slot (slotList host schedule serviceId serviceDuration endTime appts
               fuel currentSlot) ->
    slot_start slot < endTime.
Proof.
  induction fuel as [|fuel IH]; intros cur slot; simpl; [intros []|].
  destruct (Z.ltb_spec cur endTime) as [Hlt|]; [|intros []].
  destruct (cur + serviceDuration * 60000 >? endTime); [intros []|].
  intros [<- | Hin]; [exact Hlt | exact (IH _ _ Hin)].
Qed.

Lemma isShopOpen_eval (host : Host) (dateTime : Date) (ls : LocalStorage) :
  evalState (isShopOpen host dateTime) ls
  = match evalState (getShopScheduleForDay host dateTime) ls with
    | None => false
    | Some schedule =>
        if is_closed schedule then false
        else if String.ltb (clockHHMM host dateTime) (open_time schedule)
                || negb (String.ltb (clockHHMM host dateTime)
                           (close_time schedule))
        then false
        else match lunch_start schedule, lunch_end schedule with
             | Some lunchStart, Some lunchEnd =>
                 negb (truthy (lunch_start schedule)
                       && truthy (lunch_end schedule)
                       && negb (String.ltb (clockHHMM host dateTime) lunchStart)
                       && String.ltb (clockHHMM host dateTime) lunchEnd)
             | _, _ => true
             end
    end.
Proof.
  unfold evalState. unfold isShopOpen. unfold bind.
  destruct (getShopScheduleForDay host dateTime ls) as [[schedule|] ls'];
    simpl; [|reflexivity].
  destruct (is_closed schedule); [reflexivity|].
  destruct (_ || _); [reflexivity|].
  destruct (lunch_start schedule), (lunch_end schedule); try reflexivity.
  destruct (_ && _); reflexivity.
Qed.

(** On a host with a constant offset, every slot offered as available
    starts at a moment when [isShopOpen] holds, for a schedule whose
    opening, closing and lunch times are well-formed ["HH:MM"] strings
    (or that has no lunch window) and a service of positive duration. *)
Lemma available_is_open_on_steady_host (host : Host) (date : Date)
    (serviceId : string) (vehicleYear : option Z) (ls : LocalStorage)
    (schedule : ShopSchedule) (opening closing : Z) (slot : TimeSlot) :
  evalState (getShopScheduleForDay host date) ls = Some schedule ->
  open_time schedule = clockOfMinutes opening ->
  close_time schedule = clockOfMinutes closing ->
  0 <= opening < 1440 ->
  0 <= closing < 1440 ->
  (truthy (lunch_start schedule) && truthy (lunch_end schedule) = false
   \/ exists lunchStart lunchEnd,
        lunch_start schedule = Some (clockOfMinutes lunchStart)
        /\ lunch_end schedule = Some (clockOfMinutes lunchEnd)
        /\ 0 <= lunchStart < 1440 /\ 0 <= lunchEnd < 1440) ->
  0 < evalState (calculateServiceDuration serviceId vehicleYear) ls ->
  In slot (evalState (getAvailableTimeSlots host date serviceId vehicleYear)
             ls) ->
  available slot = true ->
  evalState (isShopOpen host (slot_start slot)) ls = true.
Proof.
  intros Hsched Hopen Hclose Ho Hc Hlunch Hdur Hin Havail.
  rewrite getAvailableTimeSlots_run, Hsched in Hin.
  destruct (is_closed schedule) eqn:Hclosed; [destruct Hin|].
  unfold dayTime in Hin. rewrite Hopen, Hclose in Hin.
  rewrite (hourMinute_clockOfMinutes _ Ho) in Hin.
  rewrite (hourMinute_clockOfMinutes _ Hc) in Hin.
  rewrite !setHours_base in Hin.
  set (day := Day (LocalTime host date)) in *.
  set (base := day * msPerDay - LocalTZA host) in *.
  assert (Hbase : base + LocalTZA host = day * msPerDay)
    by (unfold base; lia).
  set (D := evalState (calculateServiceDuration serviceId vehicleYear) ls)
    in *.
  pose proof (Z.div_mod opening 60 ltac:(lia)) as Eo.
  pose proof (Z.div_mod closing 60 ltac:(lia)) as Ec.
  assert (Eopen : opening / 60 * msPerHour + opening mod 60 * msPerMinute
                  = opening * msPerMinute)
    by (unfold msPerHour, msPerMinute; lia).
  assert (Eclose : closing / 60 * msPerHour + closing mod 60 * msPerMinute
                   = closing * msPerMinute)
    by (unfold msPerHour, msPerMinute; lia).
  rewrite Eopen, Eclose in Hin.
  pose proof (slotList_start_before_close _ _ _ _ _ _ _ _ _ Hin) as Hbefore.
  destruct (slotList_In _ _ _ _ _ _ _ _ _ Hin)
    as ((k & Hk & Hstart) & Hend & Hfits & Hdec & _).
  set (m := opening + 30 * k).
  assert (Hstart' : slot_start slot = base + m * msPerMinute)
    by (unfold m; unfold msPerMinute in *; lia).
  assert (Hend' : slot_end slot = base + (m + D) * msPerMinute)
    by (unfold msPerMinute in *; lia).
  assert (Hm : 0 <= m < 1440) by (unfold m, msPerMinute in *; lia).
  assert (HmD : 0 <= m + D < 1440) by (unfold msPerMinute in *; lia).
  assert (Hmclose : m < closing) by (unfold msPerMinute in *; lia).
  assert (Hmin1 : minuteOfDay host (slot_start slot) = m)
    by (rewrite Hstart'; apply (minuteOfDay_offset host base day); assumption).
  assert (Hmin2 : minuteOfDay host (slot_end slot) = m + D)
    by (rewrite Hend'; apply (minuteOfDay_offset host base day); assumption).
  assert (Hclock : clockHHMM host (slot_start slot) = clockOfMinutes m)
    by (rewrite (proj1 (clockHHMM_minuteOfDay host (slot_start slot))), Hmin1;
        reflexivity).
  assert (Hday : getDay host (slot_start slot) = getDay host date).
  { unfold getDay, WeekDay. rewrite Hstart'.
    rewrite (local_day_offset host base day); [reflexivity | exact Hbase|].
    unfold msPerMinute, msPerDay. lia. }
  assert (Hover : overlapsLunch host schedule (slot_start slot)
                    (slot_end slot) = false).
  { destruct (overlapsLunch host schedule (slot_start slot) (slot_end slot));
      [|reflexivity].
    injection Hdec as Ha _. congruence. }
  rewrite isShopOpen_eval, getShopScheduleForDay_eval, Hday.
  rewrite <- getShopScheduleForDay_eval, Hsched, Hclosed.
  rewrite Hclock, Hopen, Hclose.
  rewrite (clockOfMinutes_ltb _ _ Hm Ho), (clockOfMinutes_ltb _ _ Hm Hc).
  destruct (Z.ltb_spec m opening) as [Hlo|_]; [unfold m in Hlo; lia|].
  destruct (Z.ltb_spec m closing) as [_|Hhi]; [|lia].
  cbn [orb negb].
  destruct Hlunch as [Hnone | (L1 & L2 & HL1 & HL2 & HbL1 & HbL2)].
  - destruct (lunch_start schedule), (lunch_end schedule); try reflexivity.
    rewrite Hnone. reflexivity.
  - rewrite (overlapsLunch_minutes host schedule L1 L2 _ _ HL1 HL2 HbL1 HbL2)
      in Hover.
    rewrite Hmin1, Hmin2 in Hover.
    rewrite HL1, HL2.
    rewrite (clockOfMinutes_ltb _ _ Hm HbL1), (clockOfMinutes_ltb _ _ Hm HbL2).
    destruct (Z.ltb_spec m L1), (Z.ltb_spec m L2);
      cbn [negb andb]; try rewrite andb_false_r; try reflexivity.
    exfalso.
    destruct (Z.ltb_spec L1 (m + D)); [discriminate Hover | lia].
Qed.

(* ================================================================== *)
(** * VIN checks *)
(* ================================================================== *)

Lemma vinCharFacts_all : forallb vinCharFacts allAscii = true.
Proof. vm_compute. reflexivity. Qed.

Lemma vinCharFacts_holds (c : ascii) : vinCharFacts c = true.
Proof.
  apply (proj1 (forallb_forall _ allAscii) vinCharFacts_all).
  apply in_map_iff. exists (nat_of_ascii c).
  split; [apply ascii_nat_embedding|].
  apply in_seq. pose proof (nat_ascii_bounded c). lia.
Qed.

Lemma upperAscii_idem (c : ascii) : upperAscii (upperAscii c) = upperAscii c.
Proof.
  pose proof (vinCharFacts_holds c) as H. unfold vinCharFacts in H.
  apply andb_true_iff in H. destruct H as [H _].
  apply andb_true_iff in H. destruct H as [H _].
  apply Ascii.eqb_eq. exact H.
Qed.

Lemma isVinChar_upper (c : ascii) : isVinChar (upperAscii c) = isVinChar c.
Proof.
  pose proof (vinCharFacts_holds c) as H. unfold vinCharFacts in H.
  apply andb_true_iff in H. destruct H as [H _].
  apply andb_true_iff in H. destruct H as [_ H].
  apply Bool.eqb_prop. exact H.
Qed.

Lemma isVinChar_not_forbidden (c : ascii) :
  isVinChar c = true -> isForbiddenVinChar c = false.
Proof.
  intros Hc. pose proof (vinCharFacts_holds c) as H. unfold vinCharFacts in H.
  apply andb_true_iff in H. destruct H as [_ H].
  rewrite Hc in H. simpl in H. apply negb_true_iff. exact H.
Qed.

Lemma everyChar_upper (s : string) :
  everyChar isVinChar (toUpperCase s) = everyChar isVinChar s.
Proof.
  induction s as [|c s IH]; simpl; [reflexivity|].
  rewrite isVinChar_upper, IH. reflexivity.
Qed.

Lemma everyChar_keepChars (p : ascii -> bool) (s : string) :
  everyChar p (keepChars p s) = true.
Proof.
  induction s as [|c s IH]; simpl; [reflexivity|].
  destruct (p c) eqn:E; [simpl; rewrite E, IH; reflexivity | exact IH].
Qed.

Lemma keepChars_every (p : ascii -> bool) (s : string) :
  everyChar p s = true -> keepChars p s = s.
Proof.
  induction s as [|c s IH]; simpl; [reflexivity|].
  intros H. apply andb_true_iff in H. destruct H as [Hc Hs].
  rewrite Hc, (IH Hs). reflexivity.
Qed.

Lemma everyChar_not_forbidden (s : string) :
  everyChar isVinChar s = true -> someChar isForbiddenVinChar s = false.
Proof.
  induction s as [|c s IH]; simpl; [reflexivity|].
  intros H. apply andb_true_iff in H. destruct H as [Hc Hs].
  rewrite (isVinChar_not_forbidden c Hc), (IH Hs). reflexivity.
Qed.

Lemma keepChars_app (p : ascii -> bool) (s t : string) :
  keepChars p (String.append s t)
  = String.append (keepChars p s) (keepChars p t).
Proof.
  induction s as [|c s IH]; simpl; [reflexivity|].
  rewrite IH. destruct (p c); reflexivity.
Qed.

Lemma toUpperCase_idem (s : string) :
  toUpperCase (toUpperCase s) = toUpperCase s.
Proof.
  induction s as [|c s IH]; simpl; [reflexivity|].
  rewrite upperAscii_idem, IH. reflexivity.
Qed.

Lemma cleanVin_all_vin_chars (input : string) :
  everyChar isVinChar (cleanVin input) = true.
Proof.
  unfold cleanVin. rewrite everyChar_upper. apply everyChar_keepChars.
Qed.

(** The two tests of [isValidVin] as one condition on the characters. *)
Lemma isValidVin_true_iff (vin : string) :
  isValidVin vin = true
  <-> String.length vin = 17%nat /\ everyChar isVinChar vin = true.
Proof.
  unfold isValidVin. split.
  - destruct (String.eqb vin "" || negb (Nat.eqb (String.length vin) 17))
      eqn:E; [discriminate|].
    apply orb_false_iff in E. destruct E as [_ E].
    apply negb_false_iff, Nat.eqb_eq in E.
    destruct (someChar isForbiddenVinChar vin); [discriminate|].
    intros H. apply andb_true_iff in H. split; [exact E | apply H].
  - intros [Hlen Hall].
    assert (Hne : String.eqb vin "" = false)
      by (destruct vin; [discriminate Hlen | reflexivity]).
    rewrite Hne, Hlen, (everyChar_not_forbidden vin Hall), Hall. reflexivity.
Qed.

(** A string is a valid VIN exactly when it has 17 characters, all
    letters or digits other than I, O and Q in either case; the separate
    test for forbidden characters never decides. *)
Theorem isValidVin_iff (vin : string) :
  (isValidVin vin = true
   <-> String.length vin = 17%nat /\ everyChar isVinChar vin = true)
  /\ (everyChar isVinChar vin = true ->
      someChar isForbiddenVinChar vin = false).
Proof.
  split; [exact (isValidVin_true_iff vin) | apply everyChar_not_forbidden].
Qed.

(** Cleaning is idempotent, and a cleaned input is a valid VIN exactly
    when 17 characters are left. *)
Theorem cleanVin_result (input : string) :
  cleanVin (cleanVin input) = cleanVin input
  /\ isValidVin (cleanVin input)
     = Nat.eqb (String.length (cleanVin input)) 17.
Proof.
  split.
  - unfold cleanVin at 1.
    rewrite (keepChars_every _ _ (cleanVin_all_vin_chars input)).
    unfold cleanVin. apply toUpperCase_idem.
  - destruct (Nat.eqb_spec (String.length (cleanVin input)) 17) as [H | H].
    + apply isValidVin_true_iff.
      split; [exact H | apply cleanVin_all_vin_chars].
    + destruct (isValidVin (cleanVin input)) eqn:E; [|reflexivity].
      apply isValidVin_true_iff in E. destruct E as [E _]. contradiction.
Qed.

Lemma split_17 (vin : string) :
  String.length vin = 17%nat ->
  String.append (substring 0 3 vin)
    (String.append (substring 3 6 vin) (substring 9 8 vin))
  = vin.
Proof.
  intros H.
  do 17 (destruct vin as [|? vin]; [discriminate H|]).
  destruct vin; [|discriminate H].
  reflexivity.
Qed.

(** The display format is undone by cleaning: a formatted VIN cleans to
    what the VIN itself cleans to, and for a valid VIN that is the VIN in
    upper case, again valid. *)
Theorem formatVin_then_cleanVin (vin : string) :
  cleanVin (formatVin vin) = cleanVin vin
  /\ (isValidVin vin = true ->
      cleanVin (formatVin vin) = toUpperCase vin
      /\ isValidVin (cleanVin (formatVin vin)) = true).
Proof.
  assert (Hclean : cleanVin (formatVin vin) = cleanVin vin).
  { unfold formatVin.
    destruct (Nat.eqb_spec (String.length vin) 17) as [Hlen | _];
      [|reflexivity].
    unfold cleanVin. f_equal.
    rewrite !keepChars_app.
    change (keepChars isVinChar " ") with EmptyString.
    cbn [String.append].
    rewrite <- !keepChars_app. rewrite (split_17 vin Hlen). reflexivity. }
  split; [exact Hclean|].
  intros Hvalid. rewrite Hclean.
  apply isValidVin_true_iff in Hvalid. destruct Hvalid as [Hlen Hall].
  assert (Hup : cleanVin vin = toUpperCase vin)
    by (unfold cleanVin; rewrite (keepChars_every _ _ Hall); reflexivity).
  split; [exact Hup|].
  apply isValidVin_true_iff. split.
  - rewrite Hup. clear - Hlen. revert Hlen. generalize 17%nat.
    induction vin as [|c vin IH]; intros n; simpl; [auto|].
    destruct n; [discriminate|]. intros H. f_equal. apply IH. lia.
  - apply cleanVin_all_vin_chars.
Qed.

(* ================================================================== *)
(** * The roster store: writes and later reads *)
(* ================================================================== *)

Lemma databaseDoc_saved (d : StorageData) (ls : LocalStorage) :
  databaseDoc (execState (saveStorageData d) ls) = d.
Proof. reflexivity. Qed.

Lemma getStorageData_state (ls : LocalStorage) :
  execState getStorageData ls
  = execState (saveStorageData (databaseDoc ls)) ls.
Proof.
  unfold execState, databaseDoc, evalState, getStorageData, saveStorageData.
  destruct ls as [sched db]. simpl.
  destruct db; reflexivity.
Qed.

Lemma databaseDoc_persisted (ls : LocalStorage) :
  databaseDoc (execState getStorageData ls) = databaseDoc ls.
Proof. rewrite getStorageData_state. reflexivity. Qed.

Lemma bind_getStorageData {A : Type}
    (k : StorageData -> State LocalStorage A) (ls : LocalStorage) :
  (data <- getStorageData ;; k data) ls
  = k (databaseDoc ls) (execState getStorageData ls).
Proof. unfold bind. rewrite getStorageData_run. reflexivity. Qed.

Lemma assignTechToWorkOrder_run (workOrderId techId : string)
    (ls : LocalStorage) :
  assignTechToWorkOrder workOrderId techId ls
  = match updateFirst (fun wo => String.eqb (wo_id wo) workOrderId)
            (withAssignedTech (Some techId)) (work_orders (databaseDoc ls)),
          find (fun t => String.eqb (tech_id t) techId)
            (tech_profiles (databaseDoc ls)) with
    | Some (updated, orders), Some tech =>
        if active tech
        then (Some updated,
              execState (saveStorageData
                           (withWorkOrders (databaseDoc ls) orders)) ls)
        else (None, execState getStorageData ls)
    | _, _ => (None, execState getStorageData ls)
    end.
Proof.
  unfold assignTechToWorkOrder. rewrite bind_getStorageData.
  destruct (updateFirst _ _ _) as [[updated orders]|]; [|reflexivity].
  destruct (find _ _) as [tech|]; [|reflexivity].
  destruct (active tech); [|reflexivity].
  unfold bind, ret. rewrite getStorageData_state. reflexivity.
Qed.

Lemma unassignTechFromWorkOrder_run (workOrderId : string)
    (ls : LocalStorage) :
  unassignTechFromWorkOrder workOrderId ls
  = match updateFirst (fun wo => String.eqb (wo_id wo) workOrderId)
            (withAssignedTech None) (work_orders (databaseDoc ls)) with
    | Some (updated, orders) =>
        (Some updated,
         execState (saveStorageData
                      (withWorkOrders (databaseDoc ls) orders)) ls)
    | None => (None, execState getStorageData ls)
    end.
Proof.
  unfold unassignTechFromWorkOrder. rewrite bind_getStorageData.
  destruct (updateFirst _ _ _) as [[updated orders]|]; [|reflexivity].
  unfold bind, ret. rewrite getStorageData_state. reflexivity.
Qed.

Lemma updateFirst_some {A : Type} (p : A -> bool) (f : A -> A) (l : list A)
    (x : A) :
  find p l = Some x ->
  exists l', updateFirst p f l = Some (f x, l').
Proof.
  induction l as [|z l IH]; simpl; [discriminate|].
  destruct (p z) eqn:Ez.
  - intros H. injection H as <-. eexists. reflexivity.
  - intros H. destruct (IH H) as [l' ->]. eexists. reflexivity.
Qed.

(** Replacing an entry and then replacing it back gives the list again. *)
Lemma updateFirst_undo {A : Type} (p : A -> bool) (f g : A -> A)
    (l l' : list A) (x : A) :
  find p l = Some x ->
  p (f x) = true ->
  g (f x) = x ->
  updateFirst p f l = Some (f x, l') ->
  updateFirst p g l' = Some (x, l).
Proof.
  intros Hfind Hp Hg. revert l' Hfind.
  induction l as [|z l IH]; intros l'; simpl; [discriminate|].
  destruct (p z) eqn:Ez.
  - intros H1 H2. injection H1 as ->. injection H2 as <-.
    simpl. rewrite Hp, Hg. reflexivity.
  - intros H1. destruct (updateFirst p f l) as [[y l0]|] eqn:E;
      [|discriminate].
    intros H2. injection H2 as -> <-.
    simpl. rewrite Ez. rewrite (IH l0 H1 eq_refl). reflexivity.
Qed.

(** How many entries satisfy a test after the first match was
    replaced. *)
Lemma updateFirst_count {A : Type} (p q : A -> bool) (f : A -> A)
    (l l' : list A) (x y : A) :
  find p l = Some x ->
  updateFirst p f l = Some (y, l') ->
  Z.of_nat (List.length (filter q l'))
  = Z.of_nat (List.length (filter q l)) - Z.b2z (q x) + Z.b2z (q (f x)).
Proof.
  revert l' y. induction l as [|z l IH]; intros l' y; simpl; [discriminate|].
  destruct (p z) eqn:Ez.
  - intros H1 H2. injection H1 as ->. injection H2 as <- <-. simpl.
    destruct (q x), (q (f x)); simpl List.length; simpl Z.b2z; lia.
  - intros H1. destruct (updateFirst p f l) as [[w l0]|] eqn:E;
      [|discriminate].
    intros H2. injection H2 as <- <-. simpl.
    pose proof (IH l0 w H1 eq_refl) as Hc.
    destruct (q z); simpl List.length; lia.
Qed.

(** An assignment is refused, with null returned and the stored document
    unchanged, when the work order is unknown, the technician is unknown,
    or the technician is inactive. *)
Theorem assignTechToWorkOrder_refused (workOrderId techId : string)
    (ls : LocalStorage) :
  find (fun wo => String.eqb (wo_id wo) workOrderId)
    (work_orders (databaseDoc ls)) = None
  \/ find (fun t => String.eqb (tech_id t) techId)
       (tech_profiles (databaseDoc ls)) = None
  \/ (exists tech,
        find (fun t => String.eqb (tech_id t) techId)
          (tech_profiles (databaseDoc ls)) = Some tech
        /\ active tech = false) ->
  evalState (assignTechToWorkOrder workOrderId techId) ls = None
  /\ databaseDoc (execState (assignTechToWorkOrder workOrderId techId) ls)
     = databaseDoc ls.
Proof.
  intros H.
  assert (Hrun : assignTechToWorkOrder workOrderId techId ls
                 = (None, execState getStorageData ls)).
  { rewrite assignTechToWorkOrder_run.
    destruct (updateFirst _ _ _) as [[updated orders]|] eqn:E;
      [|reflexivity].
    destruct H as [Hwo | [Htech | (tech & Htech & Hinactive)]].
    - destruct (updateFirst_find _ _ _ _ _ E) as (x & Hx & _). congruence.
    - rewrite Htech. reflexivity.
    - rewrite Htech, Hinactive. reflexivity. }
  unfold evalState, execState. rewrite Hrun. simpl.
  split; [reflexivity | apply databaseDoc_persisted].
Qed.

(** A successful assignment returns the work order with its technician
    set.  When the work order is pending or in progress and was not
    already theirs, the technician has one more active job; technicians
    other than the new and the previous holder keep their count. *)
Theorem assignTechToWorkOrder_workload (workOrderId techId : string)
    (ls : LocalStorage) (workOrder : WorkOrder) (tech : TechProfile) :
  find (fun wo => String.eqb (wo_id wo) workOrderId)
    (work_orders (databaseDoc ls)) = Some workOrder ->
  find (fun t => String.eqb (tech_id t) techId)
    (tech_profiles (databaseDoc ls)) = Some tech ->
  active tech = true ->
  evalState (assignTechToWorkOrder workOrderId techId) ls
  = Some (withAssignedTech (Some techId) workOrder)
  /\ (wo_status workOrder = pending \/ wo_status workOrder = in_progress ->
      assigned_tech workOrder <> Some techId ->
      activeJobCount
        (databaseDoc (execState (assignTechToWorkOrder workOrderId techId) ls))
        techId
      = activeJobCount (databaseDoc ls) techId + 1)
  /\ (forall other,
        other <> techId ->
        assigned_tech workOrder <> Some other ->
        activeJobCount
          (databaseDoc
             (execState (assignTechToWorkOrder workOrderId techId) ls))
          other
        = activeJobCount (databaseDoc ls) other).
Proof.
  intros Hwo Htech Hactive.
  destruct (updateFirst_some _ (withAssignedTech (Some techId)) _ _ Hwo)
    as [orders Hupd].
  assert (Hrun : assignTechToWorkOrder workOrderId techId ls
                 = (Some (withAssignedTech (Some techId) workOrder),
                    execState (saveStorageData
                                 (withWorkOrders (databaseDoc ls) orders)) ls))
    by (rewrite assignTechToWorkOrder_run, Hupd, Htech, Hactive; reflexivity).
  unfold evalState, execState. rewrite Hrun. simpl fst. simpl snd.
  fold (execState (saveStorageData (withWorkOrders (databaseDoc ls) orders))
          ls).
  rewrite databaseDoc_saved. unfold activeJobCount. simpl work_orders.
  split; [reflexivity|]. split.
  - intros Hstatus Hnot.
    rewrite (updateFirst_count _ (isActiveJobOf techId) _ _ _ _ _ Hwo Hupd).
    unfold isActiveJobOf. simpl. rewrite String.eqb_refl.
    destruct (assigned_tech workOrder) as [t|].
    + destruct (String.eqb_spec t techId); [congruence|].
      destruct Hstatus as [-> | ->]; simpl; lia.
    + destruct Hstatus as [-> | ->]; simpl; lia.
  - intros other Hother Hnot.
    rewrite (updateFirst_count _ (isActiveJobOf other) _ _ _ _ _ Hwo Hupd).
    unfold isActiveJobOf. simpl.
    destruct (String.eqb_spec techId other); [congruence|].
    destruct (assigned_tech workOrder) as [t|]; simpl; [|lia].
    destruct (String.eqb_spec t other); [congruence|]. simpl. lia.
Qed.

(** Unassigning undoes an assignment: for a work order that had no
    technician, assigning one and unassigning again returns the work
    order as it was and leaves the stored document as it was (up to the
    [updated_at] stamp, which the model leaves out). *)
Theorem assign_then_unassign_restores (workOrderId techId : string)
    (ls : LocalStorage) (workOrder : WorkOrder) (tech : TechProfile) :
  find (fun wo => String.eqb (wo_id wo) workOrderId)
    (work_orders (databaseDoc ls)) = Some workOrder ->
  assigned_tech workOrder = None ->
  find (fun t => String.eqb (tech_id t) techId)
    (tech_profiles (databaseDoc ls)) = Some tech ->
  active tech = true ->
  evalState (unassignTechFromWorkOrder workOrderId)
    (execState (assignTechToWorkOrder workOrderId techId) ls)
  = Some workOrder
  /\ databaseDoc
       (execState (unassignTechFromWorkOrder workOrderId)
          (execState (assignTechToWorkOrder workOrderId techId) ls))
     = databaseDoc ls.
Proof.
  intros Hwo Hnone Htech Hactive.
  destruct (updateFirst_some _ (withAssignedTech (Some techId)) _ _ Hwo)
    as [orders Hupd].
  assert (Hrun : assignTechToWorkOrder workOrderId techId ls
                 = (Some (withAssignedTech (Some techId) workOrder),
                    execState (saveStorageData
                                 (withWorkOrders (databaseDoc ls) orders)) ls))
    by (rewrite assignTechToWorkOrder_run, Hupd, Htech, Hactive; reflexivity).
  assert (Hback : updateFirst (fun wo => String.eqb (wo_id wo) workOrderId)
                    (withAssignedTech None) orders
                  = Some (workOrder, work_orders (databaseDoc ls))).
  { apply (updateFirst_undo _ (withAssignedTech (Some techId)) _ _ _ _ Hwo).
    - apply find_some in Hwo. simpl. apply Hwo.
    - destruct workOrder. simpl in Hnone. subst. reflexivity.
    - exact Hupd. }
  set (ls1 := execState (assignTechToWorkOrder workOrderId techId) ls).
  assert (Hdoc1 : databaseDoc ls1 = withWorkOrders (databaseDoc ls) orders)
    by (unfold ls1, execState; rewrite Hrun; reflexivity).
  assert (Hrun2 :
    unassignTechFromWorkOrder workOrderId ls1
    = (Some workOrder,
       execState
         (saveStorageData
            (withWorkOrders (withWorkOrders (databaseDoc ls) orders)
               (work_orders (databaseDoc ls)))) ls1)).
  { rewrite unassignTechFromWorkOrder_run, Hdoc1. simpl work_orders.
    rewrite Hback. reflexivity. }
  unfold evalState, execState. rewrite Hrun2. simpl fst. simpl snd.
  split; [reflexivity|].
  fold (execState
          (saveStorageData
             (withWorkOrders (withWorkOrders (databaseDoc ls) orders)
                (work_orders (databaseDoc ls)))) ls1).
  rewrite databaseDoc_saved. destruct (databaseDoc ls); reflexivity.
Qed.

(* ================================================================== *)
(** * Scores, load and the roster *)
(* ================================================================== *)

Lemma workloadAdjustment_step (jobs : Z) :
  0 <= jobs ->
  workloadAdjustment (jobs + 1) <= workloadAdjustment jobs
  /\ (jobs < 4 -> workloadAdjustment (jobs + 1) < workloadAdjustment jobs).
Proof.
  intros H. unfold workloadAdjustment. rewrite !Z.geb_leb.
  repeat match goal with
    | |- context [?a <=? ?b] => destruct (Z.leb_spec a b)
    | |- context [?a =? ?b] => destruct (Z.eqb_spec a b)
    end; lia.
Qed.

Lemma specialtyTier_range (jobText specialty : string) :
  0 <= specialtyTier jobText specialty <= 40.
Proof.
  unfold specialtyTier.
  destruct (includes _ _); [lia|].
  destruct (matchesSpecialtyKeywords _ _); [lia|].
  destruct (matchesSpecialtyCategory _ _); lia.
Qed.

Lemma sumZ_tiers_range (jobText : string) (specs : list string) :
  0 <= sumZ (map (specialtyTier jobText) specs)
  <= 40 * Z.of_nat (List.length specs).
Proof.
  induction specs as [|s specs IH]; simpl; [lia|].
  pose proof (specialtyTier_range jobText s).
  fold (sumZ (map (specialtyTier jobText) specs)). lia.
Qed.

(** The score is never below -60 and never above the sum of the largest
    value of each rule. *)
Theorem scoreTech_bounds (data : StorageData) (workOrder : WorkOrder)
    (tech : TechProfile) (w : TechWorkload) :
  -60 <= scoreTech data workOrder tech w
  /\ scoreTech data workOrder tech w
     <= 25 + 15
        + 5 * Z.of_nat (List.length (match certifications tech with
                                     | Some l => l
                                     | None => []
                                     end))
        + 40 * Z.of_nat (List.length (match specialties tech with
                                      | Some l => l
                                      | None => []
                                      end))
        + 10 + 15.
Proof.
  rewrite scoreTech_additive.
  assert (Hw : -50 <= workloadAdjustment (activeJobs w) <= 25).
  { unfold workloadAdjustment.
    repeat match goal with
      | |- context [if ?b then _ else _] => destruct b
      end; lia. }
  assert (He : 0 <= experienceBonus (hourly_rate tech) <= 15).
  { unfold experienceBonus.
    repeat match goal with
      | |- context [if ?b then _ else _] => destruct b
      end; lia. }
  assert (Hv : 0 <= vehicleAgeBonus data workOrder (hourly_rate tech) <= 10).
  { unfold vehicleAgeBonus. destruct (_ && _); lia. }
  assert (Hu : 0 <= urgencyBonus workOrder (hourly_rate tech) <= 15).
  { unfold urgencyBonus. destruct (_ && _); lia. }
  assert (Hs : -10 <= specialtyAdjustment (jobTextOf workOrder)
                        (specialties tech)
               <= 40 * Z.of_nat (List.length (match specialties tech with
                                              | Some l => l
                                              | None => []
                                              end))).
  { unfold specialtyAdjustment.
    destruct (specialties tech) as [[|s l]|]; simpl List.length; try lia.
    pose proof (sumZ_tiers_range (jobTextOf workOrder) (s :: l)) as Hr.
    simpl List.length in Hr.
    destruct (forallb _ _); lia. }
  unfold certificationBonus in *.
  destruct (certifications tech) as [certs|]; simpl List.length; lia.
Qed.

(** Load balancing: giving a technician one more active job never
    raises their score for any work order, and lowers it as long as they
    had fewer than four active jobs. *)
Theorem assignment_lowers_score (workOrderId techId : string)
    (ls : LocalStorage) (assigned : WorkOrder) (tech : TechProfile)
    (workOrder : WorkOrder) :
  find (fun wo => String.eqb (wo_id wo) workOrderId)
    (work_orders (databaseDoc ls)) = Some assigned ->
  find (fun t => String.eqb (tech_id t) techId)
    (tech_profiles (databaseDoc ls)) = Some tech ->
  active tech = true ->
  wo_status assigned = pending \/ wo_status assigned = in_progress ->
  assigned_tech assigned <> Some techId ->
  score (scoredIn
           (databaseDoc
              (execState (assignTechToWorkOrder workOrderId techId) ls))
           workOrder tech)
  <= score (scoredIn (databaseDoc ls) workOrder tech)
  /\ (activeJobCount (databaseDoc ls) techId < 4 ->
      score (scoredIn
               (databaseDoc
                  (execState (assignTechToWorkOrder workOrderId techId) ls))
               workOrder tech)
      < score (scoredIn (databaseDoc ls) workOrder tech)).
Proof.
  intros Hwo Htech Hactive Hstatus Hnot.
  assert (Hid : tech_id tech = techId).
  { apply find_some in Htech. destruct Htech as [_ H].
    apply String.eqb_eq. exact H. }
  destruct (updateFirst_some _ (withAssignedTech (Some techId)) _ _ Hwo)
    as [orders Hupd].
  assert (Hdoc :
    databaseDoc (execState (assignTechToWorkOrder workOrderId techId) ls)
    = withWorkOrders (databaseDoc ls) orders).
  { unfold execState.
    rewrite assignTechToWorkOrder_run, Hupd, Htech, Hactive. reflexivity. }
  assert (Hcount :
    activeJobCount (withWorkOrders (databaseDoc ls) orders) techId
    = activeJobCount (databaseDoc ls) techId + 1).
  { unfold activeJobCount. simpl work_orders.
    rewrite (updateFirst_count _ (isActiveJobOf techId) _ _ _ _ _ Hwo Hupd).
    unfold isActiveJobOf. simpl. rewrite String.eqb_refl.
    destruct (assigned_tech assigned) as [t|].
    - destruct (String.eqb_spec t techId); [congruence|].
      destruct Hstatus as [-> | ->]; simpl; lia.
    - destruct Hstatus as [-> | ->]; simpl; lia. }
  rewrite Hdoc. unfold scoredIn. cbn [score].
  rewrite !scoreTech_additive.
  change (activeJobs (workloadIn ?d (tech_id tech)))
    with (activeJobCount d (tech_id tech)).
  rewrite Hid, Hcount.
  assert (Hveh : vehicleAgeBonus (withWorkOrders (databaseDoc ls) orders)
                   workOrder (hourly_rate tech)
                 = vehicleAgeBonus (databaseDoc ls) workOrder
                     (hourly_rate tech)) by reflexivity.
  rewrite Hveh.
  assert (Hnonneg : 0 <= activeJobCount (databaseDoc ls) techId)
    by (unfold activeJobCount; lia).
  destruct (workloadAdjustment_step _ Hnonneg) as [Hle Hlt].
  split; [lia|]. intros Hfew. specialize (Hlt Hfew). lia.
Qed.

(** The candidates of a known work order. *)
Lemma suggestTechForWorkOrder_found (workOrderId : string) (ls : LocalStorage)
    (workOrder : WorkOrder) :
  find (fun wo => String.eqb (wo_id wo) workOrderId)
    (work_orders (databaseDoc ls)) = Some workOrder ->
  evalState (suggestTechForWorkOrder workOrderId) ls
  = firstn 5
      (sortBy (fun a b => score b - score a)
         (map (scoredIn (databaseDoc ls) workOrder)
            (filter active (tech_profiles (databaseDoc ls))))).
Proof.
  intros Hwo. rewrite suggestTechForWorkOrder_run, Hwo.
  destruct (filter active (tech_profiles (databaseDoc ls))); reflexivity.
Qed.

Lemma In_firstn {A : Type} (n : nat) (l : list A) (x : A) :
  In x (firstn n l) -> In x l.
Proof.
  revert l. induction n as [|n IH]; intros [|y l] Hin;
    try solve [destruct Hin].
  destruct Hin as [-> | Hin]; [left; reflexivity | right; apply IH, Hin].
Qed.

Lemma suggestTechForWorkOrder_In (workOrderId : string) (ls : LocalStorage)
    (st : ScoredTech) :
  In st (evalState (suggestTechForWorkOrder workOrderId) ls) ->
  exists workOrder,
    find (fun wo => String.eqb (wo_id wo) workOrderId)
      (work_orders (databaseDoc ls)) = Some workOrder
    /\ In (profile st) (tech_profiles (databaseDoc ls))
    /\ active (profile st) = true
    /\ st = scoredIn (databaseDoc ls) workOrder (profile st).
Proof.
  intros Hin.
  destruct (find (fun wo => String.eqb (wo_id wo) workOrderId)
              (work_orders (databaseDoc ls))) as [workOrder|] eqn:Hwo.
  - rewrite (suggestTechForWorkOrder_found _ _ _ Hwo) in Hin.
    exists workOrder. split; [reflexivity|].
    apply In_firstn in Hin.
    apply (Permutation_in _ (sortBy_perm _ _)) in Hin.
    apply in_map_iff in Hin. destruct Hin as (tech & <- & Htech).
    apply filter_In in Htech. destruct Htech as [Hin Hact].
    repeat split; assumption.
  - rewrite suggestTechForWorkOrder_run, Hwo in Hin. destruct Hin.
Qed.

(** Only stored, active technicians are suggested, each with the score
    and workload computed from the stored document; for a known work
    order the list has five entries, or as many as there are active
    technicians when these are fewer. *)
Theorem suggestions_are_active_technicians (workOrderId : string)
    (ls : LocalStorage) :
  (forall st,
     In st (evalState (suggestTechForWorkOrder workOrderId) ls) ->
     In (profile st) (tech_profiles (databaseDoc ls))
     /\ active (profile st) = true
     /\ exists workOrder,
          find (fun wo => String.eqb (wo_id wo) workOrderId)
            (work_orders (databaseDoc ls)) = Some workOrder
          /\ st = scoredIn (databaseDoc ls) workOrder (profile st))
  /\ (forall workOrder,
        find (fun wo => String.eqb (wo_id wo) workOrderId)
          (work_orders (databaseDoc ls)) = Some workOrder ->
        List.length (evalState (suggestTechForWorkOrder workOrderId) ls)
        = Nat.min 5
            (List.length (filter active (tech_profiles (databaseDoc ls))))).
Proof.
  split.
  - intros st Hin.
    destruct (suggestTechForWorkOrder_In _ _ _ Hin)
      as (workOrder & Hwo & Hstored & Hact & Heq).
    split; [exact Hstored|]. split; [exact Hact|].
    exists workOrder. split; assumption.
  - intros workOrder Hwo.
    rewrite (suggestTechForWorkOrder_found _ _ _ Hwo).
    rewrite length_firstn.
    rewrite (Permutation_length (sortBy_perm _ _)), length_map. reflexivity.
Qed.

Lemma deleteTechProfile_run (techId : string) (ls : LocalStorage) :
  deleteTechProfile techId ls
  = if existsb (fun t => String.eqb (tech_id t) techId)
         (tech_profiles (databaseDoc ls))
    then (true,
          execState
            (saveStorageData
               (withTechProfiles (databaseDoc ls)
                  (filter (fun t => negb (String.eqb (tech_id t) techId))
                     (tech_profiles (databaseDoc ls))))) ls)
    else (false, execState getStorageData ls).
Proof.
  unfold deleteTechProfile. rewrite bind_getStorageData.
  assert (Hlen : forall l : list TechProfile,
            Nat.ltb (List.length
                       (filter (fun t => negb (String.eqb (tech_id t) techId))
                          l))
              (List.length l)
            = existsb (fun t => String.eqb (tech_id t) techId) l).
  { induction l as [|t l IH]; [reflexivity|]. simpl.
    pose proof (filter_length_le
                  (fun t => negb (String.eqb (tech_id t) techId)) l) as Hle.
    destruct (String.eqb (tech_id t) techId); simpl.
    - apply Nat.ltb_lt. lia.
    - rewrite <- IH.
      destruct (Nat.ltb_spec
                  (List.length
                     (filter (fun t => negb (String.eqb (tech_id t) techId))
                        l))
                  (List.length l));
        [apply Nat.ltb_lt | apply Nat.ltb_ge]; simpl; lia. }
  rewrite Hlen.
  destruct (existsb _ _); [|reflexivity].
  unfold bind, ret. rewrite getStorageData_state. reflexivity.
Qed.

(** Deleting a technician is a hard removal: it succeeds exactly when
    some stored technician has the id, afterwards the technician cannot
    be looked up and is never suggested, while the work orders are left
    as they are, so jobs assigned to the deleted id keep pointing to it. *)
Theorem deleteTechProfile_hard_removal (techId : string) (ls : LocalStorage) :
  evalState (deleteTechProfile techId) ls
  = existsb (fun t => String.eqb (tech_id t) techId)
      (tech_profiles (databaseDoc ls))
  /\ evalState (getTechProfile techId)
       (execState (deleteTechProfile techId) ls) = None
  /\ (forall workOrderId st,
        In st (evalState (suggestTechForWorkOrder workOrderId)
                 (execState (deleteTechProfile techId) ls)) ->
        tech_id (profile st) <> techId)
  /\ work_orders (databaseDoc (execState (deleteTechProfile techId) ls))
     = work_orders (databaseDoc ls)
  /\ activeJobCount (databaseDoc (execState (deleteTechProfile techId) ls))
       techId
     = activeJobCount (databaseDoc ls) techId.
Proof.
  assert (Hdoc :
    databaseDoc (execState (deleteTechProfile techId) ls)
    = withTechProfiles (databaseDoc ls)
        (filter (fun t => negb (String.eqb (tech_id t) techId))
           (tech_profiles (databaseDoc ls)))).
  { unfold execState. rewrite deleteTechProfile_run.
    destruct (existsb _ _) eqn:E; [reflexivity|].
    simpl snd. fold (execState getStorageData ls).
    rewrite databaseDoc_persisted.
    assert (Hsame : filter (fun t => negb (String.eqb (tech_id t) techId))
                      (tech_profiles (databaseDoc ls))
                    = tech_profiles (databaseDoc ls)).
    { apply forallb_filter_id. apply forallb_forall. intros t Ht.
      destruct (String.eqb (tech_id t) techId) eqn:Et; [|reflexivity].
      assert (Hex : existsb (fun t => String.eqb (tech_id t) techId)
                      (tech_profiles (databaseDoc ls)) = true)
        by (apply existsb_exists; exists t; split; assumption).
      congruence. }
    rewrite Hsame. destruct (databaseDoc ls); reflexivity. }
  assert (Hgone : forall t,
            In t (tech_profiles
                    (databaseDoc (execState (deleteTechProfile techId) ls))) ->
            tech_id t <> techId).
  { intros t Ht. rewrite Hdoc in Ht. simpl in Ht.
    apply filter_In in Ht. destruct Ht as [_ Ht].
    apply negb_true_iff in Ht. apply String.eqb_neq. exact Ht. }
  split; [|split; [|split; [|split]]].
  - unfold evalState. rewrite deleteTechProfile_run.
    destruct (existsb _ _); reflexivity.
  - unfold evalState, getTechProfile. rewrite bind_getStorageData. simpl.
    destruct (find _ _) as [t|] eqn:Ef; [|reflexivity].
    exfalso. apply find_some in Ef. destruct Ef as [Hin Hid].
    apply (Hgone t Hin). apply String.eqb_eq. exact Hid.
  - intros workOrderId st Hin.
    destruct (suggestTechForWorkOrder_In _ _ _ Hin) as (_ & _ & Hstored & _).
    apply Hgone. exact Hstored.
  - rewrite Hdoc. reflexivity.
  - rewrite Hdoc. reflexivity.
Qed.

Lemma updateTechProfile_doc (techId : string) (updates : TechProfileUpdates)
    (ls : LocalStorage) :
  databaseDoc (execState (updateTechProfile techId updates) ls)
  = match updateFirst (fun t => String.eqb (tech_id t) techId)
            (mergeTechProfile updates) (tech_profiles (databaseDoc ls)) with
    | Some (_, techs) => withTechProfiles (databaseDoc ls) techs
    | None => databaseDoc ls
    end.
Proof.
  unfold execState, updateTechProfile. rewrite bind_getStorageData.
  destruct (updateFirst _ _ _) as [[updated techs]|].
  - unfold bind, ret. rewrite getStorageData_state. reflexivity.
  - simpl. apply databaseDoc_persisted.
Qed.

(** With unique technician ids, a technician set to inactive is no
    longer suggested for any work order. *)
Theorem deactivated_technician_not_suggested (techId : string)
    (ls : LocalStorage) (workOrderId : string) (st : ScoredTech) :
  NoDup (map tech_id (tech_profiles (databaseDoc ls))) ->
  In st (evalState (suggestTechForWorkOrder workOrderId)
           (execState (updateTechProfile techId (activeUpdate false)) ls)) ->
  tech_id (profile st) <> techId.
Proof.
  intros Hnd Hin.
  destruct (suggestTechForWorkOrder_In _ _ _ Hin) as (_ & _ & Hstored & Hact & _).
  rewrite updateTechProfile_doc in Hstored.
  destruct (updateFirst _ _ _) as [[updated techs]|] eqn:E.
  - simpl in Hstored.
    destruct (updateFirst_find _ _ _ _ _ E) as (x & _ & Hupd & _).
    destruct (updateFirst_In_unique tech_id techId _ _ _ _ Hnd E _ Hstored)
      as [Heq | [_ Hkey]]; [|exact Hkey].
    exfalso. rewrite Heq, Hupd in Hact. discriminate Hact.
  - intros Hid.
    pose proof (proj1 (updateFirst_none _ _ _) E _ Hstored) as Hp.
    simpl in Hp. rewrite Hid, String.eqb_refl in Hp. discriminate.
Qed.

Lemma signOfDifference_nonpos (x y : Q) :
  (signOfDifference x y <=? 0) = true <-> (x <= y)%Q.
Proof.
  unfold signOfDifference.
  destruct (Qcompare_spec x y) as [Heq | Hlt | Hgt]; simpl.
  - split; [intros _; rewrite Heq; apply Qle_refl | reflexivity].
  - split; [intros _; apply Qlt_le_weak, Hlt | reflexivity].
  - split; [discriminate|].
    intros Hle. exfalso. exact (Qlt_not_le _ _ Hgt Hle).
Qed.

Lemma insertBy_rate_sorted {A : Type} (key : A -> Q) (x : A) (l : list A) :
  StronglySorted (fun a b => (key b <= key a)%Q) l ->
  StronglySorted (fun a b => (key b <= key a)%Q)
    (insertBy (fun a b => signOfDifference (key b) (key a)) x l).
Proof.
  induction l as [|y l IH]; intros Hs; simpl.
  - constructor; constructor.
  - inversion Hs as [|? ? Hl Hy]; subst.
    destruct (signOfDifference (key y) (key x) <=? 0) eqn:E.
    + apply signOfDifference_nonpos in E.
      constructor; [exact Hs|].
      constructor; [exact E|].
      apply Forall_forall. intros z Hz.
      pose proof (proj1 (Forall_forall _ _) Hy z Hz) as Hyz.
      cbv beta in Hyz. exact (Qle_trans _ _ _ Hyz E).
    + assert (Hlt : (key x < key y)%Q).
      { apply Qnot_le_lt. intros Hle.
        apply signOfDifference_nonpos in Hle. congruence. }
      constructor; [apply IH; exact Hl|].
      apply Forall_forall. intros z Hz.
      apply (Permutation_in _ (insertBy_perm _ x l)) in Hz.
      destruct Hz as [<- | Hz]; [apply Qlt_le_weak, Hlt|].
      exact (proj1 (Forall_forall _ _) Hy z Hz).
Qed.

Lemma sortBy_rate_sorted {A : Type} (key : A -> Q) (l : list A) :
  StronglySorted (fun a b => (key b <= key a)%Q)
    (sortBy (fun a b => signOfDifference (key b) (key a)) l).
Proof.
  induction l as [|x l IH]; simpl; [constructor|].
  apply insertBy_rate_sorted, IH.
Qed.

(** The technicians of a specialty are the stored, active technicians
    whose specialty list holds the tag itself (an exact, case-sensitive
    entry, not the keyword matching of the suggestions), each as often as
    it is stored, ordered by hourly rate from the highest down, a missing
    rate counting as 0. *)
Theorem getTechsBySpecialty_sorted_members (specialty : string)
    (ls : LocalStorage) :
  let techs := evalState (getTechsBySpecialty specialty) ls in
  (forall t,
     In t techs
     <-> In t (tech_profiles (databaseDoc ls))
         /\ active t = true
         /\ exists tags, specialties t = Some tags /\ In specialty tags)
  /\ Permutation techs
       (filter (hasSpecialty specialty) (tech_profiles (databaseDoc ls)))
  /\ StronglySorted
       (fun a b =>
          (rateOrZero (hourly_rate b) <= rateOrZero (hourly_rate a))%Q)
       techs.
Proof.
  assert (Hrun : evalState (getTechsBySpecialty specialty) ls
            = sortBy (fun a b =>
                        signOfDifference (rateOrZero (hourly_rate b))
                          (rateOrZero (hourly_rate a)))
                (filter (hasSpecialty specialty)
                   (tech_profiles (databaseDoc ls)))).
  { unfold evalState, getTechsBySpecialty. rewrite bind_getStorageData.
    reflexivity. }
  cbv zeta. rewrite Hrun. split; [|split].
  - intros t. split.
    + intros Hin. apply (Permutation_in _ (sortBy_perm _ _)) in Hin.
      apply filter_In in Hin. destruct Hin as [Hin Hspec].
      unfold hasSpecialty in Hspec. apply andb_true_iff in Hspec.
      destruct Hspec as [Hact Htags].
      split; [exact Hin|]. split; [exact Hact|].
      destruct (specialties t) as [tags|]; [|discriminate].
      exists tags. split; [reflexivity|].
      apply existsb_exists in Htags. destruct Htags as (tag & Htag & Heq).
      apply String.eqb_eq in Heq. subst tag. exact Htag.
    + intros (Hin & Hact & tags & Htags & Htag).
      apply (Permutation_in _ (Permutation_sym (sortBy_perm _ _))).
      apply filter_In. split; [exact Hin|].
      unfold hasSpecialty. rewrite Hact, Htags. simpl.
      apply existsb_exists. exists specialty. split; [exact Htag|].
      apply String.eqb_refl.
  - apply sortBy_perm.
  - apply (sortBy_rate_sorted (fun t => rateOrZero (hourly_rate t))).
Qed.

(** A new technician is stored under the generated id, behind the
    technicians already there: when the id is fresh, a lookup of it
    returns the new profile, and the lookup of every other id is as
    before. *)
Theorem createTechProfile_then_lookup (uuid : string) (techData : TechProfile)
    (ls : LocalStorage) :
  (forall t, In t (tech_profiles (databaseDoc ls)) -> tech_id t <> uuid) ->
  evalState (createTechProfile uuid techData) ls = withTechId uuid techData
  /\ evalState (getTechProfile uuid)
       (execState (createTechProfile uuid techData) ls)
     = Some (withTechId uuid techData)
  /\ (forall other,
        other <> uuid ->
        evalState (getTechProfile other)
          (execState (createTechProfile uuid techData) ls)
        = evalState (getTechProfile other) ls).
Proof.
  intros Hfresh.
  assert (Hrun : createTechProfile uuid techData ls
            = (withTechId uuid techData,
               execState
                 (saveStorageData
                    (withTechProfiles (databaseDoc ls)
                       (tech_profiles (databaseDoc ls)
                        ++ [withTechId uuid techData]))) ls)).
  { unfold createTechProfile. rewrite bind_getStorageData.
    unfold bind, ret. rewrite getStorageData_state. reflexivity. }
  assert (Hget : forall id ls',
            evalState (getTechProfile id) ls'
            = find (fun t => String.eqb (tech_id t) id)
                (tech_profiles (databaseDoc ls'))).
  { intros id ls'. unfold evalState, getTechProfile.
    rewrite bind_getStorageData. reflexivity. }
  assert (Hfind : forall (l : list TechProfile) id,
            find (fun t => String.eqb (tech_id t) id)
              (l ++ [withTechId uuid techData])
            = match find (fun t => String.eqb (tech_id t) id) l with
              | Some t => Some t
              | None => if String.eqb uuid id
                        then Some (withTechId uuid techData) else None
              end).
  { intros l id. induction l as [|t l IH].
    - reflexivity.
    - simpl. destruct (String.eqb (tech_id t) id); [reflexivity | exact IH]. }
  split; [|split].
  - unfold evalState. rewrite Hrun. reflexivity.
  - rewrite Hget. unfold execState. rewrite Hrun. simpl snd.
    rewrite databaseDoc_saved. simpl tech_profiles. rewrite Hfind.
    destruct (find _ _) as [t|] eqn:Ef.
    + exfalso. apply find_some in Ef. destruct Ef as [Hin Hid].
      apply String.eqb_eq in Hid. exact (Hfresh t Hin Hid).
    + rewrite String.eqb_refl. reflexivity.
  - intros other Hother. rewrite !Hget. unfold execState. rewrite Hrun.
    simpl snd. rewrite databaseDoc_saved. simpl tech_profiles. rewrite Hfind.
    destruct (find _ _) as [t|]; [reflexivity|].
    destruct (String.eqb_spec uuid other) as [Heq | _]; [|reflexivity].
    exfalso. apply Hother. symmetry. exact Heq.
Qed.

(* ================================================================== *)
(** * Slots after a booking, and the opening test in minutes *)
(* ================================================================== *)

Lemma slotList_appended (host : Host) (schedule : ShopSchedule)
    (serviceId : string) (serviceDuration : Z) (endTime : Date)
    (appts : list Appointment) (appointment : Appointment) :
  forall (fuel : nat) (currentSlot : Date),
    slotList host schedule serviceId serviceDuration endTime
      (appts ++ [appointment]) fuel currentSlot
    = map (markBooked appointment)
        (slotList host schedule serviceId serviceDuration endTime appts fuel
           currentSlot).
Proof.
  induction fuel as [|fuel IH]; intros cur; simpl; [reflexivity|].
  destruct (cur <? endTime); [|reflexivity].
  destruct (cur + serviceDuration * 60000 >? endTime); [reflexivity|].
  simpl map. rewrite IH. f_equal.
  rewrite scanAppointments_app.
  destruct (overlapsLunch host schedule cur (cur + serviceDuration * 60000));
    [reflexivity|].
  destruct (scanAppointments host cur (cur + serviceDuration * 60000) appts);
    [reflexivity|].
  unfold markBooked. simpl.
  destruct (isCancelled appointment); [reflexivity|].
  destruct (conflictsWith cur (cur + serviceDuration * 60000) appointment);
    reflexivity.
Qed.

(** Booking changes the offer in one way only: for every date, service
    and vehicle year, the slots after [createAppointment] are the slots of
    before, in the same order, with each available slot that the new
    appointment overlaps (unless it is cancelled) turned into an
    unavailable slot with reason ["booked"]. *)
Theorem createAppointment_marks_slots (host : Host) (uuid : string)
    (appointmentData : Appointment) (date : Date) (serviceId : string)
    (vehicleYear : option Z) (ls : LocalStorage) :
  evalState (getAvailableTimeSlots host date serviceId vehicleYear)
    (execState (createAppointment uuid appointmentData) ls)
  = map (markBooked appointmentData)
      (evalState (getAvailableTimeSlots host date serviceId vehicleYear) ls).
Proof.
  assert (Hdoc :
    schedulingDoc (execState (createAppointment uuid appointmentData) ls)
    = withAppointments (schedulingDoc ls)
        (appointments (schedulingDoc ls)
         ++ [withAppointmentId uuid appointmentData])).
  { unfold execState at 1. rewrite createAppointment_run. simpl snd.
    apply schedulingDoc_saved. }
  rewrite !getAvailableTimeSlots_run.
  rewrite (calculateServiceDuration_ext serviceId vehicleYear
             (execState (createAppointment uuid appointmentData) ls) ls)
    by (rewrite !getServiceDuration_eval, Hdoc; reflexivity).
  rewrite !getShopScheduleForDay_eval, Hdoc. simpl shop_schedules.
  simpl appointments.
  destruct (find _ _) as [schedule|]; [|reflexivity].
  destruct (is_closed schedule); [reflexivity|].
  destruct (dayTime host date (open_time schedule)); [|reflexivity].
  destruct (dayTime host date (close_time schedule)); [|reflexivity].
  rewrite slotList_appended. apply map_ext. intros slot.
  unfold markBooked, isCancelled, conflictsWith. reflexivity.
Qed.

(** For a day that is open and whose times are well-formed ["HH:MM"]
    strings, the comparison of wall-clock strings in [isShopOpen] is the
    comparison of minutes of the day: the shop is open from the opening
    minute on, before the closing minute, and outside the lunch window,
    which includes its first minute and excludes its last. *)
Theorem isShopOpen_minutes (host : Host) (dateTime : Date)
    (ls : LocalStorage) (schedule : ShopSchedule)
    (opening closing lunchStart lunchEnd : Z) :
  evalState (getShopScheduleForDay host dateTime) ls = Some schedule ->
  is_closed schedule = false ->
  open_time schedule = clockOfMinutes opening ->
  close_time schedule = clockOfMinutes closing ->
  lunch_start schedule = Some (clockOfMinutes lunchStart) ->
  lunch_end schedule = Some (clockOfMinutes lunchEnd) ->
  0 <= opening < 1440 ->
  0 <= closing < 1440 ->
  0 <= lunchStart < 1440 ->
  0 <= lunchEnd < 1440 ->
  evalState (isShopOpen host dateTime) ls
  = (opening <=? minuteOfDay host dateTime)
    && (minuteOfDay host dateTime <? closing)
    && negb ((lunchStart <=? minuteOfDay host dateTime)
             && (minuteOfDay host dateTime <? lunchEnd)).
Proof.
  intros Hsched Hopen Hot Hct Hls Hle Ho Hc Hs He.
  rewrite isShopOpen_eval, Hsched, Hopen, Hot, Hct, Hls, Hle.
  destruct (clockHHMM_minuteOfDay host dateTime) as [-> Hm].
  rewrite (clockOfMinutes_ltb _ _ Hm Ho), (clockOfMinutes_ltb _ _ Hm Hc),
    (clockOfMinutes_ltb _ _ Hm Hs), (clockOfMinutes_ltb _ _ Hm He).
  assert (Ht : forall m, truthy (Some (clockOfMinutes m)) = true)
    by (intros m; unfold truthy, clockOfMinutes, twoDigits; reflexivity).
  rewrite !Ht.
  repeat match goal with
    | |- context [?a <? ?b] => destruct (Z.ltb_spec a b)
    | |- context [?a <=? ?b] => destruct (Z.leb_spec a b)
    end; simpl; try reflexivity; lia.
Qed.

(* ================================================================== *)
(** * Slots on a host whose clocks change *)
(* ================================================================== *)

Lemma Zoned_LocalTime_steady (zone : Zoned.Zone) (c : Z) (t : Date) :
  Zoned.DaylightSavingTA zone t = c ->
  Zoned.LocalTime zone t = LocalTime (steadyHost zone c) t.
Proof.
  intros H. unfold Zoned.LocalTime, LocalTime, steadyHost. simpl.
  rewrite H. lia.
Qed.

Lemma Zoned_clockHHMM_steady (zone : Zoned.Zone) (c : Z) (t : Date) :
  Zoned.DaylightSavingTA zone t = c ->
  Zoned.clockHHMM zone t = clockHHMM (steadyHost zone c) t.
Proof.
  intros H. unfold Zoned.clockHHMM, clockHHMM.
  rewrite (Zoned_LocalTime_steady zone c t H). reflexivity.
Qed.

Lemma Zoned_getDay_steady (zone : Zoned.Zone) (c : Z) (t : Date) :
  Zoned.DaylightSavingTA zone t = c ->
  Zoned.getDay zone t = getDay (steadyHost zone c) t.
Proof.
  intros H. unfold Zoned.getDay, getDay.
  rewrite (Zoned_LocalTime_steady zone c t H). reflexivity.
Qed.

Lemma Zoned_setHours_steady (zone : Zoned.Zone) (c : Z) (date : Date)
    (hour min : Z) :
  Zoned.DaylightSavingTA zone date = c ->
  Zoned.localAdjustment zone
    (LocalTime (steadyHost zone c)
       (setHours (steadyHost zone c) date hour min 0 0)) = c ->
  Zoned.setHours zone date hour min 0 0
  = setHours (steadyHost zone c) date hour min 0 0.
Proof.
  intros Hd Ha. unfold Zoned.setHours, Zoned.UTC.
  rewrite (Zoned_LocalTime_steady zone c date Hd).
  unfold setHours, UTC, LocalTime in *. simpl LocalTZA in *.
  match type of Ha with
  | Zoned.localAdjustment zone ?x = _ =>
      match goal with
      | |- ?y - _ - Zoned.localAdjustment zone ?y = _ =>
          replace x with y in Ha by lia
      end
  end.
  rewrite Ha. lia.
Qed.

Lemma Zoned_step_steady (zone : Zoned.Zone) (c : Z) (cur : Date) :
  Zoned.DaylightSavingTA zone cur = c ->
  Zoned.localAdjustment zone
    (LocalTime (steadyHost zone c) (cur + 30 * msPerMinute)) = c ->
  Zoned.setMinutes zone cur (Zoned.getMinutes zone cur + 30)
  = cur + 30 * msPerMinute.
Proof.
  intros Hd Ha. unfold Zoned.setMinutes, Zoned.getMinutes, Zoned.UTC.
  rewrite (Zoned_LocalTime_steady zone c cur Hd).
  pose proof (time_decomposition (LocalTime (steadyHost zone c) cur)) as Hdec.
  set (t := LocalTime (steadyHost zone c) cur) in *.
  assert (Hlocal :
    MakeDate (Day t)
      (MakeTime (HourFromTime t) (MinFromTime t + 30) (SecFromTime t)
         (msFromTime t))
    = LocalTime (steadyHost zone c) (cur + 30 * msPerMinute)).
  { unfold MakeDate, MakeTime in *. unfold t, LocalTime in *. lia. }
  rewrite Hlocal, Ha. unfold LocalTime. simpl LocalTZA. lia.
Qed.

Lemma Zoned_overlapsLunch_steady (zone : Zoned.Zone) (c : Z)
    (schedule : ShopSchedule) (slotStart slotEnd : Date) :
  Zoned.DaylightSavingTA zone slotStart = c ->
  Zoned.DaylightSavingTA zone slotEnd = c ->
  Zoned.overlapsLunch zone schedule slotStart slotEnd
  = overlapsLunch (steadyHost zone c) schedule slotStart slotEnd.
Proof.
  intros Hs He. unfold Zoned.overlapsLunch, overlapsLunch.
  rewrite (Zoned_clockHHMM_steady zone c slotStart Hs).
  rewrite (Zoned_clockHHMM_steady zone c slotEnd He). reflexivity.
Qed.

(** The conflict check reads the host only to render its message. *)
Lemma scanAppointments_steadyHost (zone : Zoned.Zone) (c : Z)
    (startTime endTime : Date) (appts : list Appointment) :
  scanAppointments (steadyHost zone c) startTime endTime appts
  = scanAppointments (Zoned.locale zone) startTime endTime appts.
Proof.
  induction appts as [|a appts IH]; simpl; [reflexivity|].
  rewrite IH. reflexivity.
Qed.

(** Once the document is stored, the loop leaves the storage as it is. *)
Lemma Zoned_slotLoop_run (zone : Zoned.Zone) (schedule : ShopSchedule)
    (serviceId : string) (serviceDuration : Z) (endTime : Date)
    (ls : LocalStorage) (d : SchedulingData) :
  shop_scheduling ls = Some d ->
  forall (fuel : nat) (currentSlot : Date),
    Zoned.slotLoop zone schedule serviceId serviceDuration endTime fuel
      currentSlot ls
    = (Zoned.slotList zone schedule serviceId serviceDuration endTime
         (appointments d) fuel currentSlot, ls).
Proof.
  intros Hd. induction fuel as [|fuel IH]; intros cur; simpl; [reflexivity|].
  destruct (cur <? endTime); [|reflexivity].
  destruct (cur + serviceDuration * 60000 >? endTime); [reflexivity|].
  unfold bind at 1.
  destruct (Zoned.overlapsLunch zone schedule cur
              (cur + serviceDuration * 60000)).
  - unfold ret at 1. unfold bind at 1. rewrite IH. reflexivity.
  - unfold bind at 1. rewrite checkAppointmentConflict_run.
    rewrite (schedulingDoc_stored ls d Hd).
    unfold execState. rewrite (getSchedulingData_stored ls d Hd). simpl.
    destruct (scanAppointments (Zoned.locale zone) cur
                (cur + serviceDuration * 60000) (appointments d));
      unfold ret at 1; unfold bind at 1; rewrite IH; reflexivity.
Qed.

Lemma Zoned_getShopScheduleForDay_run (zone : Zoned.Zone) (date : Date)
    (ls : LocalStorage) :
  Zoned.getShopScheduleForDay zone date ls
  = (find (fun schedule => day_of_week schedule =? Zoned.getDay zone date)
       (shop_schedules (schedulingDoc ls)),
     execState getSchedulingData ls).
Proof.
  unfold Zoned.getShopScheduleForDay. rewrite bind_getSchedulingData.
  reflexivity.
Qed.

Lemma Zoned_getShopScheduleForDay_eval (zone : Zoned.Zone) (date : Date)
    (ls : LocalStorage) :
  evalState (Zoned.getShopScheduleForDay zone date) ls
  = find (fun schedule => day_of_week schedule =? Zoned.getDay zone date)
      (shop_schedules (schedulingDoc ls)).
Proof.
  unfold evalState. rewrite Zoned_getShopScheduleForDay_run. reflexivity.
Qed.

Lemma Zoned_getAvailableTimeSlots_run (zone : Zoned.Zone) (fuel : nat)
    (date : Date) (serviceId : string) (vehicleYear : option Z)
    (ls : LocalStorage) :
  evalState (Zoned.getAvailableTimeSlots zone fuel date serviceId vehicleYear)
    ls
  = match evalState (Zoned.getShopScheduleForDay zone date) ls with
    | None => Some []
    | Some schedule =>
        if is_closed schedule then Some []
        else
          match Zoned.dayTime zone date (open_time schedule),
                Zoned.dayTime zone date (close_time schedule) with
          | Some startTime, Some endTime =>
              Zoned.slotList zone schedule serviceId
                (evalState (calculateServiceDuration serviceId vehicleYear) ls)
                endTime (appointments (schedulingDoc ls)) fuel startTime
          | _, _ => Some []
          end
    end.
Proof.
  unfold evalState at 1. unfold Zoned.getAvailableTimeSlots. unfold bind at 1.
  unfold evalState at 1.
  rewrite Zoned_getShopScheduleForDay_run. simpl.
  destruct (find _ _) as [schedule|]; [|reflexivity].
  destruct (is_closed schedule); [reflexivity|].
  unfold bind.
  pose proof (calculateServiceDuration_persisted serviceId vehicleYear ls)
    as Hd.
  pose proof (calculateServiceDuration_state serviceId vehicleYear
                (execState getSchedulingData ls)) as Hs.
  rewrite execState_getSchedulingData_idem in Hs.
  unfold evalState at 1 in Hd. unfold execState at 1 in Hs.
  destruct (calculateServiceDuration serviceId vehicleYear
              (execState getSchedulingData ls)) as [dur ls'].
  simpl in Hd, Hs. subst dur ls'.
  destruct (Zoned.dayTime zone date (open_time schedule)) as [startTime|];
    [|reflexivity].
  destruct (Zoned.dayTime zone date (close_time schedule)) as [endTime|];
    [|reflexivity].
  rewrite (Zoned_slotLoop_run zone schedule serviceId _ endTime _ _
             (getSchedulingData_persists ls)).
  reflexivity.
Qed.

(** More iterations do not change a result that was reached. *)
Lemma Zoned_slotList_more_fuel (zone : Zoned.Zone) (schedule : ShopSchedule)
    (serviceId : string) (serviceDuration : Z) (endTime : Date)
    (appts : list Appointment) (extra : nat) :
  forall (fuel : nat) (currentSlot : Date) (slots : list TimeSlot),
    Zoned.slotList zone schedule serviceId serviceDuration endTime appts fuel
      currentSlot = Some slots ->
    Zoned.slotList zone schedule serviceId serviceDuration endTime appts
      (fuel + extra) currentSlot = Some slots.
Proof.
  induction fuel as [|fuel IH]; intros cur slots; simpl; [discriminate|].
  destruct (cur <? endTime); [|trivial].
  destruct (cur + serviceDuration * 60000 >? endTime); [trivial|].
  destruct (Zoned.slotList zone schedule serviceId serviceDuration endTime
              appts fuel _) as [rest|] eqn:E; [|discriminate].
  rewrite (IH _ _ E). trivial.
Qed.

(** While the clocks do not change, the loop over the zone pushes the
    slots of the loop over the host with the constant offset, and reaches
    the closing time within the iterations that this takes. *)
Lemma Zoned_slotList_steady (zone : Zoned.Zone) (c : Z) (lo hi : Date)
    (schedule : ShopSchedule) (serviceId : string) (serviceDuration : Z)
    (endTime : Date) (appts : list Appointment) :
  steadyBetween zone c lo hi ->
  0 <= serviceDuration ->
  endTime + 30 * msPerMinute <= hi ->
  forall (fuel : nat) (currentSlot : Date),
    lo <= currentSlot ->
    Z.max 0 ((endTime - currentSlot) / (30 * msPerMinute) + 1)
    < Z.of_nat fuel ->
    Zoned.slotList zone schedule serviceId serviceDuration endTime appts fuel
      currentSlot
    = Some (slotList (steadyHost zone c) schedule serviceId serviceDuration
              endTime appts fuel currentSlot).
Proof.
  intros Hsteady Hdur Hhi. unfold msPerMinute in *.
  induction fuel as [|fuel IH]; intros cur Hlo Hfuel; [lia|].
  simpl.
  destruct (Z.ltb_spec cur endTime) as [Hlt|Hge]; [|reflexivity].
  destruct (Z.gtb_spec (cur + serviceDuration * 60000) endTime) as [Hgt|Hle];
    [reflexivity|].
  destruct (Hsteady cur ltac:(lia)) as [Hcur _].
  destruct (Hsteady (cur + serviceDuration * 60000) ltac:(lia)) as [Hend _].
  destruct (Hsteady (cur + 30 * 60000) ltac:(lia)) as [_ Hnext].
  rewrite (Zoned_overlapsLunch_steady zone c schedule _ _ Hcur Hend).
  rewrite (Zoned_step_steady zone c cur Hcur Hnext).
  rewrite scanAppointments_steadyHost.
  unfold msPerMinute.
  rewrite IH; [reflexivity | lia |].
  assert (Hdiv : (endTime - (cur + 30 * 60000)) / (30 * 60000)
                 = (endTime - cur) / (30 * 60000) - 1).
  { replace (endTime - (cur + 30 * 60000))
      with (endTime - cur + (-1) * (30 * 60000)) by lia.
    rewrite Z.div_add by lia. lia. }
  assert (Hpos : 0 <= (endTime - cur) / (30 * 60000))
    by (apply Z.div_pos; lia).
  lia.
Qed.

Lemma localMidnight_bounds (zone : Zoned.Zone) (c : Z) (date : Date) :
  localMidnight zone c date <= date < localMidnight zone c date + msPerDay.
Proof.
  unfold localMidnight. rewrite setHours_base.
  unfold LocalTime, Day, msPerDay, msPerHour, msPerMinute.
  set (x := date + LocalTZA (steadyHost zone c)).
  pose proof (Z.div_mod x 86400000 ltac:(lia)) as Hx.
  pose proof (Z.mod_pos_bound x 86400000 ltac:(lia)) as Hb.
  unfold x in *. lia.
Qed.

(** The instant at which the clock of a steady host shows a well-formed
    ["HH:MM"] time on the day of a date. *)
Lemma dayTime_clockOfMinutes (host : Host) (date : Date) (m : Z) :
  0 <= m < 1440 ->
  dayTime host date (clockOfMinutes m)
  = Some (setHours host date 0 0 0 0 + m * msPerMinute).
Proof.
  intros Hm. unfold dayTime. rewrite (hourMinute_clockOfMinutes m Hm).
  rewrite !setHours_base.
  pose proof (Z.div_mod m 60 ltac:(lia)).
  f_equal. unfold msPerHour, msPerMinute. lia.
Qed.

Lemma Zoned_dayTime_steady (zone : Zoned.Zone) (c : Z) (date : Date) (m : Z) :
  steadyDay zone c date ->
  0 <= m < 1440 ->
  Zoned.dayTime zone date (clockOfMinutes m)
  = Some (localMidnight zone c date + m * msPerMinute).
Proof.
  intros Hsteady Hm.
  pose proof (dayTime_clockOfMinutes (steadyHost zone c) date m Hm) as Hold.
  unfold dayTime in Hold. unfold Zoned.dayTime.
  rewrite (hourMinute_clockOfMinutes m Hm) in *.
  injection Hold as Hold. fold (localMidnight zone c date) in Hold.
  pose proof (localMidnight_bounds zone c date) as Hb.
  destruct (Hsteady date) as [Hdate _];
    [unfold msPerDay, msPerMinute in *; lia|].
  destruct (Hsteady (localMidnight zone c date + m * msPerMinute)) as [_ Hadj];
    [unfold msPerDay, msPerMinute in *; lia|].
  rewrite <- Hold in Hadj.
  rewrite (Zoned_setHours_steady zone c date _ _ Hdate Hadj).
  rewrite Hold. reflexivity.
Qed.

(** On a local day without a clock change, for opening hours written
    as ["HH:MM"] and a service that takes no negative time, 49 iterations
    are enough and the slots over the zone are the slots over the host
    with the constant offset. *)
Lemma Zoned_slots_steady (zone : Zoned.Zone) (c : Z) (date : Date)
    (fuel : nat) (serviceId : string) (vehicleYear : option Z)
    (ls : LocalStorage) (schedule : ShopSchedule) (opening closing : Z) :
  steadyDay zone c date ->
  evalState (Zoned.getShopScheduleForDay zone date) ls = Some schedule ->
  open_time schedule = clockOfMinutes opening ->
  close_time schedule = clockOfMinutes closing ->
  0 <= opening < 1440 ->
  0 <= closing < 1440 ->
  0 <= evalState (calculateServiceDuration serviceId vehicleYear) ls ->
  (49 <= fuel)%nat ->
  evalState (getShopScheduleForDay (steadyHost zone c) date) ls
  = Some schedule
  /\ evalState (Zoned.getAvailableTimeSlots zone fuel date serviceId
                  vehicleYear) ls
     = Some (evalState (getAvailableTimeSlots (steadyHost zone c) date
                          serviceId vehicleYear) ls).
Proof.
  intros Hsteady Hsched Hopen Hclose Ho Hc Hdur Hfuel.
  pose proof (localMidnight_bounds zone c date) as Hb.
  destruct (Hsteady date) as [Hdate _];
    [unfold msPerDay, msPerMinute in *; lia|].
  assert (Hsched' :
    evalState (getShopScheduleForDay (steadyHost zone c) date) ls
    = Some schedule).
  { rewrite getShopScheduleForDay_eval.
    rewrite <- (Zoned_getDay_steady zone c date Hdate).
    rewrite <- Zoned_getShopScheduleForDay_eval. exact Hsched. }
  split; [exact Hsched'|].
  rewrite Zoned_getAvailableTimeSlots_run, getAvailableTimeSlots_run.
  rewrite Hsched, Hsched'.
  destruct (is_closed schedule); [reflexivity|].
  rewrite Hopen, Hclose.
  rewrite (Zoned_dayTime_steady zone c date opening Hsteady Ho).
  rewrite (Zoned_dayTime_steady zone c date closing Hsteady Hc).
  rewrite (dayTime_clockOfMinutes _ date opening Ho).
  rewrite (dayTime_clockOfMinutes _ date closing Hc).
  fold (localMidnight zone c date).
  set (base := localMidnight zone c date) in *.
  assert (Hsteps : (base + closing * msPerMinute
                    - (base + opening * msPerMinute)) / (30 * msPerMinute)
                   <= 47).
  { unfold msPerMinute.
    replace (base + closing * 60000 - (base + opening * 60000))
      with ((closing - opening) * 60000) by lia.
    assert ((closing - opening) * 60000 / (30 * 60000) < 48)
      by (apply Z.div_lt_upper_bound; lia).
    lia. }
  rewrite (Zoned_slotList_steady zone c base
             (base + msPerDay + 30 * msPerMinute));
    [| exact Hsteady | exact Hdur
     | unfold msPerDay, msPerMinute; lia
     | unfold msPerMinute; lia
     | lia ].
  f_equal.
  set (n := slotFuel (base + opening * msPerMinute)
              (base + closing * msPerMinute)).
  replace fuel with (n + (fuel - n))%nat by (unfold n, slotFuel; lia).
  apply slotFuel_enough.
Qed.

(** A result reached with some number of iterations is the one reached
    with more. *)
Lemma Zoned_slots_more_fuel (zone : Zoned.Zone) (fuel extra : nat)
    (date : Date) (serviceId : string) (vehicleYear : option Z)
    (ls : LocalStorage) (slots : list TimeSlot) :
  evalState (Zoned.getAvailableTimeSlots zone fuel date serviceId vehicleYear)
    ls = Some slots ->
  evalState (Zoned.getAvailableTimeSlots zone (fuel + extra) date serviceId
               vehicleYear) ls = Some slots.
Proof.
  rewrite !Zoned_getAvailableTimeSlots_run.
  destruct (evalState (Zoned.getShopScheduleForDay zone date) ls)
    as [schedule|]; [|trivial].
  destruct (is_closed schedule); [trivial|].
  destruct (Zoned.dayTime zone date (open_time schedule)); [|trivial].
  destruct (Zoned.dayTime zone date (close_time schedule)); [|trivial].
  apply Zoned_slotList_more_fuel.
Qed.

Lemma Zoned_isShopOpen_steady (zone : Zoned.Zone) (c : Z) (dateTime : Date)
    (ls : LocalStorage) :
  Zoned.DaylightSavingTA zone dateTime = c ->
  evalState (Zoned.isShopOpen zone dateTime) ls
  = evalState (isShopOpen (steadyHost zone c) dateTime) ls.
Proof.
  intros Hd. rewrite isShopOpen_eval, getShopScheduleForDay_eval.
  rewrite <- (Zoned_getDay_steady zone c dateTime Hd).
  rewrite <- (Zoned_clockHHMM_steady zone c dateTime Hd).
  unfold evalState at 1. unfold Zoned.isShopOpen. unfold bind.
  rewrite Zoned_getShopScheduleForDay_run. simpl.
  destruct (find _ _) as [schedule|]; [|reflexivity].
  destruct (is_closed schedule); [reflexivity|].
  destruct (_ || _); [reflexivity|].
  destruct (lunch_start schedule), (lunch_end schedule); try reflexivity.
  destruct (_ && _); reflexivity.
Qed.

(** The slots of a steady host start within the local day. *)
Lemma slot_starts_within_day (host : Host) (date : Date)
    (serviceId : string) (vehicleYear : option Z) (ls : LocalStorage)
    (schedule : ShopSchedule) (opening closing : Z) (slot : TimeSlot) :
  evalState (getShopScheduleForDay host date) ls = Some schedule ->
  open_time schedule = clockOfMinutes opening ->
  close_time schedule = clockOfMinutes closing ->
  0 <= opening < 1440 ->
  0 <= closing < 1440 ->
  In slot (evalState (getAvailableTimeSlots host date serviceId vehicleYear)
             ls) ->
  setHours host date 0 0 0 0 <= slot_start slot
  < setHours host date 0 0 0 0 + msPerDay.
Proof.
  intros Hsched Hopen Hclose Ho Hc Hin.
  rewrite getAvailableTimeSlots_run, Hsched in Hin.
  destruct (is_closed schedule); [destruct Hin|].
  rewrite Hopen, Hclose in Hin.
  rewrite (dayTime_clockOfMinutes host date opening Ho) in Hin.
  rewrite (dayTime_clockOfMinutes host date closing Hc) in Hin.
  pose proof (slotList_start_before_close _ _ _ _ _ _ _ _ _ Hin) as Hbefore.
  destruct (slotList_In _ _ _ _ _ _ _ _ _ Hin) as ((k & Hk & Hstart) & _).
  unfold msPerDay, msPerMinute in *. lia.
Qed.

(** No candidate that fits is left out, on a local day without a clock
    change: for opening hours written as ["HH:MM"] and a service that
    takes no negative time, the loop ends within 49 iterations, and every
    minute [opening + 30 k] of the day that lies before the closing minute
    and whose slot ends by the closing minute starts a returned slot. *)
Theorem getAvailableTimeSlots_complete (zone : Zoned.Zone) (c : Z)
    (date : Date) (fuel : nat) (serviceId : string) (vehicleYear : option Z)
    (ls : LocalStorage) (schedule : ShopSchedule) (opening closing k : Z) :
  steadyDay zone c date ->
  evalState (Zoned.getShopScheduleForDay zone date) ls = Some schedule ->
  is_closed schedule = false ->
  open_time schedule = clockOfMinutes opening ->
  close_time schedule = clockOfMinutes closing ->
  0 <= opening < 1440 ->
  0 <= closing < 1440 ->
  0 <= evalState (calculateServiceDuration serviceId vehicleYear) ls ->
  (49 <= fuel)%nat ->
  0 <= k ->
  opening + 30 * k < closing ->
  opening + 30 * k
  + evalState (calculateServiceDuration serviceId vehicleYear) ls
  <= closing ->
  exists slots slot,
    evalState (Zoned.getAvailableTimeSlots zone fuel date serviceId
                 vehicleYear) ls = Some slots
    /\ In slot slots
    /\ slot_start slot
       = localMidnight zone c date + (opening + 30 * k) * msPerMinute.
Proof.
  intros Hsteady Hsched Hopenday Hopen Hclose Ho Hc Hdur Hfuel Hk Hlt Hfit.
  destruct (Zoned_slots_steady zone c date fuel serviceId vehicleYear ls
              schedule opening closing Hsteady Hsched Hopen Hclose Ho Hc Hdur
              Hfuel) as [Hsched' Hslots].
  destruct (complete_on_steady_host (steadyHost zone c) date serviceId
              vehicleYear ls schedule
              (localMidnight zone c date + opening * msPerMinute)
              (localMidnight zone c date + closing * msPerMinute) k)
    as (slot & Hin & Hstart).
  - exact Hsched'.
  - exact Hopenday.
  - rewrite Hopen. apply dayTime_clockOfMinutes. exact Ho.
  - rewrite Hclose. apply dayTime_clockOfMinutes. exact Hc.
  - exact Hk.
  - unfold msPerMinute. lia.
  - unfold msPerMinute. lia.
  - exists (evalState (getAvailableTimeSlots (steadyHost zone c) date
                         serviceId vehicleYear) ls), slot.
    split; [exact Hslots|]. split; [exact Hin|].
    rewrite Hstart. unfold msPerMinute. lia.
Qed.

(** On the Sunday on which the clocks go back the candidates are not
    every 30 minutes: after the slot at 01:30 daylight time (05:30 UTC)
    the loop sets the wall clock to 02:00, which is 07:00 UTC, and the
    instants 06:00 and 06:30 UTC start no slot. *)
Lemma clock_change_skips_candidates :
  option_map (map slot_start)
    (evalState (Zoned.getAvailableTimeSlots easternAutumn2026 49
                  fallBackSunday "oil-change" None) nightShiftStorage)
  = Some (map (fun m => 20758 * msPerDay + m * msPerMinute)
            [240; 270; 300; 330; 420; 450; 480; 510]).
Proof. vm_compute. reflexivity. Qed.

(** Every slot offered as available starts at a moment when
    [isShopOpen] holds, on a local day without a clock change, for a
    schedule whose opening, closing and lunch times are well-formed
    ["HH:MM"] strings (or that has no lunch window) and a service of
    positive duration. *)
Theorem available_slot_is_open (zone : Zoned.Zone) (c : Z) (date : Date)
    (fuel : nat) (serviceId : string) (vehicleYear : option Z)
    (ls : LocalStorage) (schedule : ShopSchedule) (opening closing : Z)
    (slots : list TimeSlot) (slot : TimeSlot) :
  steadyDay zone c date ->
  evalState (Zoned.getShopScheduleForDay zone date) ls = Some schedule ->
  open_time schedule = clockOfMinutes opening ->
  close_time schedule = clockOfMinutes closing ->
  0 <= opening < 1440 ->
  0 <= closing < 1440 ->
  (truthy (lunch_start schedule) && truthy (lunch_end schedule) = false
   \/ exists lunchStart lunchEnd,
        lunch_start schedule = Some (clockOfMinutes lunchStart)
        /\ lunch_end schedule = Some (clockOfMinutes lunchEnd)
        /\ 0 <= lunchStart < 1440 /\ 0 <= lunchEnd < 1440) ->
  0 < evalState (calculateServiceDuration serviceId vehicleYear) ls ->
  evalState (Zoned.getAvailableTimeSlots zone fuel date serviceId vehicleYear)
    ls = Some slots ->
  In slot slots ->
  available slot = true ->
  evalState (Zoned.isShopOpen zone (slot_start slot)) ls = true.
Proof.
  intros Hsteady Hsched Hopen Hclose Ho Hc Hlunch Hdur Hslots Hin Havail.
  destruct (Zoned_slots_steady zone c date (fuel + 49) serviceId vehicleYear
              ls schedule opening closing Hsteady Hsched Hopen Hclose Ho Hc
              ltac:(lia) ltac:(lia)) as [Hsched' Hsteadyslots].
  rewrite (Zoned_slots_more_fuel zone fuel 49 date serviceId vehicleYear ls
             slots Hslots) in Hsteadyslots.
  injection Hsteadyslots as Hsame. rewrite Hsame in Hin.
  pose proof (slot_starts_within_day (steadyHost zone c) date serviceId
                vehicleYear ls schedule opening closing slot Hsched' Hopen
                Hclose Ho Hc Hin) as Hday.
  fold (localMidnight zone c date) in Hday.
  destruct (Hsteady (slot_start slot)) as [Hstart _];
    [unfold msPerDay, msPerMinute in *; lia|].
  rewrite (Zoned_isShopOpen_steady zone c (slot_start slot) ls Hstart).
  exact (available_is_open_on_steady_host (steadyHost zone c) date serviceId
           vehicleYear ls schedule opening closing slot Hsched' Hopen Hclose
           Ho Hc Hlunch Hdur Hin Havail).
Qed.

(** On the Sunday on which the clocks go back the two tests disagree:
    the slot at 01:30 daylight time ends at 01:00 standard time, so the
    lunch test on the wall-clock strings lets it pass as available, while
    [isShopOpen] places its start in the break from 01:15 to 01:45. *)
Lemma clock_change_offers_closed_slot :
  (exists slots slot,
     evalState (Zoned.getAvailableTimeSlots easternAutumn2026 49
                  fallBackSunday "oil-change" None) nightShiftStorage
     = Some slots
     /\ In slot slots
     /\ slot_start slot = fallBackSunday + 30 * msPerMinute
     /\ available slot = true)
  /\ evalState (Zoned.isShopOpen easternAutumn2026
                  (fallBackSunday + 30 * msPerMinute)) nightShiftStorage
     = false.
Proof.
  split; [|vm_compute; reflexivity].
  eexists. eexists. split; [vm_compute; reflexivity|].
  split; [do 3 right; left; reflexivity|].
  split; vm_compute; reflexivity.
Qed.

(* ================================================================== *)
(** * Instances of the store properties *)
(* ================================================================== *)

Ltac decide_In :=
  vm_compute; repeat (first [left; reflexivity | right]).

Ltac fresh_among :=
  let a := fresh "a" in
  let Ha := fresh "Ha" in
  let Hid := fresh "Hid" in
  intros a Ha; vm_compute in Ha;
  repeat (destruct Ha as [<- | Ha]; [intros Hid; vm_compute in Hid;
                                     discriminate Hid|]);
  destruct Ha.

Ltac distinct_strings :=
  vm_compute;
  repeat (constructor; [simpl; intuition discriminate|]);
  constructor.

Lemma createAppointment_books_interval_witness :
  evalState (checkAppointmentConflict hostUTC
               (scheduled_start confirmedAt10) (scheduled_end confirmedAt10))
    (execState (createAppointment "appt-9" confirmedAt10) emptyStorage)
  <> None.
Proof.
  apply (createAppointment_books_interval hostUTC "appt-9" confirmedAt10
           emptyStorage).
  - discriminate.
  - vm_compute. reflexivity.
Defined.

Lemma updateAppointment_unknown_id_witness :
  evalState (updateAppointment "appt-9" (statusUpdate appt_cancelled))
    bookedStorage = None
  /\ execState (updateAppointment "appt-9" (statusUpdate appt_cancelled))
       bookedStorage
     = execState getSchedulingData bookedStorage
  /\ schedulingDoc
       (execState (updateAppointment "appt-9" (statusUpdate appt_cancelled))
          bookedStorage)
     = schedulingDoc bookedStorage.
Proof.
  apply (updateAppointment_unknown_id "appt-9" (statusUpdate appt_cancelled)
           bookedStorage).
  fresh_among.
Defined.

Lemma cancel_frees_interval_witness :
  evalState (checkAppointmentConflict hostUTC (mondayAt 10 0) (mondayAt 10 15))
    (execState (updateAppointment (appt_id confirmedAt10)
                  (statusUpdate appt_cancelled))
       bookedStorage)
  = None.
Proof.
  apply (cancel_frees_interval hostUTC confirmedAt10 (mondayAt 10 0)
           (mondayAt 10 15) bookedStorage).
  - distinct_strings.
  - decide_In.
  - intros b Hb Hactive Hstart Hend. vm_compute in Hb.
    destruct Hb as [<- | [<- | [<- | []]]].
    + exfalso. apply Hactive. reflexivity.
    + reflexivity.
    + vm_compute in Hend. discriminate Hend.
Defined.

Lemma create_then_cancel_restores_witness :
  (forall startTime endTime,
     evalState (checkAppointmentConflict hostUTC startTime endTime)
       (execState (updateAppointment "appt-9" (statusUpdate appt_cancelled))
          (execState (createAppointment "appt-9" confirmedAt10)
             bookedStorage))
     = evalState (checkAppointmentConflict hostUTC startTime endTime)
         bookedStorage)
  /\ (forall date serviceId vehicleYear,
        evalState (getAvailableTimeSlots hostUTC date serviceId vehicleYear)
          (execState (updateAppointment "appt-9" (statusUpdate appt_cancelled))
             (execState (createAppointment "appt-9" confirmedAt10)
                bookedStorage))
        = evalState (getAvailableTimeSlots hostUTC date serviceId vehicleYear)
            bookedStorage).
Proof.
  apply (create_then_cancel_restores hostUTC "appt-9" confirmedAt10
           bookedStorage).
  fresh_among.
Defined.

Lemma updateShopSchedule_other_day_witness :
  evalState (getAvailableTimeSlots hostUTC monday "oil-change" None)
    (execState (updateShopSchedule 2 (closedUpdate true)) emptyStorage)
  = evalState (getAvailableTimeSlots hostUTC monday "oil-change" None)
      emptyStorage.
Proof.
  apply (updateShopSchedule_other_day hostUTC monday 2 (closedUpdate true)
           "oil-change" None emptyStorage).
  - vm_compute. discriminate.
  - discriminate.
Defined.

Lemma updateServiceDuration_then_read_witness :
  evalState (calculateServiceDuration "oil-change" None)
    (execState (updateServiceDuration "oil-change" (estimatedMinutesUpdate 45))
       emptyStorage)
  = 45.
Proof.
  destruct (proj1 (updateServiceDuration_then_read "oil-change"
                     (estimatedMinutesUpdate 45) emptyStorage eq_refl)
              _ eq_refl) as (_ & _ & Hread).
  exact Hread.
Defined.

Lemma getAppointments_sorted_range_witness :
  In confirmedAt10
    (evalState (getAppointments (Some (mondayAt 10 0)) (Some (mondayAt 10 15)))
       bookedStorage).
Proof.
  apply (proj2 (proj2 (getAppointments_sorted_range
                         (Some (mondayAt 10 0)) (Some (mondayAt 10 15))
                         bookedStorage))).
  split; [decide_In|].
  split; intros t Ht; injection Ht as <-; vm_compute; discriminate.
Defined.

Lemma isValidVin_iff_witness : isValidVin exampleVin = true.
Proof.
  apply (proj2 (proj1 (isValidVin_iff exampleVin))).
  split; vm_compute; reflexivity.
Defined.

Lemma formatVin_then_cleanVin_witness :
  cleanVin (formatVin exampleVin) = toUpperCase exampleVin
  /\ isValidVin (cleanVin (formatVin exampleVin)) = true.
Proof.
  apply (proj2 (formatVin_then_cleanVin exampleVin)).
  vm_compute. reflexivity.
Defined.

Lemma assignTechToWorkOrder_refused_witness :
  evalState (assignTechToWorkOrder "wo-none" "tech-001") busyStorage = None
  /\ databaseDoc
       (execState (assignTechToWorkOrder "wo-none" "tech-001") busyStorage)
     = databaseDoc busyStorage.
Proof.
  apply (assignTechToWorkOrder_refused "wo-none" "tech-001" busyStorage).
  left. vm_compute. reflexivity.
Defined.

Lemma assignTechToWorkOrder_workload_witness :
  activeJobCount
    (databaseDoc
       (execState (assignTechToWorkOrder "wo-flat" "tech-001") busyStorage))
    "tech-001"
  = activeJobCount (databaseDoc busyStorage) "tech-001" + 1.
Proof.
  apply (proj1 (proj2 (assignTechToWorkOrder_workload "wo-flat" "tech-001"
                         busyStorage flatTyreJob mikeJohnson
                         ltac:(vm_compute; reflexivity)
                         ltac:(vm_compute; reflexivity) eq_refl))).
  - left. reflexivity.
  - discriminate.
Defined.

Lemma assign_then_unassign_restores_witness :
  evalState (unassignTechFromWorkOrder "wo-flat")
    (execState (assignTechToWorkOrder "wo-flat" "tech-001") busyStorage)
  = Some flatTyreJob
  /\ databaseDoc
       (execState (unassignTechFromWorkOrder "wo-flat")
          (execState (assignTechToWorkOrder "wo-flat" "tech-001") busyStorage))
     = databaseDoc busyStorage.
Proof.
  apply (assign_then_unassign_restores "wo-flat" "tech-001" busyStorage
           flatTyreJob mikeJohnson).
  - vm_compute. reflexivity.
  - reflexivity.
  - vm_compute. reflexivity.
  - reflexivity.
Defined.

Lemma assignment_lowers_score_witness :
  score (scoredIn
           (databaseDoc
              (execState (assignTechToWorkOrder "wo-flat" "tech-001")
                 busyStorage))
           brakeJob mikeJohnson)
  < score (scoredIn (databaseDoc busyStorage) brakeJob mikeJohnson).
Proof.
  apply (proj2 (assignment_lowers_score "wo-flat" "tech-001" busyStorage
                  flatTyreJob mikeJohnson brakeJob
                  ltac:(vm_compute; reflexivity)
                  ltac:(vm_compute; reflexivity) eq_refl
                  (or_introl eq_refl) ltac:(discriminate))).
  vm_compute. reflexivity.
Defined.

Lemma suggestions_are_active_technicians_witness :
  List.length (evalState (suggestTechForWorkOrder "wo-flat") busyStorage)
  = Nat.min 5
      (List.length (filter active (tech_profiles (databaseDoc busyStorage)))).
Proof.
  apply (proj2 (suggestions_are_active_technicians "wo-flat" busyStorage)
           flatTyreJob).
  vm_compute. reflexivity.
Defined.

Lemma deleteTechProfile_hard_removal_witness :
  tech_id
    (profile
       (scoredIn
          (databaseDoc (execState (deleteTechProfile "tech-002") busyStorage))
          flatTyreJob mikeJohnson))
  <> "tech-002".
Proof.
  apply (proj1 (proj2 (proj2 (deleteTechProfile_hard_removal "tech-002"
                                busyStorage)))
           "wo-flat").
  decide_In.
Defined.

Lemma deactivated_technician_not_suggested_witness :
  tech_id
    (profile
       (scoredIn
          (databaseDoc
             (execState (updateTechProfile "tech-002" (activeUpdate false))
                busyStorage))
          flatTyreJob mikeJohnson))
  <> "tech-002".
Proof.
  apply (deactivated_technician_not_suggested "tech-002" busyStorage
           "wo-flat").
  - distinct_strings.
  - decide_In.
Defined.

Lemma getTechsBySpecialty_sorted_members_witness :
  In mikeJohnson (evalState (getTechsBySpecialty "brake") busyStorage).
Proof.
  apply (proj2 (proj1 (getTechsBySpecialty_sorted_members "brake" busyStorage)
                  mikeJohnson)).
  split; [decide_In|]. split; [reflexivity|].
  exists ["brake"; "suspension"; "general"].
  split; [reflexivity | left; reflexivity].
Defined.

Lemma createTechProfile_then_lookup_witness :
  evalState (createTechProfile "tech-004" brakeAndEngineTech) emptyStorage
  = withTechId "tech-004" brakeAndEngineTech
  /\ evalState (getTechProfile "tech-004")
       (execState (createTechProfile "tech-004" brakeAndEngineTech)
          emptyStorage)
     = Some (withTechId "tech-004" brakeAndEngineTech)
  /\ (forall other,
        other <> "tech-004" ->
        evalState (getTechProfile other)
          (execState (createTechProfile "tech-004" brakeAndEngineTech)
             emptyStorage)
        = evalState (getTechProfile other) emptyStorage).
Proof.
  apply (createTechProfile_then_lookup "tech-004" brakeAndEngineTech
           emptyStorage).
  fresh_among.
Defined.

Lemma isShopOpen_minutes_witness :
  evalState (isShopOpen hostUTC (mondayAt 12 0)) emptyStorage = false.
Proof.
  rewrite (isShopOpen_minutes hostUTC (mondayAt 12 0) emptyStorage
             (mkShopSchedule 1 "schedule_1" "08:00" "17:00")
             480 1020 720 780
             ltac:(vm_compute; reflexivity) eq_refl
             ltac:(vm_compute; reflexivity) ltac:(vm_compute; reflexivity)
             ltac:(vm_compute; reflexivity) ltac:(vm_compute; reflexivity)
             ltac:(lia) ltac:(lia) ltac:(lia) ltac:(lia)).
  vm_compute. reflexivity.
Defined.

(** The Monday after the clocks went back has no clock change. *)
Ltac steady_after_change :=
  let t := fresh "t" in
  let Ht := fresh "Ht" in
  intros t Ht;
  replace (localMidnight easternAutumn2026 0 mondayAfterFallBack)
    with (20759 * msPerDay + 5 * msPerHour) in Ht
    by (vm_compute; reflexivity);
  unfold LocalTime, steadyHost, easternAutumn2026, fallBackInstant,
    msPerDay, msPerHour, msPerMinute in *;
  cbn [Zoned.DaylightSavingTA Zoned.localAdjustment Zoned.locale LocalTZA];
  split;
  match goal with
  | |- (if ?a <? ?b then _ else _) = _ =>
      destruct (Z.ltb_spec a b); [lia | reflexivity]
  end.

Lemma getAvailableTimeSlots_complete_witness :
  exists slots slot,
    evalState (Zoned.getAvailableTimeSlots easternAutumn2026 49
                 mondayAfterFallBack "oil-change" None) emptyStorage
    = Some slots
    /\ In slot slots
    /\ slot_start slot
       = localMidnight easternAutumn2026 0 mondayAfterFallBack
         + (480 + 30 * 3) * msPerMinute.
Proof.
  apply (getAvailableTimeSlots_complete easternAutumn2026 0
           mondayAfterFallBack 49 "oil-change" None emptyStorage
           (mkShopSchedule 1 "schedule_1" "08:00" "17:00") 480 1020 3).
  - steady_after_change.
  - vm_compute. reflexivity.
  - reflexivity.
  - vm_compute. reflexivity.
  - vm_compute. reflexivity.
  - lia.
  - lia.
  - vm_compute. discriminate.
  - lia.
  - lia.
  - lia.
  - vm_compute. discriminate.
Defined.

Lemma available_slot_is_open_witness :
  evalState (Zoned.isShopOpen easternAutumn2026
               (slot_start mondayAfterFirstSlot)) emptyStorage
  = true.
Proof.
  eapply (available_slot_is_open easternAutumn2026 0 mondayAfterFallBack 49
            "oil-change" None emptyStorage
            (mkShopSchedule 1 "schedule_1" "08:00" "17:00") 480 1020 _
            mondayAfterFirstSlot).
  - steady_after_change.
  - vm_compute. reflexivity.
  - vm_compute. reflexivity.
  - vm_compute. reflexivity.
  - lia.
  - lia.
  - right. exists 720, 780.
    split; [vm_compute; reflexivity|].
    split; [vm_compute; reflexivity|]. lia.
  - vm_compute. reflexivity.
  - vm_compute. reflexivity.
  - left. reflexivity.
  - reflexivity.
Defined.
